(** * MassBalanceMachine: climate feature extraction and dataset splitting

    A shallow embedding of

    - [massbalancemachine/data_processing/get_climate_data.py]
      (the climate feature extractor), and
    - [massbalancemachine/dataloader/DataLoader.py]
      (the train/test and cross-validation splitter),

    together with the library primitives they call (numpy, pandas, xarray and
    scikit-learn), each modelled from its documented behaviour next to the
    place where the source uses it.

    Conventions.
    - Python [float] and numpy [float64] are Rocq's primitive binary64
      floats; nothing is idealised to real numbers unless a definition says
      so.
    - Python exceptions are values of [exn]; a function that can raise
      returns a [result].
    - A pandas timestamp is a calendar date within the reach of 64 bits of
      nanoseconds; what would leave it raises [OutOfBoundsDatetime].
    - numpy index arrays are [list nat]; pandas columns are lists, one entry
      per row, in row order.
    - A list slice [a[i:j]] is [py_slice i j a]. *)

From Stdlib Require Import ZArith Lia Ascii String.
From Stdlib Require Import PrimFloat FloatOps SpecFloat.
From Stdlib Require Uint63 FloatAxioms.
From stdpp Require Import base option list numbers strings pretty sorting.

(* Decimal literals such as [0.1] denote the nearest binary64 value. *)
#[local] Set Warnings "-inexact-float".

(** ** Python exceptions and results *)

Module Py.

Inductive exn : Type :=
| ValueError (msg : string)
| AssertionError
| AttributeError (msg : string)
| IndexError (msg : string)
| TypeError (msg : string)
| OutOfBoundsDatetime (msg : string).

Inductive result (A : Type) : Type :=
| Ok (a : A)
| Raise (e : exn).

Arguments Ok {A} a.
Arguments Raise {A} e.

#[export] Instance result_ret : MRet result := λ A a, Ok a.

#[export] Instance result_bind : MBind result := λ A B f r,
  match r with
  | Ok a => f a
  | Raise e => Raise e
  end.

Definition is_ok {A} (r : result A) : bool :=
  match r with Ok _ => true | Raise _ => false end.

(** [a[idx]] with an integer index array: every index must be in range. *)
Fixpoint take_idx {A} (a : list A) (idx : list nat) : result (list A) :=
  match idx with
  | [] => Ok []
  | i :: idx' =>
      match a !! i with
      | Some x => xs ← take_idx a idx'; Ok (x :: xs)
      | None => Raise (IndexError "index out of bounds")
      end
  end.

(** [a[i:j]] for [0 <= i <= j]. *)
Definition py_slice {A} (i j : nat) (a : list A) : list A := take (j - i) (drop i a).

End Py.

Export Py.

(** ** binary64 arithmetic beyond the primitives *)

Module Float64.

Local Open Scope float_scope.

(** C's [fmod]: the exact remainder [a - trunc(a/b)*b], with the sign of
    [a].  Both operands are brought to the smaller of the two exponents, the
    remainder is taken on integers, and the result (which is representable)
    is turned back into a float. *)
Definition fmod (a b : float) : float :=
  match Prim2SF a, Prim2SF b with
  | S754_nan, _ | _, S754_nan => nan
  | S754_infinity _, _ | _, S754_zero _ => nan
  | S754_zero _, _ => a
  | S754_finite _ _ _, S754_infinity _ => a
  | S754_finite sa ma ea, S754_finite _ mb eb =>
      let e := Z.min ea eb in
      let A := (Zpos ma * 2 ^ (ea - e))%Z in
      let B := (Zpos mb * 2 ^ (eb - e))%Z in
      let r := SF2Prim (binary_normalize prec emax (A mod B)%Z e false) in
      if sa then - r else r
  end.

(** numpy's [remainder] on floats ([npy_divmod]), which is also Python's
    [%]: [fmod] moved to the sign of the divisor. *)
Definition remainder (a b : float) : float :=
  let m := fmod a b in
  if PrimFloat.is_zero b then m
  else if PrimFloat.is_zero m then (if PrimFloat.ltb b 0 then neg_zero else zero)
  else if xorb (PrimFloat.ltb b 0) (PrimFloat.ltb m 0) then m + b
  else m.

(** [math.ceil]; [None] stands for the error Python raises on NaN and on
    the infinities. *)
Definition ceil (x : float) : option Z :=
  match Prim2SF x with
  | S754_zero _ => Some 0%Z
  | S754_finite s m e =>
      let v := if s then Zneg m else Zpos m in
      Some (if (0 <=? e)%Z then v * 2 ^ e else - ((- v) / 2 ^ (- e)))%Z
  | S754_infinity _ | S754_nan => None
  end.

(** Conversion of a Python [int] (here a count of samples, below [2^63]) to
    a float, rounding to nearest. *)
Definition of_nat (n : nat) : float := of_uint63 (Uint63.of_Z (Z.of_nat n)).

End Float64.

(** ** pandas timestamps and [date_range] *)

Module Pandas.

Local Open Scope Z_scope.

(** A [Timestamp] at midnight, by its date in the proleptic Gregorian
    calendar.  pandas keeps a timestamp as a 64-bit count of nanoseconds
    since 1970, which reaches from 21 September 1677 (00:12:43) to 11 April
    2262 (23:47:16): the midnights it can hold are those of [Timestamp_min]
    to [Timestamp_max].  Every operation below that makes a timestamp checks
    these bounds with [check_bounds] and raises [OutOfBoundsDatetime] outside
    them, as pandas does. *)
Record Timestamp : Type := mkTimestamp { year : Z; month : Z; day : Z }.

#[export] Instance Timestamp_eq_dec : EqDecision Timestamp.
Proof. solve_decision. Defined.

Definition is_leap_year (y : Z) : bool :=
  ((y mod 4 =? 0) && negb (y mod 100 =? 0)) || (y mod 400 =? 0).

Definition days_in_month (y m : Z) : Z :=
  match m with
  | 2 => if is_leap_year y then 29 else 28
  | 4 | 6 | 9 | 11 => 30
  | _ => 31
  end.

(** Chronological order, as a boolean. *)
Definition ts_leb (a b : Timestamp) : bool :=
  (year a <? year b) ||
  ((year a =? year b) &&
   ((month a <? month b) || ((month a =? month b) && (day a <=? day b)))).

(** The first and the last midnight of [Timestamp.min .. Timestamp.max]. *)
Definition Timestamp_min : Timestamp := mkTimestamp 1677 9 22.
Definition Timestamp_max : Timestamp := mkTimestamp 2262 4 11.

Definition in_bounds (t : Timestamp) : bool :=
  ts_leb Timestamp_min t && ts_leb t Timestamp_max.

Definition check_bounds (t : Timestamp) : result Timestamp :=
  if in_bounds t then Ok t
  else Raise (OutOfBoundsDatetime "Out of bounds nanosecond timestamp").

(** *** Timestamps from strings *)

Definition digit (c : ascii) : option Z :=
  let n := nat_of_ascii c in
  if (48 <=? n)%nat && (n <=? 57)%nat then Some (Z.of_nat (n - 48)) else None.

(** The ISO 8601 date [YYYY-MM-DD], with a year of exactly four digits: the
    form pandas reads with its own parser. *)
Definition iso_date (s : string) : option Timestamp :=
  match s with
  | String y1 (String y2 (String y3 (String y4 (String sep1 (String m1 (String m2
      (String sep2 (String d1 (String d2 EmptyString))))))))) =>
      y1 ← digit y1; y2 ← digit y2; y3 ← digit y3; y4 ← digit y4;
      m1 ← digit m1; m2 ← digit m2; d1 ← digit d1; d2 ← digit d2;
      let y := 1000 * y1 + 100 * y2 + 10 * y3 + y4 in
      let m := 10 * m1 + m2 in
      let d := 10 * d1 + d2 in
      if Ascii.eqb sep1 "-" && Ascii.eqb sep2 "-"
         && (1 <=? m) && (m <=? 12) && (1 <=? d) && (d <=? days_in_month y m)
      then Some (mkTimestamp y m d) else None
  | _ => None
  end.

(** [Timestamp(s)] for a string [s], at nanosecond resolution.  A string
    that is not an ISO date goes to pandas' second parser
    [parse_datetime_string], which is built on [dateutil]: it reads a year of
    two digits as a year of the century around the day the code runs on, may
    take the parts of a date in another order, and raises [DateParseError]
    on what it cannot read.  That parser is not modelled; it is a parameter
    here, taken to return dates at midnight. *)
Definition Timestamp_of_string (parse_datetime_string : string → result Timestamp)
    (s : string) : result Timestamp :=
  t ← match iso_date s with
      | Some t => Ok t
      | None => parse_datetime_string s
      end;
  check_bounds t.

(** *** The [MonthEnd] offset *)

Definition month_end (y m : Z) : Timestamp := mkTimestamp y m (days_in_month y m).

(** [MonthEnd.is_on_offset]. *)
Definition is_on_offset (t : Timestamp) : bool :=
  day t =? days_in_month (year t) (month t).

(** The end of the month of [t], and the month ends after and before the
    month end [t], as dates. *)
Definition this_month_end (t : Timestamp) : Timestamp := month_end (year t) (month t).

Definition next_month_end (t : Timestamp) : Timestamp :=
  if month t =? 12 then month_end (year t + 1) 1
  else month_end (year t) (month t + 1).

Definition previous_month_end (t : Timestamp) : Timestamp :=
  if month t =? 1 then month_end (year t - 1) 12
  else month_end (year t) (month t - 1).

(** [MonthEnd.rollforward]: a timestamp that is not a month end moves to the
    end of its month. *)
Definition rollforward (t : Timestamp) : result Timestamp :=
  if is_on_offset t then Ok t else check_bounds (this_month_end t).

(** [t + MonthEnd(1)] and [t - MonthEnd(1)] for [t] a month end. *)
Definition add_MonthEnd (t : Timestamp) : result Timestamp :=
  check_bounds (next_month_end t).

Definition sub_MonthEnd (t : Timestamp) : result Timestamp :=
  check_bounds (previous_month_end t).

(** *** [date_range] *)

(** The loop of [_generate_range]: emit [cur] while it does not pass [stop],
    and do not add the offset once [stop] is reached.  Every turn advances
    [cur] by one month, so the loop ends; [fuel] bounds the number of
    turns. *)
Fixpoint generate_range (fuel : nat) (cur stop : Timestamp) : result (list Timestamp) :=
  match fuel with
  | O => Ok []
  | S fuel' =>
      if ts_leb cur stop then
        if decide (cur = stop) then Ok [cur]
        else
          next_date ← add_MonthEnd cur;
          rest ← generate_range fuel' next_date stop;
          Ok (cur :: rest)
      else Ok []
  end.

(** Number of month ends between two timestamps, plus a margin: enough turns
    for [generate_range] to stop on its own test. *)
Definition range_fuel (start stop : Timestamp) : nat :=
  Z.to_nat (12 * (year stop - year start) + (month stop - month start) + 2).

(** [pd.date_range(start, end, freq="ME")] for two timestamps: [start]
    moves to the end of its month, and the range holds the month ends [t]
    with [start <= t <= end], in order.  With [end] before the first month
    end the range is empty, after pandas has taken one offset from that
    month end. *)
Definition date_range_ME (start stop : Timestamp) : result (list Timestamp) :=
  start ← rollforward start;
  if ts_leb start stop then generate_range (range_fuel start stop) start stop
  else _ ← sub_MonthEnd start; Ok [].

(** [pd.date_range(start, end, freq="ME")] for two strings: both are read,
    [start] first. *)
Definition date_range (parse_datetime_string : string → result Timestamp)
    (start stop : string) : result (list Timestamp) :=
  start ← Timestamp_of_string parse_datetime_string start;
  stop ← Timestamp_of_string parse_datetime_string stop;
  date_range_ME start stop.

(** [Series.apply(f)]: [f] on every entry in turn; the first exception ends
    the call. *)
Fixpoint Series_apply {A B} (f : A → result B) (s : list A) : result (list B) :=
  match s with
  | [] => Ok []
  | x :: s' => y ← f x; ys ← Series_apply f s'; Ok (y :: ys)
  end.

End Pandas.

(** ** numpy *)

Module Numpy.

(** Python's order on [str] (code points); the keys of the tables are ASCII. *)
Definition str_le (a b : string) : Prop := String.leb a b = true.

#[export] Instance str_le_dec : RelDecision str_le.
Proof. intros a b. unfold str_le. apply _. Defined.

(** [np.unique(a)]: the distinct values, sorted. *)
Definition unique (a : list string) : list string :=
  remove_dups (merge_sort str_le a).

(** Position of the first occurrence of [x]. *)
Definition index_of (x : string) (l : list string) : nat :=
  from_option fst 0 (list_find (x =.) l).

(** [np.unique(a, return_inverse=True)]: the sorted distinct values [u] and,
    for every entry of [a], its position in [u]. *)
Definition unique_inverse (a : list string) : list string * list nat :=
  let u := unique a in (u, (λ x, index_of x u) <$> a).

(** [np.flatnonzero(mask)]: the positions holding [True], ascending. *)
Definition flatnonzero (mask : list bool) : list nat :=
  filter (λ i, mask !! i = Some true) (seq 0 (length mask)).

(** [np.isin(a, b)]. *)
Definition isin (a b : list nat) : list bool :=
  (λ x, bool_decide (x ∈ b)) <$> a.

(** [np.intersect1d(a, b)]: the sorted distinct values found in both. *)
Definition intersect1d (a b : list string) : list string :=
  unique (filter (.∈ b) a).

(** [np.bincount(a)]: how often each of [0 .. max a] occurs. *)
Definition bincount (a : list nat) : list nat :=
  match a with
  | [] => []
  | _ => (λ v, length (filter (v =.) a)) <$> seq 0 (S (max_list a))
  end.

(** [np.argmin(a)]: the first position of the least value. *)
Fixpoint argmin (a : list nat) : nat :=
  match a with
  | [] => 0
  | x :: a' => if forallb (λ y, x <=? y) a' then 0 else S (argmin a')
  end.

(** [a.reshape(-1, k)] and the like: the length of the free axis of an array
    of [size] elements whose other axes multiply to [k]. *)
Definition reshape_infer (size k : nat) : result nat :=
  if k =? 0 then
    Raise (ValueError "cannot reshape array: unknown dimension with a zero-size axis")
  else if negb (size mod k =? 0) then
    Raise (ValueError "cannot reshape array: size is not divisible by the given axes")
  else Ok (size / k).

(** [a.transpose(0, 2, 1)] of a C-ordered array of shape [(d1, d2, d3)],
    flat: entry [(p, v, t)] of the result is entry [(p, t, v)] of [a]. *)
Definition transpose_0_2_1 (d1 d2 d3 : nat) (a : list float) : list float :=
  p ← seq 0 d1; v ← seq 0 d3; t ← seq 0 d2;
  from_option (λ x, [x]) [] (a !! ((p * d2 + t) * d3 + v)).

(** The rows of a C-ordered array of shape [(d1, w)]. *)
Definition rows_of (d1 w : nat) (a : list float) : list (list float) :=
  (λ p, take w (drop (p * w) a)) <$> seq 0 d1.

(** One admissible [np.argsort]: positions ordered by value, equal values in
    their original order.  numpy's default sort is not stable, so the order
    in which it returns equal values is not fixed; the splitter below takes
    [np.argsort] as a parameter and this instance only serves the examples. *)
Fixpoint insert_by_value (a : list nat) (i : nat) (sorted : list nat) : list nat :=
  match sorted with
  | [] => [i]
  | j :: rest =>
      if (a !!! i <=? a !!! j) then i :: sorted
      else j :: insert_by_value a i rest
  end.

Definition argsort_stable (a : list nat) : list nat :=
  foldr (insert_by_value a) [] (seq 0 (length a)).

End Numpy.

(** ** get_climate_data.py *)

Module get_climate_data.

Import Pandas.

(** *** Tables and datasets *)

(** A table: its column labels and its rows. *)
Record DataFrame (R : Type) : Type := mkDataFrame {
  columns : list string;
  rows : list R
}.
Arguments mkDataFrame {R} columns rows.
Arguments columns {R} d.
Arguments rows {R} d.

(** One stake measurement, with the columns the extractor requires.  [YEAR]
    is [None] where the table holds NaN, and the integer [int(year)]
    otherwise. *)
Record stake : Type := mkStake {
  POINT_LAT : float;
  POINT_LON : float;
  POINT_ELEVATION : float;
  YEAR : option Z;
  ID : string;
  RGIId : string;
  POINT_BALANCE : float
}.

Definition stake_columns : list string :=
  ["POINT_LAT"; "POINT_LON"; "POINT_ELEVATION"; "YEAR"; "ID"; "RGIId";
   "POINT_BALANCE"].

(** The climate dataset as the extractor reads it: the names of its data
    variables ([list(ds.keys())]) and its nearest-neighbour lookup
    [ds[v].sel(latitude=.., longitude=.., time=.., method="nearest")]. *)
Record climate_dataset : Type := mkClimate {
  data_vars : list string;
  sel_nearest : string → float → float → Timestamp → float
}.

(** A row of [ds_geopotential.sel(..).to_dataframe()]. *)
Record altitude_row : Type := mkAltitudeRow {
  latitude : float;
  longitude : float;
  z : float;
  altitude_climate : float
}.

(** The terrain dataset with its derived altitude, as
    [_process_altitude_data] reads it: its nearest-neighbour lookup at a
    point. *)
Record altitude_dataset : Type := mkAltitude {
  sel_nearest_point : float → float → altitude_row
}.

(** The terrain grid along its longitude axis: every longitude with the
    slice of data it labels. *)
Record geopotential_grid : Type := mkGrid {
  grid_latitude : list float;
  grid_longitude : list (float * list float)
}.

(** The enriched record: the input columns, the wide climate columns and
    the two altitude columns. *)
Record enriched : Type := mkEnriched {
  base : stake;
  climate : list float;
  ALTITUDE_CLIMATE : float;
  ELEVATION_DIFFERENCE : float
}.

(** *** [_calculate_geopotential_height] *)

(** [r_earth * (z / g) / (r_earth - (z / g))] at one grid cell. *)
Definition geopotential_height (z : float) : float :=
  let r_earth := (6367.47 * 10e3)%float in
  let g := 9.80665%float in
  (r_earth * (z / g) / (r_earth - (z / g)))%float.

(** The terrain dataset before its altitude is derived, as [sel] reads it:
    latitude, longitude and geopotential [z] of the grid cell nearest to a
    point. *)
Record geopotential_dataset : Type := mkGeopotential {
  sel_nearest_cell : float → float → float * float * float
}.

(** [assign] adds the variable [altitude_climate], computed cell by cell,
    and keeps the coordinates and [z]. *)
Definition _calculate_geopotential_height (ds_geopotential : geopotential_dataset)
  : altitude_dataset :=
  mkAltitude (λ lat lon,
    let '(latitude, longitude, z) := sel_nearest_cell ds_geopotential lat lon in
    mkAltitudeRow latitude longitude z (geopotential_height z)).

(** *** [_adjust_longitude] *)

(** The coordinate map [((lon + 180) % 360) - 180]. *)
Definition wrap_longitude (lon : float) : float :=
  (Float64.remainder (lon + 180) 360 - 180)%float.

(** The order [sortby] sorts coordinates in: ascending, NaN last. *)
Definition lon_leb (a b : float) : bool := is_nan b || PrimFloat.leb a b.

(** [sortby] is a stable sort: an entry goes in front of the first one that
    is not smaller. *)
Fixpoint sortby_insert {A} (x : float * A) (sorted : list (float * A)) : list (float * A) :=
  match sorted with
  | [] => [x]
  | y :: rest =>
      if lon_leb x.1 y.1 then x :: sorted else y :: sortby_insert x rest
  end.

Definition sortby_longitude {A} (l : list (float * A)) : list (float * A) :=
  foldr sortby_insert [] l.

Definition _adjust_longitude (ds : geopotential_grid) : geopotential_grid :=
  mkGrid (grid_latitude ds)
    (sortby_longitude ((λ c, (wrap_longitude c.1, c.2)) <$> grid_longitude ds)).

(** *** [_generate_climate_variable_names] *)

(** [calendar.month_abbr]: thirteen entries, the first one empty. *)
Definition month_abbr : list string :=
  [""; "Jan"; "Feb"; "Mar"; "Apr"; "May"; "Jun"; "Jul"; "Aug"; "Sep"; "Oct";
   "Nov"; "Dec"].

Definition lower_ascii (c : ascii) : ascii :=
  let n := nat_of_ascii c in
  if (65 <=? n) && (n <=? 90) then ascii_of_nat (n + 32) else c.

Fixpoint lower (s : string) : string :=
  match s with
  | EmptyString => EmptyString
  | String c s' => String (lower_ascii c) (lower s')
  end.

Definition months_names : list string :=
  (λ month, "_" +:+ lower month) <$> (drop 10 month_abbr ++ py_slice 1 10 month_abbr).

Definition _generate_climate_variable_names (ds_climate : climate_dataset) : list string :=
  climate_var ← data_vars ds_climate;
  month_name ← months_names;
  [climate_var +:+ month_name].

(** *** [_create_date_range] and [_add_date_range] *)

Section DateRanges.

(** pandas' parser of the strings that are not ISO dates; see
    [Pandas.Timestamp_of_string]. *)
Context (parse_datetime_string : string → result Timestamp).

(** The f-strings write the year as Python writes an [int]: in decimal, with
    a sign when negative and without padding.  From 1001 to 9999 both
    strings are ISO dates; any other year is read by the second parser. *)
Definition _create_date_range (year : option Z) : result (option (list Timestamp)) :=
  match year with
  | None => Ok None
  | Some year =>
      range ← date_range parse_datetime_string
                 (pretty (year - 1)%Z +:+ "-09-01") (pretty year +:+ "-09-01");
      Ok (Some range)
  end.

Definition _add_date_range (df : DataFrame stake)
  : result (DataFrame (stake * option (list Timestamp))) :=
  range_date ← Series_apply (λ r, _create_date_range (YEAR r)) (rows df);
  Ok (mkDataFrame (columns df ++ ["range_date"]) (zip (rows df) range_date)).

End DateRanges.

(** *** [_process_climate_data] *)

(** [[r.values for r in df["range_date"].values]]: [None] has no [values]. *)
Fixpoint range_values (rs : list (option (list Timestamp))) : result (list (list Timestamp)) :=
  match rs with
  | [] => Ok []
  | None :: _ => Raise (AttributeError "'NoneType' object has no attribute 'values'")
  | Some r :: rs' => vs ← range_values rs'; Ok (r :: vs)
  end.

(** [xr.DataArray(np.array(..), dims=["points", "time"])]: the ranges must
    form a two-dimensional array. *)
Definition time_array (date_array : list (list Timestamp)) : result (list (list Timestamp)) :=
  match date_array with
  | [] => Raise (ValueError "different number of dimensions on data and dims: 1 vs 2")
  | r :: _ =>
      if forallb (λ r', length r' =? length r) date_array then Ok date_array
      else Raise (ValueError "setting an array element with a sequence: inhomogeneous shape")
  end.

(** [ds_climate.sel(..).to_dataframe()] without its coordinate and index
    columns: one row per point and time, points first, one column per data
    variable. *)
Definition climate_long (ds_climate : climate_dataset)
    (lat_da lon_da : list float) (time_da : list (list Timestamp)) : list (list float) :=
  '(lat, lon, times) ← zip (zip lat_da lon_da) time_da;
  time ← times;
  [(λ v, sel_nearest ds_climate v lat lon time) <$> data_vars ds_climate].

Definition _process_climate_data (ds_climate : climate_dataset)
    (df : DataFrame (stake * option (list Timestamp))) : result (DataFrame (list float)) :=
  let lat_da := (λ r, POINT_LAT r.1) <$> rows df in
  let lon_da := (λ r, POINT_LON r.1) <$> rows df in
  date_array ← range_values (snd <$> rows df);
  time_da ← time_array date_array;
  let climate_df := climate_long ds_climate lat_da lon_da time_da in
  let num_cols := length (data_vars ds_climate) in
  let flat := mjoin climate_df in
  groups ← Numpy.reshape_infer (length flat) (12 * num_cols);
  let result_array := Numpy.transpose_0_2_1 groups 12 num_cols flat in
  n ← Numpy.reshape_infer (length result_array) (12 * num_cols);
  let result_df := Numpy.rows_of n (12 * num_cols) result_array in
  let names := _generate_climate_variable_names ds_climate in
  if length names =? 12 * num_cols then Ok (mkDataFrame names result_df)
  else Raise (ValueError "Length mismatch: expected axis has a different number of elements").

(** *** [_process_altitude_data] *)

Definition _process_altitude_data (ds_geopotential : altitude_dataset)
    (df : DataFrame (stake * option (list Timestamp))) : DataFrame altitude_row :=
  mkDataFrame ["latitude"; "longitude"; "z"; "altitude_climate"]
    ((λ r, sel_nearest_point ds_geopotential (POINT_LAT r.1) (POINT_LON r.1)) <$> rows df).

(** *** [_combine_dataframes] *)

Definition drop_columns (names cols : list string) : list string :=
  filter (λ c, c ∉ names) cols.

Definition rename_column (old new c : string) : string :=
  if decide (c = old) then new else c.

(** [pd.concat(.., axis=1)] joins the three tables on their row labels
    [0, 1, ..]: where a table has no row of a label, its columns hold NaN.
    The table of stakes and the altitude table have one row per stake.  A
    climate table with fewer rows is filled up with rows of NaN; the rows it
    has beyond the stakes get no altitude, and [dropna] removes them with
    the stakes whose altitude is missing. *)
Definition _combine_dataframes
    (df : DataFrame (stake * option (list Timestamp)))
    (climate_df : DataFrame (list float))
    (altitude_df : DataFrame altitude_row)
  : DataFrame (stake * list float * float) :=
  let df_cols := drop_columns ["range_date"] (columns df) in
  let altitude_cols := drop_columns ["latitude"; "longitude"; "z"] (columns altitude_df) in
  let cols := df_cols ++ columns climate_df ++ altitude_cols in
  let cols := rename_column "altitude_climate" "ALTITUDE_CLIMATE" <$> cols in
  let missing := replicate (length (columns climate_df)) nan in
  let climate_rows :=
    rows climate_df ++ replicate (length (rows df) - length (rows climate_df)) missing in
  let combined :=
    zip (zip (fst <$> rows df) climate_rows) (altitude_climate <$> rows altitude_df) in
  mkDataFrame cols (filter (λ r, is_nan r.2 = false) combined).

(** *** [_calculate_elevation_difference] *)

Definition _calculate_elevation_difference (df : DataFrame (stake * list float * float))
  : DataFrame enriched :=
  mkDataFrame (columns df ++ ["ELEVATION_DIFFERENCE"])
    ((λ r, mkEnriched r.1.1 r.1.2 r.2 (r.2 - POINT_ELEVATION r.1.1)%float) <$> rows df).

(** *** [get_climate_features]

    From the point where both datasets are loaded and prepared (lines 73 to
    90 of the source): [ds_climate] is the climate dataset after the unit
    change and the reduction of [expver], [ds_geopotential_metric] the
    cropped terrain dataset with its altitude.  [parse_datetime_string] is
    the parser that [_create_date_range] needs for the years that are not
    written with four digits. *)
Definition get_climate_features (parse_datetime_string : string → result Timestamp)
    (df : DataFrame stake)
    (ds_climate : climate_dataset) (ds_geopotential_metric : altitude_dataset)
  : result (DataFrame enriched) :=
  df ← _add_date_range parse_datetime_string df;
  climate_df ← _process_climate_data ds_climate df;
  let altitude_df := _process_altitude_data ds_geopotential_metric df in
  let df := _combine_dataframes df climate_df altitude_df in
  Ok (_calculate_elevation_difference df).

End get_climate_data.

(** ** scikit-learn splitters *)

Module Sklearn.

Section Splitters.

(** [np.random.RandomState(seed).permutation(n)], which is
    [RandomState(seed).shuffle] applied to [np.arange(n)]: a function of the
    seed and of [n].  The generator itself is not modelled; where a result
    needs the output to be a permutation of [0 .. n-1], it says so. *)
Context (rs_permutation : Z → nat → list nat).

(** [np.argsort] with numpy's default sort; see [Numpy.argsort_stable]. *)
Context (np_argsort : list nat → list nat).

(** [_validate_shuffle_split] for a float [test_size] and no [train_size].
    [ceil(test_size * n_samples)] never exceeds [n_samples] for
    [test_size < 1], so [n_train] is not negative. *)
Definition _validate_shuffle_split (n_samples : nat) (test_size : float) : result (nat * nat) :=
  if PrimFloat.leb test_size 0 || PrimFloat.leb 1 test_size then
    Raise (ValueError "test_size should be a float in the (0, 1) range")
  else
    match Float64.ceil (test_size * Float64.of_nat n_samples) with
    | None => Raise (ValueError "cannot convert float NaN to integer")
    | Some n_test =>
        let n_train := (Z.of_nat n_samples - n_test)%Z in
        if (n_train =? 0)%Z then
          Raise (ValueError "With these sizes the resulting train set will be empty")
        else Ok (Z.to_nat n_train, Z.to_nat n_test)
    end.

(** [check_random_state] for an integer seed: [np.random.RandomState(seed)]
    accepts the seeds of 32 bits. *)
Definition check_random_state (seed : Z) : result Z :=
  if (0 <=? seed)%Z && (seed <? 2 ^ 32)%Z then Ok seed
  else Raise (ValueError "Seed must be between 0 and 2**32 - 1").

(** [next(GroupShuffleSplit(n_splits=1, test_size, random_state).split(X, y, groups))]:
    the distinct groups are permuted, the first [n_test] of them go to the
    test side and the next [n_train] to the train side; a row follows its
    group. *)
Definition GroupShuffleSplit_split (random_state : Z) (test_size : float)
    (groups : list string) : result (list nat * list nat) :=
  match groups with
  | [] => Raise (ValueError "Found array with 0 sample(s) while a minimum of 1 is required")
  | _ =>
      let '(classes, group_indices) := Numpy.unique_inverse groups in
      '(n_train, n_test) ← _validate_shuffle_split (length classes) test_size;
      rng ← check_random_state random_state;
      let permutation := rs_permutation rng (length classes) in
      let group_test := py_slice 0 n_test permutation in
      let group_train := py_slice n_test (n_test + n_train) permutation in
      let train := Numpy.flatnonzero (Numpy.isin group_indices group_train) in
      let test := Numpy.flatnonzero (Numpy.isin group_indices group_test) in
      Ok (train, test)
  end.

(** [_BaseKFold.__init__]: the number of folds must be at least two. *)
Definition _BaseKFold_init (n_splits : option Z) : result nat :=
  match n_splits with
  | None => Raise (ValueError "The number of folds must be of Integral type")
  | Some k =>
      if (k <=? 1)%Z then
        Raise (ValueError "k-fold cross-validation requires at least one train/test split by setting n_splits=2 or more")
      else Ok (Z.to_nat k)
  end.

(** One turn of [BaseCrossValidator.split]: the test indices set a boolean
    mask over the samples; the fold is the positions off and on the mask. *)
Definition fold_of_test_index (n_samples : nat) (test_index : list nat)
  : result (list nat * list nat) :=
  if forallb (λ i, i <? n_samples) test_index then
    let test_mask := (λ i, bool_decide (i ∈ test_index)) <$> seq 0 n_samples in
    Ok (Numpy.flatnonzero (negb <$> test_mask), Numpy.flatnonzero test_mask)
  else Raise (IndexError "index is out of bounds for the test mask").

Fixpoint folds_of_test_indices (n_samples : nat) (tests : list (list nat))
  : result (list (list nat * list nat)) :=
  match tests with
  | [] => Ok []
  | t :: tests' =>
      fold ← fold_of_test_index n_samples t;
      folds ← folds_of_test_indices n_samples tests';
      Ok (fold :: folds)
  end.

(** [_BaseKFold.split], given the test indices of its subclass. *)
Definition _BaseKFold_split (n_splits n_samples : nat)
    (iter_test_indices : result (list (list nat))) : result (list (list nat * list nat)) :=
  if n_samples <? n_splits then
    Raise (ValueError "Cannot have number of splits n_splits greater than the number of samples")
  else
    tests ← iter_test_indices;
    folds_of_test_indices n_samples tests.

(** [indices[current : current + fold_size]] for the fold sizes in turn. *)
Fixpoint consecutive_slices (indices : list nat) (current : nat) (fold_sizes : list nat)
  : list (list nat) :=
  match fold_sizes with
  | [] => []
  | fold_size :: sizes =>
      py_slice current (current + fold_size) indices
      :: consecutive_slices indices (current + fold_size) sizes
  end.

(** [KFold(n_splits, shuffle=True, random_state)._iter_test_indices]. *)
Definition KFold_iter_test_indices (n_splits : nat) (random_state : Z) (n_samples : nat)
  : result (list (list nat)) :=
  rng ← check_random_state random_state;
  let indices := rs_permutation rng n_samples in
  let fold_sizes :=
    (λ i, n_samples / n_splits + (if i <? n_samples mod n_splits then 1 else 0))
      <$> seq 0 n_splits in
  Ok (consecutive_slices indices 0 fold_sizes).

(** The balancing loop of [GroupKFold]: the groups, heaviest first, go one
    by one to the fold that is lightest so far. *)
Definition assign_group (state : list nat * list nat) (gw : nat * nat) : list nat * list nat :=
  let '(n_samples_per_fold, group_to_fold) := state in
  let '(group, weight) := gw in
  let lightest_fold := Numpy.argmin n_samples_per_fold in
  (<[lightest_fold := n_samples_per_fold !!! lightest_fold + weight]> n_samples_per_fold,
   <[group := lightest_fold]> group_to_fold).

(** [GroupKFold(n_splits)._iter_test_indices]. *)
Definition GroupKFold_iter_test_indices (n_splits : nat) (groups : list string)
  : result (list (list nat)) :=
  let '(unique_groups, groups) := Numpy.unique_inverse groups in
  let n_groups := length unique_groups in
  if n_groups <? n_splits then
    Raise (ValueError "Cannot have number of splits n_splits greater than the number of groups")
  else
    let n_samples_per_group := Numpy.bincount groups in
    let indices := reverse (np_argsort n_samples_per_group) in
    n_samples_per_group ← take_idx n_samples_per_group indices;
    let n_samples_per_fold := replicate n_splits 0 in
    let group_to_fold := replicate n_groups 0 in
    let '(_, group_to_fold) :=
      foldl assign_group (n_samples_per_fold, group_to_fold)
        (zip indices n_samples_per_group) in
    indices ← take_idx group_to_fold groups;
    Ok ((λ f, Numpy.flatnonzero ((λ i, bool_decide (i = f)) <$> indices)) <$> seq 0 n_splits).

End Splitters.

End Sklearn.

(** ** DataLoader.py *)

Module DataLoader.

Import get_climate_data.

(** The attributes of a [DataLoader] object; [None] is Python's [None]. *)
Record DataLoader : Type := mkDataLoader {
  data : DataFrame enriched;
  n_splits : option Z;
  random_seed : Z;
  test_size : option float;
  cv_split : option (list (list nat * list nat));
  train_indices : option (list nat);
  test_indices : option (list nat)
}.

Definition __init__ (data : DataFrame enriched) (random_seed : Z) : DataLoader :=
  mkDataLoader data None random_seed None None None None.

(** The message of the error raised when no split has been made. *)
Definition not_split_message : string :=
  "train_iterator is None. Call set_train_test_split first.".

(** [X] keeps every column but the four that are dropped. *)
Definition features (r : enriched) : list float :=
  [POINT_LAT (base r); POINT_LON (base r); POINT_ELEVATION (base r)]
  ++ climate r ++ [ALTITUDE_CLIMATE r; ELEVATION_DIFFERENCE r].

Definition _prepare_data_for_cv (train_data : list enriched)
  : list (list float) * list float * list string * list string :=
  let X := features <$> train_data in
  let y := (λ r, POINT_BALANCE (base r)) <$> train_data in
  let glacier_ids := (λ r, RGIId (base r)) <$> train_data in
  let stake_meas_id := (λ r, ID (base r)) <$> train_data in
  (X, y, glacier_ids, stake_meas_id).

Section Methods.

Context (rs_permutation : Z → nat → list nat).
Context (np_argsort : list nat → list nat).

(** A method returns the object as it leaves it, and its outcome: Python
    keeps the attributes assigned before an exception. *)
Definition set_train_test_split (self : DataLoader) (test_size : float) (shuffle : bool)
  : DataLoader * result (list nat * list nat) :=
  let self :=
    mkDataLoader (data self) (n_splits self) (random_seed self) (Some test_size)
      (cv_split self) (train_indices self) (test_indices self) in
  let '(X, y, glacier_ids, stake_meas_id) := _prepare_data_for_cv (rows (data self)) in
  let checked :=
    '(train_indices, test_indices) ←
      Sklearn.GroupShuffleSplit_split rs_permutation (random_seed self) test_size stake_meas_id;
    train_stake_meas_id ← take_idx stake_meas_id train_indices;
    test_stake_meas_id ← take_idx stake_meas_id test_indices;
    if length (Numpy.intersect1d train_stake_meas_id test_stake_meas_id) =? 0
    then Ok (train_indices, test_indices)
    else Raise AssertionError in
  match checked with
  | Raise e => (self, Raise e)
  | Ok (train_indices, test_indices) =>
      (mkDataLoader (data self) (n_splits self) (random_seed self) (Some test_size)
         (cv_split self) (Some train_indices) (Some test_indices),
       Ok (train_indices, test_indices))
  end.

Definition get_train_test_indices (self : DataLoader)
  : option (list nat) * option (list nat) :=
  (train_indices self, test_indices self).

Definition _validate_train_iterator (self : DataLoader) : result unit :=
  match train_indices self with
  | None => Raise (ValueError not_split_message)
  | Some _ => Ok tt
  end.

(** [self.data.iloc[train_indices]]. *)
Definition _get_train_data (self : DataLoader) : result (list enriched) :=
  match train_indices self with
  | None => Raise (TypeError "Cannot index by location index with a non-integer key")
  | Some train_indices => take_idx (rows (data self)) train_indices
  end.

Definition _create_group_kfold_splits (self : DataLoader) (X : list (list float))
    (y : list float) (glacier_ids stake_meas_id : list string) (type_fold : string)
  : result (list (list nat * list nat)) :=
  if decide (type_fold = "group-rgi") then
    k ← Sklearn._BaseKFold_init (n_splits self);
    Sklearn._BaseKFold_split k (length X)
      (Sklearn.GroupKFold_iter_test_indices np_argsort k glacier_ids)
  else if decide (type_fold = "group-meas-id") then
    k ← Sklearn._BaseKFold_init (n_splits self);
    Sklearn._BaseKFold_split k (length X)
      (Sklearn.GroupKFold_iter_test_indices np_argsort k stake_meas_id)
  else
    k ← Sklearn._BaseKFold_init (n_splits self);
    Sklearn._BaseKFold_split k (length X)
      (Sklearn.KFold_iter_test_indices rs_permutation k (random_seed self) (length X)).

Definition get_cv_split (self : DataLoader) (n_splits : Z) (type_fold : string)
  : DataLoader * result (list (list nat * list nat)) :=
  let self :=
    mkDataLoader (data self) (Some n_splits) (random_seed self) (test_size self)
      (cv_split self) (train_indices self) (test_indices self) in
  let splits :=
    _ ← _validate_train_iterator self;
    train_data ← _get_train_data self;
    let '(X, y, glacier_ids, stake_meas_id) := _prepare_data_for_cv train_data in
    _create_group_kfold_splits self X y glacier_ids stake_meas_id type_fold in
  match splits with
  | Raise e => (self, Raise e)
  | Ok splits =>
      (mkDataLoader (data self) (Some n_splits) (random_seed self) (test_size self)
         (Some splits) (train_indices self) (test_indices self),
       Ok splits)
  end.

(** *** Sequences of calls *)

Inductive call : Type :=
| Call_set_train_test_split (test_size : float) (shuffle : bool)
| Call_get_cv_split (n_splits : Z) (type_fold : string)
| Call_get_train_test_indices.

(** The object after a call, and whether the call returned (rather than
    raised). *)
Definition step (self : DataLoader) (c : call) : DataLoader * bool :=
  match c with
  | Call_set_train_test_split test_size shuffle =>
      let '(self', r) := set_train_test_split self test_size shuffle in (self', is_ok r)
  | Call_get_cv_split n_splits type_fold =>
      let '(self', r) := get_cv_split self n_splits type_fold in (self', is_ok r)
  | Call_get_train_test_indices => (self, true)
  end.

Definition run (self : DataLoader) (calls : list call) : DataLoader :=
  foldl (λ s c, (step s c).1) self calls.

(** Whether some call to [set_train_test_split] among [calls], made in turn
    on [self], returned. *)
Fixpoint split_made (self : DataLoader) (calls : list call) : bool :=
  match calls with
  | [] => false
  | c :: calls' =>
      let '(self', returned) := step self c in
      (match c with
       | Call_set_train_test_split _ _ => returned
       | _ => false
       end) || split_made self' calls'
  end.

End Methods.

End DataLoader.

(** ** Example data *)

Module Examples.

Import Pandas get_climate_data DataLoader.

(** A generator for the examples: the indices rotated by the seed. *)
Definition rotate_permutation (seed : Z) (n : nat) : list nat :=
  rotate (Z.to_nat seed) (seq 0 n).

(** A climate dataset with two variables whose value at a timestamp tells
    the variable and the month apart. *)
Definition two_variables : climate_dataset :=
  mkClimate ["t2m"; "tp"]
    (λ v lat lon time,
       if decide (v = "t2m") then of_uint63 (Uint63.of_Z (month time))
       else (of_uint63 (Uint63.of_Z (month time)) + 100)%float).

(** Terrain at 1500 m north of the equator, missing south of it. *)
Definition northern_terrain : altitude_dataset :=
  mkAltitude (λ lat lon,
    mkAltitudeRow lat lon 0 (if PrimFloat.ltb lat 0 then nan else 1500)%float).

Definition stake_A : stake := mkStake 46.5 8.0 2900 (Some 2020%Z) "A-2020" "RGI60-11.00001" (-1.25).
Definition stake_B : stake := mkStake (-46.5) 8.5 2500 (Some 2019%Z) "B-2019" "RGI60-11.00002" 0.5.
Definition stake_C : stake := mkStake 46.75 8.25 3100 (Some 2021%Z) "C-2021" "RGI60-11.00001" (-0.75).
Definition stake_no_year : stake := mkStake 46.5 8.0 2900 None "D" "RGI60-11.00003" 0.25.

Definition three_stakes : DataFrame stake :=
  mkDataFrame stake_columns [stake_A; stake_B; stake_C].

Definition stakes_with_missing_year : DataFrame stake :=
  mkDataFrame stake_columns [stake_A; stake_no_year].

(** A second date parser for the examples, in the manner of dateutil on a
    day of 2026: [yy-09-01] with [yy] from 32 to 99 is the first of
    September of the year ending in [yy] that lies within fifty years of
    2026; any other string is rejected. *)
Definition parse_in_2026 (s : string) : result Timestamp :=
  let rejected :=
    Raise (ValueError ("Unknown datetime string format, unable to parse: " +:+ s)) in
  match s with
  | String y1 (String y2 rest) =>
      match digit y1, digit y2 with
      | Some a, Some b =>
          let yy := (10 * a + b)%Z in
          if decide (rest = "-09-01" ∧ (32 ≤ yy)%Z) then
            Ok (mkTimestamp (if (yy <=? 75)%Z then 2000 + yy else 1900 + yy) 9 1)
          else rejected
      | _, _ => rejected
      end
  | _ => rejected
  end.

(** The extractor's output on [three_stakes]: [stake_B] lies south of the
    equator, where the terrain is missing, and is dropped. *)
Definition three_stakes_enriched : DataFrame enriched :=
  match get_climate_features parse_in_2026 three_stakes two_variables northern_terrain with
  | Ok df => df
  | Raise _ => mkDataFrame [] []
  end.

(** An enriched table for the splitter: six measurements of three glaciers,
    two rows sharing the measurement identifier ["m1"]. *)
Definition measurement (id rgi : string) : enriched :=
  mkEnriched (mkStake 46.5 8.0 2900 (Some 2020%Z) id rgi 0.5) [] 1500 (-1400).

Definition six_measurements : DataFrame enriched :=
  mkDataFrame (stake_columns ++ ["ALTITUDE_CLIMATE"; "ELEVATION_DIFFERENCE"])
    [measurement "m1" "g1"; measurement "m2" "g1"; measurement "m1" "g1";
     measurement "m3" "g2"; measurement "m4" "g3"; measurement "m5" "g3"].

Definition loader : DataLoader := __init__ six_measurements 42.

Definition loader_split : DataLoader :=
  (set_train_test_split rotate_permutation loader 0.3 true).1.

End Examples.

(** * Properties *)

(** ** The hydrological date range *)

Section DateRange.

Import Pandas get_climate_data.
Local Open Scope Z_scope.

(** Within the range of the hydrological year the order is decided by the
    year and the month alone. *)
Lemma ts_leb_true (a b : Timestamp) :
  12 * year a + month a < 12 * year b + month b →
  1 ≤ month a ≤ 12 → 1 ≤ month b ≤ 12 →
  ts_leb a b = true.
Proof.
  unfold ts_leb. intros H Ha Hb.
  destruct (Z.ltb_spec (year a) (year b)); [done|].
  destruct (Z.eqb_spec (year a) (year b)); [|lia].
  destruct (Z.ltb_spec (month a) (month b)); [done|lia].
Qed.

Lemma ts_leb_false (a b : Timestamp) :
  year a = year b → month a = month b → day b < day a → ts_leb a b = false.
Proof.
  unfold ts_leb. intros Hy Hm Hd.
  destruct (Z.ltb_spec (year a) (year b)); [lia|].
  destruct (Z.ltb_spec (month a) (month b)); [lia|].
  destruct (Z.leb_spec (day a) (day b)); [lia|].
  by rewrite !andb_false_r.
Qed.

(** Dates of the years 1678 to 2261 are within the bounds, and the first
    of September of a year is within them for these years only. *)
Lemma in_bounds_years (t : Timestamp) : 1678 ≤ year t ≤ 2261 → in_bounds t = true.
Proof.
  intros Hy. unfold in_bounds, ts_leb. cbn [year month day Timestamp_min Timestamp_max].
  destruct (Z.ltb_spec 1677 (year t)); [|lia].
  destruct (Z.ltb_spec (year t) 2262); [done|lia].
Qed.

Lemma in_bounds_september (y : Z) :
  in_bounds (mkTimestamp y 9 1) = true ↔ 1678 ≤ y ≤ 2261.
Proof.
  split; [|intros Hy; by apply in_bounds_years].
  unfold in_bounds, ts_leb. cbn [year month day Timestamp_min Timestamp_max].
  destruct (Z.ltb_spec 1677 y), (Z.eqb_spec 1677 y), (Z.ltb_spec y 2262), (Z.eqb_spec y 2262);
    cbn; intros ?; try done; lia.
Qed.

Lemma check_bounds_years (t : Timestamp) : 1678 ≤ year t ≤ 2261 → check_bounds t = Ok t.
Proof. intros Hy. unfold check_bounds. by rewrite in_bounds_years. Qed.

(** The two strings of a year written with four digits are ISO dates. *)
Lemma iso_date_september (y : Z) :
  1000 ≤ y ≤ 9999 → iso_date (pretty y +:+ "-09-01") = Some (mkTimestamp y 9 1).
Proof.
  intros Hy.
  assert (Forall (λ y, iso_date (pretty y +:+ "-09-01") = Some (mkTimestamp y 9 1))
            (seqZ 1000 9000)) as Hall.
  { apply (bool_decide_unpack _). vm_compute. exact I. }
  rewrite Forall_forall in Hall. apply Hall, elem_of_seqZ. lia.
Qed.

Lemma Timestamp_of_string_september parse_datetime_string (y : Z) :
  1000 ≤ y ≤ 9999 →
  Timestamp_of_string parse_datetime_string (pretty y +:+ "-09-01")
  = check_bounds (mkTimestamp y 9 1).
Proof. intros Hy. unfold Timestamp_of_string. by rewrite iso_date_september. Qed.

Lemma generate_range_emit fuel cur stop :
  ts_leb cur stop = true → cur ≠ stop → in_bounds (next_month_end cur) = true →
  generate_range (S fuel) cur stop
  = (rest ← generate_range fuel (next_month_end cur) stop; Ok (cur :: rest)).
Proof.
  intros Hle Hneq Hnext. cbn [generate_range]. rewrite Hle, decide_False by done.
  unfold add_MonthEnd, check_bounds. by rewrite Hnext.
Qed.

Lemma generate_range_stop fuel cur stop :
  ts_leb cur stop = false → generate_range (S fuel) cur stop = Ok [].
Proof. intros H. simpl. by rewrite H. Qed.

(** The twelve month ends of the hydrological year of [Y]. *)
Definition hydrological_year (Y : Z) : list Timestamp :=
  [mkTimestamp (Y - 1) 9 30; mkTimestamp (Y - 1) 10 31; mkTimestamp (Y - 1) 11 30;
   mkTimestamp (Y - 1) 12 31; mkTimestamp Y 1 31;
   mkTimestamp Y 2 (if is_leap_year Y then 29 else 28); mkTimestamp Y 3 31;
   mkTimestamp Y 4 30; mkTimestamp Y 5 31; mkTimestamp Y 6 30; mkTimestamp Y 7 31;
   mkTimestamp Y 8 31].

(** The side conditions of one turn: the order, the end not reached, the
    next month end within the bounds. *)
Ltac month_end_in_range :=
  first
    [ apply ts_leb_true; cbn [year month day month_end]; lia
    | let H := fresh in intros H; injection H; intros; lia
    | apply in_bounds_years; unfold next_month_end; cbn; lia ].

(** One turn of the loop on a month end whose month is a literal. *)
Ltac emit_month_end :=
  rewrite generate_range_emit by month_end_in_range;
  unfold next_month_end at 1; cbn [year month day month_end];
  match goal with
  | |- context [Z.eqb ?m 12] =>
      let b := eval vm_compute in (Z.eqb m 12) in change (Z.eqb m 12) with b
  end;
  cbv iota;
  repeat match goal with
  | |- context [Z.add (Zpos ?m) 1] =>
      let k := eval vm_compute in (Z.add (Zpos m) 1) in change (Z.add (Zpos m) 1) with k
  end.

Lemma date_range_hydrological (Y : Z) :
  1679 ≤ Y ≤ 2261 →
  date_range_ME (mkTimestamp (Y - 1) 9 1) (mkTimestamp Y 9 1) = Ok (hydrological_year Y).
Proof.
  intros HY. unfold date_range_ME, rollforward, is_on_offset, this_month_end, month_end.
  cbn [year month day days_in_month]. change (1 =? 30) with false. cbv iota.
  rewrite check_bounds_years by (cbn; lia). cbn [mbind result_bind].
  rewrite ts_leb_true by (cbn; lia).
  unfold range_fuel. cbn [year month day].
  replace (12 * (Y - (Y - 1)) + (9 - 9) + 2) with 14 by lia.
  change (Z.to_nat 14) with 14%nat.
  do 4 emit_month_end.
  replace (Y - 1 + 1) with Y by lia.
  do 8 emit_month_end.
  rewrite generate_range_stop by (apply ts_leb_false; cbn; lia).
  reflexivity.
Qed.

Section Parser.

Context (parse_datetime_string : string → result Timestamp).

Local Abbreviation _create_date_range :=
  (get_climate_data._create_date_range parse_datetime_string).

(** From 1679 to 2261 the date range is the hydrological year. *)
Lemma create_date_range_hydrological (Y : Z) :
  1679 ≤ Y ≤ 2261 → _create_date_range (Some Y) = Ok (Some (hydrological_year Y)).
Proof.
  intros HY. unfold get_climate_data._create_date_range, date_range.
  rewrite !Timestamp_of_string_september by lia.
  rewrite !check_bounds_years by (cbn; lia). cbn [mbind result_bind].
  by rewrite date_range_hydrological.
Qed.

(** Any other year written with four digits leaves the bounds, whatever the
    second parser does. *)
Lemma create_date_range_out_of_bounds (Y : Z) :
  1001 ≤ Y ≤ 9999 → ¬ (1679 ≤ Y ≤ 2261) →
  _create_date_range (Some Y)
  = Raise (OutOfBoundsDatetime "Out of bounds nanosecond timestamp").
Proof.
  intros HY Hout. unfold get_climate_data._create_date_range, date_range.
  rewrite !Timestamp_of_string_september by lia. unfold check_bounds.
  destruct (in_bounds (mkTimestamp (Y - 1) 9 1)) eqn:Hstart; [|done].
  destruct (in_bounds (mkTimestamp Y 9 1)) eqn:Hstop; [|done].
  apply in_bounds_september in Hstart, Hstop. lia.
Qed.

(** C2, amended. For every year [Y] from 1679 to 2261, [_create_date_range]
    returns a range of exactly twelve timestamps, each the last day of its
    month and within the bounds of a timestamp, the first being 30 September
    of [Y - 1] and the last 31 August of [Y]. *)
Theorem create_date_range_of_four_digit_year (Y : Z) :
  1679 ≤ Y ≤ 2261 →
  ∃ range_date,
    _create_date_range (Some Y) = Ok (Some range_date) ∧
    length range_date = 12%nat ∧
    Forall (λ t, t = month_end (year t) (month t) ∧ in_bounds t = true) range_date ∧
    head range_date = Some (mkTimestamp (Y - 1) 9 30) ∧
    last range_date = Some (mkTimestamp Y 8 31).
Proof.
  intros HY. exists (hydrological_year Y).
  rewrite create_date_range_hydrological by done. split_and!; try reflexivity.
  unfold hydrological_year.
  repeat (constructor; [split; [reflexivity|apply in_bounds_years; cbn; lia]|]).
  constructor.
Qed.

End Parser.

(** C2, as stated, fails for the year 2262: the string [2262-09-01] is
    beyond the last timestamp, and the code raises. *)
Lemma create_date_range_raises_in_2262 :
  ¬ (∀ (parse_datetime_string : string → result Timestamp) (Y : Z),
       ∃ range_date,
         _create_date_range parse_datetime_string (Some Y) = Ok (Some range_date) ∧
         length range_date = 12%nat ∧
         Forall (λ t, t = month_end (year t) (month t)) range_date ∧
         head range_date = Some (mkTimestamp (Y - 1) 9 30) ∧
         last range_date = Some (mkTimestamp Y 8 31)).
Proof.
  intros H. destruct (H Examples.parse_in_2026 2262) as (range_date & Hrange & _).
  by rewrite create_date_range_out_of_bounds in Hrange by lia.
Qed.

Lemma create_date_range_of_four_digit_year_witness :
  ∃ range_date,
    _create_date_range Examples.parse_in_2026 (Some 2020) = Ok (Some range_date) ∧
    length range_date = 12%nat ∧
    Forall (λ t, t = month_end (year t) (month t) ∧ in_bounds t = true) range_date ∧
    head range_date = Some (mkTimestamp (2020 - 1) 9 30) ∧
    last range_date = Some (mkTimestamp 2020 8 31).
Proof. apply (create_date_range_of_four_digit_year Examples.parse_in_2026 2020). lia. Defined.

(** A year of two digits goes to the second parser: with the parser of the
    examples, the year 99 gets the date range of 1999. *)
Lemma create_date_range_two_digit_year :
  _create_date_range Examples.parse_in_2026 (Some 99)
  = Ok (Some (hydrological_year 1999)).
Proof. vm_compute. reflexivity. Qed.

End DateRange.

(** ** Longitude normalisation *)

Section Longitude.

Import get_climate_data.

(** Ascending order of a coordinate axis. *)
Fixpoint ascending (l : list float) : bool :=
  match l with
  | a :: (b :: _) as l' => PrimFloat.leb a b && ascending l'
  | _ => true
  end.

(** Longitudes within [[-180, 180)]. *)
Definition normalized (l : list float) : bool :=
  forallb (λ x, PrimFloat.leb (-180) x && PrimFloat.ltb x 180) l.

Lemma sortby_longitude_ascending {A} (l : list (float * A)) :
  ascending (fst <$> l) = true → sortby_longitude l = l.
Proof.
  induction l as [|x l IH]; [done|].
  intros Hasc. cbn [sortby_longitude foldr]. fold (sortby_longitude l).
  destruct l as [|y l'].
  - reflexivity.
  - cbn in Hasc. apply andb_prop in Hasc as [Hxy Htl].
    rewrite IH by exact Htl. cbn [sortby_insert].
    unfold lon_leb. rewrite Hxy, orb_true_r. reflexivity.
Qed.

Lemma wrap_longitude_unchanged {A} (l : list (float * A)) :
  Forall (λ c, wrap_longitude c.1 = c.1) l →
  (λ c, (wrap_longitude c.1, c.2)) <$> l = l.
Proof.
  induction 1 as [|[lon slice] l Hc _ IH]; [done|].
  cbn in *. by rewrite Hc, IH.
Qed.

(** C8, as stated, does not hold of binary64 longitudes: the grid with the
    single longitude 0.1 lies in [[-180, 180)] and is ascending, yet
    [(0.1 + 180) % 360 - 180] is 0.09999999999999432. *)
Lemma adjust_longitude_moves_one_tenth :
  ¬ (∀ ds : geopotential_grid,
       normalized (fst <$> grid_longitude ds) = true →
       ascending (fst <$> grid_longitude ds) = true →
       _adjust_longitude ds = ds).
Proof.
  intros H.
  specialize (H (mkGrid [46.5%float] [(0.1%float, [1500%float])]) eq_refl eq_refl).
  vm_compute in H. discriminate H.
Qed.

(** C8, amended. A terrain grid whose longitudes are in ascending order and
    are each returned unchanged by the coordinate map
    [((lon + 180) % 360) - 180] in binary64 arithmetic is a fixed point of
    [_adjust_longitude]: coordinates and data come back as they were. *)
Theorem adjust_longitude_fixed_point (ds : geopotential_grid) :
  ascending (fst <$> grid_longitude ds) = true →
  Forall (λ c, wrap_longitude c.1 = c.1) (grid_longitude ds) →
  _adjust_longitude ds = ds.
Proof.
  intros Hasc Hfix. destruct ds as [lat lons]. unfold _adjust_longitude.
  cbn [grid_latitude grid_longitude] in *.
  rewrite wrap_longitude_unchanged by exact Hfix.
  by rewrite sortby_longitude_ascending.
Qed.

Lemma adjust_longitude_fixed_point_witness :
  _adjust_longitude
    (mkGrid [46.5%float] [((-179.75)%float, [1200%float]); (0.25%float, [1500%float])])
  = mkGrid [46.5%float] [((-179.75)%float, [1200%float]); (0.25%float, [1500%float])].
Proof.
  apply adjust_longitude_fixed_point.
  - reflexivity.
  - repeat constructor.
Defined.

(** The longitudes of a quarter-degree grid, [-180, -179.75, .., 179.75]. *)
Definition quarter_degree_longitudes : list float :=
  (λ k, (of_uint63 (Uint63.of_Z (Z.of_nat k)) * 0.25 - 180)%float) <$> seq 0 1440.

(** The coordinate map is exact on all of them: it returns every longitude
    of a quarter-degree grid unchanged. *)
Lemma wrap_longitude_quarter_degrees :
  wrap_longitude <$> quarter_degree_longitudes = quarter_degree_longitudes.
Proof. vm_compute. reflexivity. Qed.

End Longitude.

(** ** A record with a missing year *)

Section MissingYear.

Import Pandas get_climate_data Examples.

Lemma range_values_None (rs : list (option (list Timestamp))) :
  None ∈ rs →
  range_values rs = Raise (AttributeError "'NoneType' object has no attribute 'values'").
Proof.
  induction rs as [|[r|] rs IH]; intros Hin.
  - by apply elem_of_nil in Hin.
  - apply elem_of_cons in Hin as [Hin|Hin]; [done|].
    cbn [range_values]. by rewrite IH.
  - reflexivity.
Qed.

(** C4. On the table of [stake_A] (year 2020) and [stake_no_year] the
    extractor raises [AttributeError] instead of returning the enriched
    record of [stake_A]. *)
Theorem missing_year_raises_AttributeError (parse_datetime_string : string → result Timestamp) :
  get_climate_features parse_datetime_string stakes_with_missing_year two_variables
    northern_terrain
  = Raise (AttributeError "'NoneType' object has no attribute 'values'").
Proof. vm_compute. reflexivity. Qed.

End MissingYear.

(** ** Results and index arrays *)

Section ResultFacts.

Lemma bind_Ok {A B} (m : result A) (f : A → result B) (b : B) :
  m ≫= f = Ok b ↔ ∃ a, m = Ok a ∧ f a = Ok b.
Proof.
  destruct m as [a|e]; cbn; split.
  - intros H. by exists a.
  - by intros (a' & [= <-] & H).
  - done.
  - by intros (a' & [=] & _).
Qed.

Lemma bind_Raise {A B} (m : result A) (f : A → result B) (e : exn) :
  m ≫= f = Raise e ↔ m = Raise e ∨ ∃ a, m = Ok a ∧ f a = Raise e.
Proof.
  destruct m as [a|e']; cbn; split.
  - intros H. right. by exists a.
  - intros [[=]|(a' & [= <-] & H)]. done.
  - intros [= ->]. by left.
  - intros [[= ->]|(a' & [=] & _)]. done.
Qed.

Lemma take_idx_Ok {A} (a : list A) (idx : list nat) (l : list A) :
  take_idx a idx = Ok l ↔ Forall2 (λ i x, a !! i = Some x) idx l.
Proof.
  revert l. induction idx as [|i idx IH]; intros l; cbn [take_idx].
  - split; [intros [= <-]; constructor | by intros ->%Forall2_nil_inv_l].
  - destruct (a !! i) as [x|] eqn:Hi.
    + rewrite bind_Ok. split.
      * intros (xs & Hxs & [= <-]). constructor; [done|]. by apply IH.
      * intros (x' & xs & Hx & Hxs & ->)%Forall2_cons_inv_l.
        exists xs. split; [by apply IH|]. congruence.
    + split; [done|].
      intros (x' & xs & Hx & _)%Forall2_cons_inv_l. congruence.
Qed.

Lemma take_idx_Raise {A} (a : list A) (idx : list nat) (e : exn) :
  take_idx a idx = Raise e → e = IndexError "index out of bounds".
Proof.
  induction idx as [|i idx IH]; cbn [take_idx]; [done|].
  destruct (a !! i); [|by intros [= <-]].
  rewrite bind_Raise. intros [H|(xs & _ & [=])]. by apply IH.
Qed.

Lemma take_idx_in_range {A} (a : list A) (idx : list nat) :
  Forall (λ i, i < length a) idx → ∃ l, take_idx a idx = Ok l.
Proof.
  induction 1 as [|i idx Hi _ [l IH]]; [by exists []|].
  apply lookup_lt_is_Some in Hi as [x Hx].
  exists (x :: l). cbn [take_idx]. by rewrite Hx, IH.
Qed.

Lemma take_idx_lookup {A} (a : list A) (idx : list nat) (l : list A) (k : nat) :
  take_idx a idx = Ok l → l !! k = idx !! k ≫= (a !!.).
Proof.
  rewrite take_idx_Ok. intros H. revert k.
  induction H as [|i x idx l Hi _ IH]; intros [|k]; cbn; try done.
Qed.

Lemma take_idx_elem_of {A} (a : list A) (idx : list nat) (l : list A) (x : A) :
  take_idx a idx = Ok l → x ∈ l → ∃ i, i ∈ idx ∧ a !! i = Some x.
Proof.
  rewrite take_idx_Ok. induction 1 as [|i y idx l Hi _ IH]; intros Hx.
  - by apply elem_of_nil in Hx.
  - apply elem_of_cons in Hx as [->|Hx].
    + exists i. split; [left|done].
    + destruct (IH Hx) as (j & Hj & Hjx). exists j. split; [by right|done].
Qed.

End ResultFacts.

(** ** numpy facts *)

Section NumpyFacts.

Import Numpy.

Lemma elem_of_unique (x : string) (a : list string) : x ∈ unique a ↔ x ∈ a.
Proof. unfold unique. by rewrite elem_of_remove_dups, merge_sort_Permutation. Qed.

Lemma intersect1d_empty (a b : list string) :
  intersect1d a b = [] ↔ ∀ x, x ∈ a → x ∉ b.
Proof.
  unfold intersect1d. split.
  - intros H x Ha Hb.
    assert (x ∈ unique (filter (.∈ b) a)) as Hx.
    { apply elem_of_unique, list_elem_of_filter. done. }
    rewrite H in Hx. by apply elem_of_nil in Hx.
  - intros H. destruct (unique (filter (.∈ b) a)) as [|x l] eqn:Hu; [done|].
    assert (x ∈ unique (filter (.∈ b) a)) as Hx by (rewrite Hu; left).
    apply elem_of_unique, list_elem_of_filter in Hx as [Hb Ha].
    by destruct (H x Ha).
Qed.

Lemma elem_of_flatnonzero (mask : list bool) (i : nat) :
  i ∈ flatnonzero mask ↔ mask !! i = Some true.
Proof.
  unfold flatnonzero. rewrite list_elem_of_filter, elem_of_seq. split; [tauto|].
  intros H. split; [done|]. apply lookup_lt_Some in H. lia.
Qed.

Lemma NoDup_flatnonzero (mask : list bool) : NoDup (flatnonzero mask).
Proof. apply NoDup_filter, NoDup_seq. Qed.

Lemma flatnonzero_lt (mask : list bool) (i : nat) :
  i ∈ flatnonzero mask → i < length mask.
Proof. rewrite elem_of_flatnonzero. apply lookup_lt_Some. Qed.

Lemma isin_lookup_true (a b : list nat) (i : nat) :
  isin a b !! i = Some true ↔ ∃ x, a !! i = Some x ∧ x ∈ b.
Proof.
  unfold isin. rewrite list_lookup_fmap. destruct (a !! i) as [x|]; cbn.
  - split.
    + intros [= H%bool_decide_eq_true]. by exists x.
    + intros (x' & [= <-] & H). by rewrite bool_decide_eq_true_2.
  - split; [done|]. by intros (x & [=] & _).
Qed.

End NumpyFacts.

(** ** The train/test split *)

Section TrainTestSplit.

Import get_climate_data DataLoader Examples.

Context (rs_permutation : Z → nat → list nat).

(** The identifiers of the measurements, row by row. *)
Definition stake_meas_ids (self : DataLoader) : list string :=
  (λ r, ID (base r)) <$> rows (data self).

(** What [set_train_test_split] computes before it assigns the indices. *)
Lemma set_train_test_split_Ok (self self' : DataLoader) (test_size : float)
    (shuffle : bool) (train test : list nat) :
  set_train_test_split rs_permutation self test_size shuffle = (self', Ok (train, test)) →
  Sklearn.GroupShuffleSplit_split rs_permutation (random_seed self) test_size
    (stake_meas_ids self) = Ok (train, test) ∧
  (∃ train_ids test_ids,
     take_idx (stake_meas_ids self) train = Ok train_ids ∧
     take_idx (stake_meas_ids self) test = Ok test_ids ∧
     Numpy.intersect1d train_ids test_ids = []) ∧
  self' = mkDataLoader (data self) (n_splits self) (random_seed self) (Some test_size)
            (cv_split self) (Some train) (Some test).
Proof.
  unfold set_train_test_split, stake_meas_ids. cbn.
  destruct (Sklearn.GroupShuffleSplit_split _ _ _ _) as [[tr te]|e]; cbn; [|done].
  destruct (take_idx _ tr) as [train_ids|e] eqn:Htr; cbn; [|done].
  destruct (take_idx _ te) as [test_ids|e] eqn:Hte; cbn; [|done].
  destruct (Numpy.intersect1d train_ids test_ids) as [|x l] eqn:Hint; cbn; [|done].
  intros [= <- <- <-]. split; [done|]. split; [|done].
  exists train_ids, test_ids. done.
Qed.

(** A call that raises leaves the indices as they were. *)
Lemma set_train_test_split_Raise (self self' : DataLoader) (test_size : float)
    (shuffle : bool) (e : exn) :
  set_train_test_split rs_permutation self test_size shuffle = (self', Raise e) →
  train_indices self' = train_indices self ∧ test_indices self' = test_indices self.
Proof.
  unfold set_train_test_split. cbn.
  destruct (Sklearn.GroupShuffleSplit_split _ _ _ _) as [[tr te]|e']; cbn;
    [|by intros [= <- _]].
  destruct (take_idx _ tr) as [train_ids|e']; cbn; [|by intros [= <- _]].
  destruct (take_idx _ te) as [test_ids|e']; cbn; [|by intros [= <- _]].
  destruct (Numpy.intersect1d train_ids test_ids) as [|x l]; cbn; [done|].
  by intros [= <- _].
Qed.

(** C3. When [set_train_test_split] returns, the identifiers of the rows it
    assigns to train and those of the rows it assigns to test have no
    element in common; the method has evaluated
    [np.intersect1d(train_stake_meas_id, test_stake_meas_id)], found it
    empty, and only then stored and returned the indices.  (Were it not
    empty the method would raise, [set_train_test_split_asserts]; with a
    generator that draws without repetition it never is,
    [set_train_test_split_never_asserts].) *)
Theorem train_test_ids_disjoint (self self' : DataLoader) (test_size : float)
    (shuffle : bool) (train test : list nat) :
  set_train_test_split rs_permutation self test_size shuffle = (self', Ok (train, test)) →
  ∃ train_stake_meas_id test_stake_meas_id,
    take_idx (stake_meas_ids self) train = Ok train_stake_meas_id ∧
    take_idx (stake_meas_ids self) test = Ok test_stake_meas_id ∧
    Numpy.intersect1d train_stake_meas_id test_stake_meas_id = [] ∧
    (∀ id, id ∈ train_stake_meas_id → id ∉ test_stake_meas_id) ∧
    train_indices self' = Some train ∧ test_indices self' = Some test.
Proof.
  intros (_ & (train_ids & test_ids & Htr & Hte & Hint) & ->)%set_train_test_split_Ok.
  exists train_ids, test_ids. split_and!; try done.
  by apply intersect1d_empty.
Qed.

(** C10. [set_train_test_split] does not read its [shuffle] argument: on the
    same object (table and seed) and the same [test_size], the object it
    leaves and the partition it returns are the same for [shuffle=True] and
    [shuffle=False]. *)
Theorem shuffle_has_no_effect (self : DataLoader) (test_size : float) :
  set_train_test_split rs_permutation self test_size true
  = set_train_test_split rs_permutation self test_size false.
Proof.
  (* Unfolded, neither side mentions [shuffle]. *)
  unfold set_train_test_split. reflexivity.
Qed.

(** The assertion is a real test: whenever the grouped split hands back
    indices whose identifiers overlap, the method raises [AssertionError]
    and stores nothing. *)
Lemma set_train_test_split_asserts (self : DataLoader) (test_size : float)
    (shuffle : bool) (train test : list nat) (train_ids test_ids : list string) (id : string) :
  Sklearn.GroupShuffleSplit_split rs_permutation (random_seed self) test_size
    (stake_meas_ids self) = Ok (train, test) →
  take_idx (stake_meas_ids self) train = Ok train_ids →
  take_idx (stake_meas_ids self) test = Ok test_ids →
  id ∈ train_ids → id ∈ test_ids →
  set_train_test_split rs_permutation self test_size shuffle
  = (mkDataLoader (data self) (n_splits self) (random_seed self) (Some test_size)
       (cv_split self) (train_indices self) (test_indices self),
     Raise AssertionError).
Proof.
  unfold set_train_test_split, stake_meas_ids. cbn.
  intros -> Htr Hte Hin1 Hin2. cbn. rewrite Htr. cbn. rewrite Hte. cbn.
  destruct (Numpy.intersect1d train_ids test_ids) as [|x l] eqn:Hint; [|done].
  rewrite intersect1d_empty in Hint. by destruct (Hint id Hin1).
Qed.

End TrainTestSplit.

Lemma train_test_ids_disjoint_witness :
  ∃ train_stake_meas_id test_stake_meas_id,
    take_idx (stake_meas_ids Examples.loader) [0; 1; 2; 5] = Ok train_stake_meas_id ∧
    take_idx (stake_meas_ids Examples.loader) [3; 4] = Ok test_stake_meas_id ∧
    Numpy.intersect1d train_stake_meas_id test_stake_meas_id = [] ∧
    (∀ id, id ∈ train_stake_meas_id → id ∉ test_stake_meas_id) ∧
    DataLoader.train_indices Examples.loader_split = Some [0; 1; 2; 5] ∧
    DataLoader.test_indices Examples.loader_split = Some [3; 4].
Proof.
  apply (train_test_ids_disjoint Examples.rotate_permutation Examples.loader
           Examples.loader_split 0.3%float true).
  vm_compute. reflexivity.
Defined.

(** ** The state error of [get_cv_split] *)

Section StateError.

Import get_climate_data DataLoader.

Context (rs_permutation : Z → nat → list nat).
Context (np_argsort : list nat → list nat).

(** The error of [_validate_train_iterator]. *)
Definition not_split_error : exn := ValueError not_split_message.

(** No splitter of scikit-learn raises that error. *)
Lemma _BaseKFold_init_Raise (n_splits : option Z) (e : exn) :
  Sklearn._BaseKFold_init n_splits = Raise e → e ≠ not_split_error.
Proof.
  unfold Sklearn._BaseKFold_init. destruct n_splits as [k|]; [|by intros [= <-]].
  destruct (k <=? 1)%Z; by intros [= <-].
Qed.

Lemma folds_of_test_indices_Raise (n_samples : nat) (tests : list (list nat)) (e : exn) :
  Sklearn.folds_of_test_indices n_samples tests = Raise e → e ≠ not_split_error.
Proof.
  induction tests as [|t tests IH]; cbn [Sklearn.folds_of_test_indices]; [done|].
  rewrite bind_Raise. intros [H|(fold & _ & H)].
  - unfold Sklearn.fold_of_test_index in H.
    destruct (forallb _ t); [done|]. by injection H as <-.
  - rewrite bind_Raise in H. destruct H as [H|(folds & _ & [=])]. by apply IH.
Qed.

(** [GroupKFold_iter_test_indices] with its bindings spelled out: the
    group of every row, the weights of the groups, the fold of every group
    and the fold of every row. *)
Definition group_indices (groups : list string) : list nat :=
  (λ x, Numpy.index_of x (Numpy.unique groups)) <$> groups.

Definition group_order (groups : list string) : list nat :=
  reverse (np_argsort (Numpy.bincount (group_indices groups))).

Definition group_to_fold (n_splits : nat) (groups : list string) (weights : list nat)
  : list nat :=
  (foldl Sklearn.assign_group
     (replicate n_splits 0, replicate (length (Numpy.unique groups)) 0)
     (zip (group_order groups) weights)).2.

Lemma GroupKFold_iter_test_indices_unfold (n_splits : nat) (groups : list string) :
  Sklearn.GroupKFold_iter_test_indices np_argsort n_splits groups
  = if length (Numpy.unique groups) <? n_splits then
      Raise (ValueError "Cannot have number of splits n_splits greater than the number of groups")
    else
      weights ← take_idx (Numpy.bincount (group_indices groups)) (group_order groups);
      row_fold ← take_idx (group_to_fold n_splits groups weights) (group_indices groups);
      Ok ((λ f, Numpy.flatnonzero ((λ i, bool_decide (i = f)) <$> row_fold))
            <$> seq 0 n_splits).
Proof.
  unfold Sklearn.GroupKFold_iter_test_indices, Numpy.unique_inverse.
  cbv beta iota zeta.
  fold (group_indices groups). fold (group_order groups).
  destruct (length (Numpy.unique groups) <? n_splits); [done|].
  destruct (take_idx _ (group_order groups)) as [weights|e]; [|done].
  cbn [mbind result_bind]. unfold group_to_fold.
  by destruct (foldl _ _ _).
Qed.

Lemma GroupKFold_iter_test_indices_Raise (n_splits : nat) (groups : list string) (e : exn) :
  Sklearn.GroupKFold_iter_test_indices np_argsort n_splits groups = Raise e →
  e ≠ not_split_error.
Proof.
  rewrite GroupKFold_iter_test_indices_unfold.
  destruct (_ <? n_splits); [by intros [= <-]|].
  rewrite bind_Raise. intros [H|(weights & _ & H)].
  - by apply take_idx_Raise in H as ->.
  - rewrite bind_Raise in H. destruct H as [H|(row_fold & _ & [=])].
    by apply take_idx_Raise in H as ->.
Qed.

Lemma check_random_state_Ok (seed rng : Z) :
  Sklearn.check_random_state seed = Ok rng ↔ rng = seed ∧ (0 ≤ seed < 2 ^ 32)%Z.
Proof.
  unfold Sklearn.check_random_state.
  destruct (Z.leb_spec 0 seed), (Z.ltb_spec seed (2 ^ 32)); cbn;
    (split; [intros [= <-]|intros [-> ?]]); try done; lia.
Qed.

Lemma KFold_iter_test_indices_Raise (n_splits : nat) (random_state : Z) (n_samples : nat)
    (e : exn) :
  Sklearn.KFold_iter_test_indices rs_permutation n_splits random_state n_samples = Raise e →
  e ≠ not_split_error.
Proof.
  unfold Sklearn.KFold_iter_test_indices, Sklearn.check_random_state.
  destruct (_ && _); cbn; [done|]. by intros [= <-].
Qed.

Lemma _BaseKFold_split_Raise (n_splits n_samples : nat)
    (iter_test_indices : result (list (list nat))) (e : exn) :
  (∀ e', iter_test_indices = Raise e' → e' ≠ not_split_error) →
  Sklearn._BaseKFold_split n_splits n_samples iter_test_indices = Raise e →
  e ≠ not_split_error.
Proof.
  intros Hiter. unfold Sklearn._BaseKFold_split.
  destruct (n_samples <? n_splits); [by intros [= <-]|].
  rewrite bind_Raise. intros [H|(tests & _ & H)]; [by apply Hiter|].
  by apply folds_of_test_indices_Raise in H.
Qed.

Lemma _create_group_kfold_splits_Raise (self : DataLoader) (X : list (list float))
    (y : list float) (glacier_ids stake_meas_id : list string) (type_fold : string) (e : exn) :
  _create_group_kfold_splits rs_permutation np_argsort self X y glacier_ids stake_meas_id
    type_fold = Raise e →
  e ≠ not_split_error.
Proof.
  unfold _create_group_kfold_splits.
  repeat case_decide; rewrite bind_Raise;
    (intros [Hk|(k & _ & Hk)]; [by apply _BaseKFold_init_Raise in Hk|]);
    apply _BaseKFold_split_Raise in Hk; try done.
  - intros e'. apply GroupKFold_iter_test_indices_Raise.
  - intros e'. apply GroupKFold_iter_test_indices_Raise.
  - intros e'. apply KFold_iter_test_indices_Raise.
Qed.

(** [get_cv_split] raises the state error exactly on an object whose
    [train_indices] is [None]. *)
Lemma get_cv_split_not_split (self : DataLoader) (n_splits : Z) (type_fold : string) :
  (get_cv_split rs_permutation np_argsort self n_splits type_fold).2 = Raise not_split_error
  ↔ train_indices self = None.
Proof.
  unfold get_cv_split, _validate_train_iterator, _get_train_data. cbn.
  destruct (train_indices self) as [idx|]; cbn; [|done].
  split; [|done]. intros H. exfalso.
  destruct (take_idx (rows (data self)) idx) as [train_data|e] eqn:Hdata; cbn in H.
  - destruct (_create_group_kfold_splits _ _ _ _ _ _ _ _) as [splits|e] eqn:Hsplits;
      cbn in H; [done|].
    apply _create_group_kfold_splits_Raise in Hsplits. by injection H as ->.
  - apply take_idx_Raise in Hdata as ->. done.
Qed.

(** [get_cv_split] never touches the indices of the split. *)
Lemma get_cv_split_train_indices (self : DataLoader) (n_splits : Z) (type_fold : string) :
  train_indices (get_cv_split rs_permutation np_argsort self n_splits type_fold).1
  = train_indices self.
Proof.
  unfold get_cv_split. cbn.
  by destruct (_validate_train_iterator _ ≫= _).
Qed.

(** After any sequence of calls, [train_indices] is still [None] exactly
    when it was [None] at the start and no call to [set_train_test_split]
    has returned. *)
Lemma run_train_indices_None (calls : list call) (self : DataLoader) :
  train_indices (run rs_permutation np_argsort self calls) = None
  ↔ train_indices self = None ∧ split_made rs_permutation np_argsort self calls = false.
Proof.
  revert self. induction calls as [|c calls IH]; intros self.
  { cbn. tauto. }
  unfold run. cbn [foldl split_made].
  fold (run rs_permutation np_argsort (step rs_permutation np_argsort self c).1 calls).
  rewrite IH. destruct c as [test_size shuffle|n_splits type_fold|]; cbn [step].
  - destruct (set_train_test_split rs_permutation self test_size shuffle)
      as [self' [[train test]|e]] eqn:Hsplit; cbn.
    + apply set_train_test_split_Ok in Hsplit as (_ & _ & ->).
      cbn. split; intros [? ?]; done.
    + apply set_train_test_split_Raise in Hsplit as [-> _]. done.
  - pose proof (get_cv_split_train_indices self n_splits type_fold) as Hcv.
    destruct (get_cv_split rs_permutation np_argsort self n_splits type_fold)
      as [self' r]; cbn in *. by rewrite Hcv.
  - cbn. done.
Qed.

(** C7. Take a fresh [DataLoader] and any sequence of calls to its methods.
    A request for cross-validation folds made next raises the state error
    ("train_iterator is None. Call set_train_test_split first.") if and only
    if no call to [set_train_test_split] in the sequence has returned; once
    a split has been made it raises either nothing or another error. *)
Theorem get_cv_split_state_error (data : DataFrame enriched) (random_seed : Z)
    (calls : list call) (n_splits : Z) (type_fold : string) :
  (get_cv_split rs_permutation np_argsort
     (run rs_permutation np_argsort (__init__ data random_seed) calls)
     n_splits type_fold).2 = Raise (ValueError not_split_message)
  ↔ split_made rs_permutation np_argsort (__init__ data random_seed) calls = false.
Proof.
  rewrite get_cv_split_not_split, run_train_indices_None. cbn. tauto.
Qed.

End StateError.

(** ** The wide climate table *)

Section WideTable.

Import Pandas get_climate_data.

Lemma list_bind_mjoin {A B} (f : A → list B) (l : list A) : l ≫= f = mjoin (f <$> l).
Proof. induction l as [|x l IH]; [done|]. csimpl. by rewrite IH. Qed.

Lemma list_bind_singleton {A B} (f : A → B) (l : list A) : l ≫= (λ x, [f x]) = f <$> l.
Proof. induction l as [|x l IH]; [done|]. csimpl. by rewrite IH. Qed.

Lemma bind_seq_lookup {A B} (l : list A) (f : nat → list B) (g : A → list B) :
  (∀ i x, l !! i = Some x → f i = g x) → seq 0 (length l) ≫= f = l ≫= g.
Proof.
  revert f. induction l as [|x l IH]; intros f Hfg; [done|].
  cbn [length seq]. rewrite !bind_cons, <- fmap_S_seq, list_fmap_bind.
  f_equal; [by apply Hfg|]. apply IH. intros i y Hy. apply (Hfg (S i)), Hy.
Qed.

Lemma bind_seq_singleton {A B} (l : list A) (n : nat) (f : nat → list B) (g : A → B) :
  (∀ i x, l !! i = Some x → f i = [g x]) → length l = n →
  seq 0 n ≫= f = g <$> l.
Proof.
  intros Hfg <-. rewrite <- list_bind_singleton. by apply bind_seq_lookup.
Qed.

Lemma length_bind_uniform {A B} (f : A → list B) (l : list A) (k : nat) :
  (∀ x, x ∈ l → length (f x) = k) → length (l ≫= f) = length l * k.
Proof.
  induction l as [|x l IH]; intros Hk; [done|].
  rewrite bind_cons, length_app, IH, Hk; [cbn; lia|left|].
  intros y Hy. apply Hk. by right.
Qed.

Lemma zip_fmap_same {A B C} (f : A → B) (g : A → C) (l : list A) :
  zip (f <$> l) (g <$> l) = (λ x, (f x, g x)) <$> l.
Proof. induction l as [|x l IH]; [done|]. csimpl. by rewrite IH. Qed.

Lemma rows_of_mjoin (blocks : list (list float)) (w : nat) :
  Forall (λ b, length b = w) blocks →
  Numpy.rows_of (length blocks) w (mjoin blocks) = blocks.
Proof.
  unfold Numpy.rows_of. induction 1 as [|b blocks Hb _ IH]; [done|].
  cbn [length seq]. csimpl. f_equal.
  - change (0 * w) with 0. by rewrite drop_0, take_app_length'.
  - rewrite <- fmap_S_seq, <- list_fmap_compose. rewrite <- IH at 2.
    apply list_fmap_ext. intros _ p _. cbn.
    by rewrite (drop_app_add' b (mjoin blocks) w (p * w)).
Qed.

Lemma reshape_infer_mul (n k : nat) : k ≠ 0 → Numpy.reshape_infer (n * k) k = Ok n.
Proof.
  intros Hk. unfold Numpy.reshape_infer.
  destruct (Nat.eqb_spec k 0); [done|].
  rewrite Nat.Div0.mod_mul, Nat.div_mul by done. reflexivity.
Qed.

(** The wide row of one record: for every variable in turn, its value at
    each timestamp of the record's date range. *)
Definition wide_row (ds_climate : climate_dataset) (lat lon : float)
    (range_date : list Timestamp) : list float :=
  var ← data_vars ds_climate;
  (λ time, sel_nearest ds_climate var lat lon time) <$> range_date.

Lemma length_wide_row ds_climate lat lon range_date :
  length (wide_row ds_climate lat lon range_date)
  = length (data_vars ds_climate) * length range_date.
Proof.
  unfold wide_row. apply length_bind_uniform. intros var _. by rewrite length_fmap.
Qed.

Lemma wide_row_lookup ds_climate lat lon range_date v var j time :
  data_vars ds_climate !! v = Some var →
  range_date !! j = Some time →
  wide_row ds_climate lat lon range_date !! (v * length range_date + j)
  = Some (sel_nearest ds_climate var lat lon time).
Proof.
  intros Hv Hj. unfold wide_row. rewrite list_bind_mjoin.
  apply join_lookup_Some_same_length'.
  - apply Forall_fmap, Forall_true. intros x. cbn. by rewrite length_fmap.
  - by apply lookup_lt_Some in Hj.
  - eexists. rewrite list_lookup_fmap, Hv. split; [done|].
    by rewrite list_lookup_fmap, Hj.
Qed.

End WideTable.

Section Transposition.

Import Pandas get_climate_data.

Context {A : Type} (ds_climate : climate_dataset).
Context (lat lon : A → float) (range_date : A → list Timestamp).

(** The row of the long table for one record and one timestamp. *)
Definition long_row (r : A) (time : Timestamp) : list float :=
  (λ v, sel_nearest ds_climate v (lat r) (lon r) time) <$> data_vars ds_climate.

Lemma climate_long_fmap (recs : list A) :
  climate_long ds_climate (lat <$> recs) (lon <$> recs) (range_date <$> recs)
  = mjoin ((λ r, long_row r <$> range_date r) <$> recs).
Proof.
  unfold climate_long. rewrite !zip_fmap_same, list_fmap_bind, list_bind_mjoin.
  induction recs as [|r recs IH]; [done|].
  csimpl. by rewrite IH, list_bind_singleton.
Qed.

Lemma climate_long_lookup (recs : list A) (p t : nat) (r : A) (time : Timestamp) :
  Forall (λ r, length (range_date r) = 12) recs →
  recs !! p = Some r → range_date r !! t = Some time →
  climate_long ds_climate (lat <$> recs) (lon <$> recs) (range_date <$> recs) !! (p * 12 + t)
  = Some (long_row r time).
Proof.
  intros H12 Hp Ht. rewrite climate_long_fmap.
  apply join_lookup_Some_same_length'.
  - apply Forall_fmap. eapply Forall_impl; [exact H12|].
    intros r' Hr'. cbn. by rewrite length_fmap.
  - apply lookup_lt_Some in Ht. rewrite Forall_forall in H12.
    rewrite H12 in Ht; [done|]. by eapply list_elem_of_lookup_2.
  - eexists. rewrite list_lookup_fmap, Hp. split; [done|].
    by rewrite list_lookup_fmap, Ht.
Qed.

Lemma climate_long_width (recs : list A) :
  Forall (λ row, length row = length (data_vars ds_climate))
    (climate_long ds_climate (lat <$> recs) (lon <$> recs) (range_date <$> recs)).
Proof.
  rewrite climate_long_fmap. apply Forall_forall. intros row Hrow.
  apply list_elem_of_join in Hrow as (block & Hrow & Hblock).
  apply list_elem_of_fmap in Hblock as (r & -> & _).
  apply list_elem_of_fmap in Hrow as (time & -> & _).
  unfold long_row. by rewrite length_fmap.
Qed.

Lemma climate_long_length (recs : list A) :
  Forall (λ r, length (range_date r) = 12) recs →
  length (climate_long ds_climate (lat <$> recs) (lon <$> recs) (range_date <$> recs))
  = length recs * 12.
Proof.
  intros H12. rewrite climate_long_fmap, <- list_bind_mjoin.
  apply length_bind_uniform. intros r Hr. rewrite length_fmap.
  rewrite Forall_forall in H12. by apply H12.
Qed.

(** Reshaping the long table to (records, 12, variables), swapping the last
    two axes and flattening each record gives, record by record, the wide
    row. *)
Lemma transpose_climate_long (recs : list A) :
  Forall (λ r, length (range_date r) = 12) recs →
  Numpy.transpose_0_2_1 (length recs) 12 (length (data_vars ds_climate))
    (mjoin (climate_long ds_climate (lat <$> recs) (lon <$> recs) (range_date <$> recs)))
  = mjoin ((λ r, wide_row ds_climate (lat r) (lon r) (range_date r)) <$> recs).
Proof.
  intros H12. unfold Numpy.transpose_0_2_1. rewrite <- list_bind_mjoin.
  apply bind_seq_lookup. intros p r Hp. unfold wide_row.
  apply bind_seq_lookup. intros v var Hv.
  assert (length (range_date r) = 12) as Hr.
  { rewrite Forall_forall in H12. apply H12. by eapply list_elem_of_lookup_2. }
  apply bind_seq_singleton; [|done]. intros t time Ht.
  assert (mjoin (climate_long ds_climate (lat <$> recs) (lon <$> recs) (range_date <$> recs))
            !! ((p * 12 + t) * length (data_vars ds_climate) + v)
          = Some (sel_nearest ds_climate var (lat r) (lon r) time)) as ->; [|done].
  apply join_lookup_Some_same_length'.
  - apply climate_long_width.
  - by apply lookup_lt_Some in Hv.
  - exists (long_row r time). split; [by apply climate_long_lookup|].
    unfold long_row. by rewrite list_lookup_fmap, Hv.
Qed.

End Transposition.

(** ** The enriched table *)

Section Enrichment.

Import Pandas get_climate_data.

Context (parse_datetime_string : string → result Timestamp).

Local Abbreviation _create_date_range :=
  (get_climate_data._create_date_range parse_datetime_string).
Local Abbreviation _add_date_range :=
  (get_climate_data._add_date_range parse_datetime_string).
Local Abbreviation get_climate_features :=
  (get_climate_data.get_climate_features parse_datetime_string).

(** The date range of a record (empty when there is none), its terrain
    altitude, and the enriched record the extractor builds from it. *)
Definition range_of (r : stake) : list Timestamp :=
  match _create_date_range (YEAR r) with
  | Ok (Some range_date) => range_date
  | _ => []
  end.

Definition altitude_of (ds_geopotential : altitude_dataset) (r : stake) : float :=
  altitude_climate (sel_nearest_point ds_geopotential (POINT_LAT r) (POINT_LON r)).

Definition enrich (ds_climate : climate_dataset) (ds_geopotential : altitude_dataset)
    (r : stake) : enriched :=
  mkEnriched r
    (wide_row ds_climate (POINT_LAT r) (POINT_LON r) (range_of r))
    (altitude_of ds_geopotential r)
    (altitude_of ds_geopotential r - POINT_ELEVATION r)%float.

(** A stake with a row of climate values, as an enriched record. *)
Definition with_altitude (ds_geopotential : altitude_dataset) (p : stake * list float)
  : enriched :=
  mkEnriched p.1 p.2 (altitude_of ds_geopotential p.1)
    (altitude_of ds_geopotential p.1 - POINT_ELEVATION p.1)%float.

(** The rows of the climate table as [pd.concat] lines them up with [n]
    stakes. *)
Definition climate_rows_for (n : nat) (climate_df : DataFrame (list float))
  : list (list float) :=
  rows climate_df
  ++ replicate (n - length (rows climate_df)) (replicate (length (columns climate_df)) nan).

Lemma filter_fmap {A B} (P : B → Prop) `{∀ x, Decision (P x)} (f : A → B) (l : list A) :
  filter P (f <$> l) = f <$> filter (P ∘ f) l.
Proof.
  induction l as [|x l IH]; [done|]. csimpl.
  rewrite !filter_cons. cbn. destruct (decide (P (f x))); csimpl; by rewrite IH.
Qed.

Lemma zip_zip_fmap {A B C} (f : A → C) (l : list A) (k : list B) :
  zip (zip l k) (f <$> l) = (λ p, (p, f p.1)) <$> zip l k.
Proof.
  revert k. induction l as [|x l IH]; intros [|y k]; csimpl; try done. by rewrite IH.
Qed.

Lemma fst_filter_zip {A B} (P : A → Prop) `{∀ x, Decision (P x)} (l : list A) (k : list B) :
  length l ≤ length k → fst <$> filter (λ p, P p.1) (zip l k) = filter P l.
Proof.
  intros Hlen. rewrite <- (fst_zip l k) at 2 by done.
  by rewrite (filter_fmap P).
Qed.

Lemma zip_fmap_self {A B} (g : A → B) (l : list A) : zip l (g <$> l) = (λ x, (x, g x)) <$> l.
Proof. induction l as [|x l IH]; [done|]. csimpl. by rewrite IH. Qed.

Lemma range_values_Ok (rs : list (option (list Timestamp))) (dl : list (list Timestamp)) :
  range_values rs = Ok dl → rs = Some <$> dl.
Proof.
  revert dl. induction rs as [|[r|] rs IH]; intros dl; cbn [range_values].
  - by intros [= <-].
  - rewrite bind_Ok. intros (vs & Hvs & [= <-]). cbn. by rewrite (IH vs).
  - done.
Qed.

Lemma range_values_Some (dl : list (list Timestamp)) : range_values (Some <$> dl) = Ok dl.
Proof. induction dl as [|d dl IH]; [done|]. cbn. by rewrite IH. Qed.

Lemma fmap_Some_default {A B} (l : list (A * option (list B))) (dl : list (list B)) :
  snd <$> l = Some <$> dl → dl = (λ p, default [] p.2) <$> l.
Proof.
  revert dl. induction l as [|[r x] l IH]; intros [|d dl]; csimpl; try done.
  intros [= -> Hl]. by rewrite (IH dl).
Qed.

Lemma Series_apply_Ok {A B} (f : A → result B) (s : list A) (l : list B) :
  Series_apply f s = Ok l ↔ Forall2 (λ x y, f x = Ok y) s l.
Proof.
  revert l. induction s as [|x s IH]; intros l; cbn [Series_apply].
  - split.
    + intros [= <-]. constructor.
    + by intros ->%Forall2_nil_inv_l.
  - rewrite bind_Ok. split.
    + intros (y & Hy & (ys & Hys & [= <-])%bind_Ok). constructor; [done|by apply IH].
    + intros (y & ys & Hy & Hys & ->)%Forall2_cons_inv_l.
      exists y. split; [done|]. apply bind_Ok. exists ys. split; [by apply IH|done].
Qed.

(** What [_add_date_range] returns: the table with the date range of every
    record beside it. *)
Lemma add_date_range_Ok (df : DataFrame stake)
    (df' : DataFrame (stake * option (list Timestamp))) :
  _add_date_range df = Ok df' ↔
  ∃ range_date,
    Forall2 (λ r x, _create_date_range (YEAR r) = Ok x) (rows df) range_date ∧
    df' = mkDataFrame (columns df ++ ["range_date"]) (zip (rows df) range_date).
Proof.
  unfold get_climate_data._add_date_range. rewrite bind_Ok. split.
  - intros (range_date & H%Series_apply_Ok & [= <-]). by exists range_date.
  - intros (range_date & H%Series_apply_Ok & ->). by exists range_date.
Qed.

Lemma time_array_Ok (date_array time_da : list (list Timestamp)) :
  time_array date_array = Ok time_da → time_da = date_array ∧ date_array ≠ [].
Proof.
  unfold time_array. destruct date_array as [|r rest]; [done|].
  destruct (forallb _ _); [|done]. by intros [= <-].
Qed.

Lemma length_generate_climate_variable_names (ds_climate : climate_dataset) :
  length (_generate_climate_variable_names ds_climate) = length (data_vars ds_climate) * 12.
Proof.
  unfold _generate_climate_variable_names. apply length_bind_uniform.
  intros var _. by rewrite list_bind_singleton, length_fmap.
Qed.

Lemma reshape_infer_Ok (size k n : nat) :
  Numpy.reshape_infer size k = Ok n → k ≠ 0 ∧ size = n * k.
Proof.
  unfold Numpy.reshape_infer. destruct (Nat.eqb_spec k 0); [done|].
  destruct (Nat.eqb_spec (size mod k) 0) as [Hmod|]; [|done].
  cbn. intros [= <-]. split; [done|].
  pose proof (Nat.div_mod_eq size k). lia.
Qed.

Lemma rows_of_width (n w : nat) (a : list float) :
  length a = n * w → Forall (λ row, length row = w) (Numpy.rows_of n w a).
Proof.
  intros Ha. unfold Numpy.rows_of. apply Forall_fmap, Forall_forall.
  intros p Hp%elem_of_seq. cbn. rewrite length_take, length_drop. nia.
Qed.

(** What [_process_climate_data] returns, whatever the date ranges are: it
    returns only if every record has a date range and there is at least one
    record, and then a table under the generated names whose rows each hold
    one value per name. *)
Lemma process_climate_data_shape (ds_climate : climate_dataset)
    (df : DataFrame (stake * option (list Timestamp))) (climate_df : DataFrame (list float)) :
  _process_climate_data ds_climate df = Ok climate_df →
  (∃ date_array, snd <$> rows df = Some <$> date_array) ∧
  rows df ≠ [] ∧
  columns climate_df = _generate_climate_variable_names ds_climate ∧
  Forall (λ row, length row = length (_generate_climate_variable_names ds_climate))
    (rows climate_df).
Proof.
  unfold _process_climate_data. cbv zeta.
  intros (date_array & Hvalues%range_values_Ok & H)%bind_Ok.
  apply bind_Ok in H as (time_da & [-> Hne]%time_array_Ok & H).
  apply bind_Ok in H as (groups & _ & H).
  apply bind_Ok in H as (n & [Hk Hn]%reshape_infer_Ok & H).
  destruct (Nat.eqb_spec (length (_generate_climate_variable_names ds_climate))
              (12 * length (data_vars ds_climate))) as [Hnames|]; [|done].
  injection H as <-. cbn [columns rows]. split_and!.
  - by exists date_array.
  - intros Hrows. rewrite Hrows in Hvalues. by destruct date_array.
  - done.
  - rewrite Hnames. by apply rows_of_width.
Qed.

(** With twelve timestamps in every date range, the result is the table of
    the wide rows. *)
Lemma process_climate_data_Ok (ds_climate : climate_dataset)
    (df : DataFrame (stake * option (list Timestamp))) (climate_df : DataFrame (list float)) :
  Forall (λ p, length (default [] p.2) = 12) (rows df) →
  _process_climate_data ds_climate df = Ok climate_df →
  climate_df = mkDataFrame (_generate_climate_variable_names ds_climate)
                 ((λ p, wide_row ds_climate (POINT_LAT p.1) (POINT_LON p.1) (default [] p.2))
                    <$> rows df).
Proof.
  intros H12. unfold _process_climate_data. cbv zeta.
  intros (date_array & Hvalues%range_values_Ok & H)%bind_Ok.
  apply fmap_Some_default in Hvalues as ->.
  apply bind_Ok in H as (time_da & [-> _]%time_array_Ok & H).
  destruct (decide (length (data_vars ds_climate) = 0)) as [Hc|Hc].
  { rewrite Hc in H. by apply bind_Ok in H as (groups & Hg & _). }
  assert (length (mjoin (climate_long ds_climate ((λ p, POINT_LAT p.1) <$> rows df)
                           ((λ p, POINT_LON p.1) <$> rows df)
                           ((λ p, default [] p.2) <$> rows df)))
          = length (rows df) * (12 * length (data_vars ds_climate))) as Hflat.
  { rewrite length_join, (sum_list_fmap_same (length (data_vars ds_climate)))
      by apply climate_long_width.
    rewrite climate_long_length by done. lia. }
  rewrite Hflat, reshape_infer_mul in H by lia. cbn [mbind result_bind] in H.
  rewrite transpose_climate_long in H by done.
  assert (Forall (λ b, length b = 12 * length (data_vars ds_climate))
            ((λ p, wide_row ds_climate (POINT_LAT p.1) (POINT_LON p.1) (default [] p.2))
               <$> rows df)) as Hwide.
  { apply Forall_fmap. eapply Forall_impl; [exact H12|].
    intros r Hr. cbn. rewrite length_wide_row, Hr. lia. }
  rewrite length_join, (sum_list_fmap_same (12 * length (data_vars ds_climate))),
    length_fmap in H by done.
  rewrite reshape_infer_mul in H by lia. cbn [mbind result_bind] in H.
  rewrite <- (length_fmap
                (λ p, wide_row ds_climate (POINT_LAT p.1) (POINT_LON p.1) (default [] p.2)))
    in H.
  rewrite rows_of_mjoin in H by done.
  rewrite length_generate_climate_variable_names in H.
  replace (length (data_vars ds_climate) * 12 =? 12 * length (data_vars ds_climate))
    with true in H by (symmetry; apply Nat.eqb_eq; lia).
  by injection H as <-.
Qed.

(** It does return on a table with at least one record, twelve timestamps
    in every date range, and a dataset with at least one variable. *)
Lemma process_climate_data_returns (ds_climate : climate_dataset)
    (df : DataFrame (stake * option (list Timestamp))) :
  rows df ≠ [] →
  Forall (λ p, ∃ range_date, p.2 = Some range_date ∧ length range_date = 12) (rows df) →
  data_vars ds_climate ≠ [] →
  ∃ climate_df, _process_climate_data ds_climate df = Ok climate_df.
Proof.
  intros Hrows Hranges Hvars.
  assert (snd <$> rows df = Some <$> ((λ p, default [] p.2) <$> rows df)) as Hsome.
  { rewrite <- list_fmap_compose. apply list_fmap_ext. intros _ [r x] Hp%list_elem_of_lookup_2.
    rewrite Forall_forall in Hranges. destruct (Hranges _ Hp) as (range_date & Hx & _).
    cbn in *. by rewrite Hx. }
  assert (Forall (λ p, length (default [] p.2) = 12) (rows df)) as H12.
  { eapply Forall_impl; [exact Hranges|]. intros [r x] (range_date & Hx & Hlen).
    cbn in *. by rewrite Hx. }
  unfold _process_climate_data. cbv zeta.
  rewrite Hsome, range_values_Some. cbn [mbind result_bind].
  assert (time_array ((λ p, default [] p.2) <$> rows df)
          = Ok ((λ p, default [] p.2) <$> rows df)) as ->.
  { unfold time_array. destruct (rows df) as [|r l] eqn:Hl; [done|]. csimpl.
    rewrite Nat.eqb_refl. cbn [andb].
    replace (forallb _ _) with true; [done|]. symmetry. apply forallb_forall.
    intros d (r' & -> & Hr')%list_elem_of_In%list_elem_of_fmap.
    apply Nat.eqb_eq. apply Forall_cons in H12 as [Hr H12].
    rewrite Forall_forall in H12. by rewrite Hr, H12. }
  cbn [mbind result_bind].
  assert (length (data_vars ds_climate) ≠ 0) as Hc by (by destruct (data_vars ds_climate)).
  assert (length (mjoin (climate_long ds_climate ((λ p, POINT_LAT p.1) <$> rows df)
                           ((λ p, POINT_LON p.1) <$> rows df)
                           ((λ p, default [] p.2) <$> rows df)))
          = length (rows df) * (12 * length (data_vars ds_climate))) as Hflat.
  { rewrite length_join, (sum_list_fmap_same (length (data_vars ds_climate)))
      by apply climate_long_width.
    rewrite climate_long_length by done. lia. }
  rewrite Hflat, reshape_infer_mul by lia. cbn [mbind result_bind].
  rewrite transpose_climate_long by done.
  assert (Forall (λ b, length b = 12 * length (data_vars ds_climate))
            ((λ p, wide_row ds_climate (POINT_LAT p.1) (POINT_LON p.1) (default [] p.2))
               <$> rows df)) as Hwide.
  { apply Forall_fmap. eapply Forall_impl; [exact H12|].
    intros r Hr. cbn. rewrite length_wide_row, Hr. lia. }
  rewrite length_join, (sum_list_fmap_same (12 * length (data_vars ds_climate))),
    length_fmap by done.
  rewrite reshape_infer_mul by lia. cbn [mbind result_bind].
  rewrite length_generate_climate_variable_names.
  replace (length (data_vars ds_climate) * 12 =? 12 * length (data_vars ds_climate))
    with true by (symmetry; apply Nat.eqb_eq; lia).
  by eexists.
Qed.

(** The suffixes of a string. *)
Fixpoint suffixes (s : string) : list string :=
  s :: match s with
       | EmptyString => []
       | String _ s' => suffixes s'
       end.

Lemma append_suffix (prefix suffix s : string) :
  prefix +:+ suffix = s → suffix ∈ suffixes s.
Proof.
  revert s. induction prefix as [|c prefix IH]; intros s; cbn.
  - intros <-. destruct suffix; left.
  - destruct s as [|c' s]; [done|]. intros [= _ Hs]. cbn. right. by apply IH.
Qed.

(** A generated name ends in one of the month suffixes. *)
Lemma generated_name_neq (ds_climate : climate_dataset) (name s : string) :
  Forall (λ m, m ∉ suffixes s) months_names →
  name ∈ _generate_climate_variable_names ds_climate → name ≠ s.
Proof.
  unfold _generate_climate_variable_names.
  intros Hs (var & Hname & _)%list_elem_of_bind.
  apply list_elem_of_bind in Hname as (month_name & Hname & Hmonth).
  apply list_elem_of_singleton in Hname as ->.
  intros Heq%append_suffix. rewrite Forall_forall in Hs. by apply (Hs month_name).
Qed.

(** No generated name is the name of the altitude column. *)
Lemma generated_name_not_altitude (ds_climate : climate_dataset) (name : string) :
  name ∈ _generate_climate_variable_names ds_climate → name ≠ "altitude_climate".
Proof.
  apply generated_name_neq. apply (bool_decide_unpack _). vm_compute. exact I.
Qed.

Lemma rename_generated_names (ds_climate : climate_dataset) :
  rename_column "altitude_climate" "ALTITUDE_CLIMATE"
    <$> _generate_climate_variable_names ds_climate
  = _generate_climate_variable_names ds_climate.
Proof.
  rewrite <- (list_fmap_id (_generate_climate_variable_names ds_climate)) at 2.
  apply list_fmap_ext. intros _ name Hname%list_elem_of_lookup_2.
  unfold rename_column. case_decide; [|done].
  by apply generated_name_not_altitude in Hname.
Qed.

Lemma stake_columns_kept :
  rename_column "altitude_climate" "ALTITUDE_CLIMATE"
    <$> drop_columns ["range_date"] (stake_columns ++ ["range_date"])
  = stake_columns.
Proof. vm_compute. reflexivity. Qed.

Lemma altitude_column_renamed :
  rename_column "altitude_climate" "ALTITUDE_CLIMATE"
    <$> drop_columns ["latitude"; "longitude"; "z"]
          ["latitude"; "longitude"; "z"; "altitude_climate"]
  = ["ALTITUDE_CLIMATE"].
Proof. vm_compute. reflexivity. Qed.

(** The columns of the enriched table, for a table of stakes with its
    required columns. *)
Definition enriched_columns (ds_climate : climate_dataset) : list string :=
  stake_columns ++ _generate_climate_variable_names ds_climate
  ++ ["ALTITUDE_CLIMATE"; "ELEVATION_DIFFERENCE"].

(** The extractor, when it returns: the date range of every record was
    made, the climate table was built from them, and the result holds, in
    the order of the input, every stake whose terrain altitude is not
    missing, with the row of the climate table that [pd.concat] puts beside
    it. *)
Lemma get_climate_features_inv (df : DataFrame stake) (ds_climate : climate_dataset)
    (ds_geopotential : altitude_dataset) (out : DataFrame enriched) :
  get_climate_features df ds_climate ds_geopotential = Ok out →
  ∃ range_date climate_df,
    Forall2 (λ r x, _create_date_range (YEAR r) = Ok x) (rows df) range_date ∧
    _process_climate_data ds_climate
      (mkDataFrame (columns df ++ ["range_date"]) (zip (rows df) range_date))
    = Ok climate_df ∧
    columns out
    = (rename_column "altitude_climate" "ALTITUDE_CLIMATE"
         <$> drop_columns ["range_date"] (columns df ++ ["range_date"])
             ++ columns climate_df
             ++ drop_columns ["latitude"; "longitude"; "z"]
                  ["latitude"; "longitude"; "z"; "altitude_climate"])
      ++ ["ELEVATION_DIFFERENCE"] ∧
    rows out
    = with_altitude ds_geopotential
        <$> filter (λ p, is_nan (altitude_of ds_geopotential p.1) = false)
              (zip (rows df) (climate_rows_for (length (rows df)) climate_df)).
Proof.
  unfold get_climate_data.get_climate_features.
  intros (df' & (range_date & Hranges & ->)%add_date_range_Ok & H)%bind_Ok.
  apply bind_Ok in H as (climate_df & Hclimate & [= <-]).
  exists range_date, climate_df. split_and!; [done..|].
  pose proof (Forall2_length _ _ _ Hranges) as Hlen.
  unfold _calculate_elevation_difference, _combine_dataframes, _process_altitude_data.
  cbn [rows columns].
  rewrite <- list_fmap_compose.
  rewrite length_zip, <- Hlen, Nat.min_id.
  fold (climate_rows_for (length (rows df)) climate_df).
  change (altitude_climate ∘ _)
    with (altitude_of ds_geopotential ∘ (@fst stake (option (list Timestamp)))).
  rewrite (list_fmap_compose fst (altitude_of ds_geopotential)).
  rewrite !fst_zip by lia.
  rewrite zip_zip_fmap.
  rewrite (filter_fmap (λ r : stake * list float * float, is_nan r.2 = false)).
  rewrite <- list_fmap_compose. reflexivity.
Qed.

Lemma get_climate_features_columns (df : DataFrame stake) (ds_climate : climate_dataset)
    (ds_geopotential : altitude_dataset) (out : DataFrame enriched) :
  columns df = stake_columns →
  get_climate_features df ds_climate ds_geopotential = Ok out →
  columns out = enriched_columns ds_climate.
Proof.
  intros Hcols (range_date & climate_df & _ & Hclimate & -> & _)%get_climate_features_inv.
  apply process_climate_data_shape in Hclimate as (_ & _ & -> & _).
  rewrite Hcols, !fmap_app, rename_generated_names, stake_columns_kept,
    altitude_column_renamed.
  unfold enriched_columns. by rewrite <- !app_assoc.
Qed.

(** The rows of the extractor's output, whatever the columns of the input
    are called and whatever the date ranges are: there is at least one
    record, every record has a year, the stakes are those whose terrain
    altitude is not missing, and every row has its altitude columns and one
    climate value per generated name. *)
Lemma get_climate_features_rows (df : DataFrame stake) (ds_climate : climate_dataset)
    (ds_geopotential : altitude_dataset) (out : DataFrame enriched) :
  get_climate_features df ds_climate ds_geopotential = Ok out →
  rows df ≠ [] ∧
  Forall (λ r, ∃ Y range_date,
            YEAR r = Some Y ∧ _create_date_range (Some Y) = Ok (Some range_date))
    (rows df) ∧
  base <$> rows out
  = filter (λ r, is_nan (altitude_of ds_geopotential r) = false) (rows df) ∧
  Forall (λ row,
            ALTITUDE_CLIMATE row = altitude_of ds_geopotential (base row) ∧
            is_nan (ALTITUDE_CLIMATE row) = false ∧
            ELEVATION_DIFFERENCE row
            = (ALTITUDE_CLIMATE row - POINT_ELEVATION (base row))%float ∧
            length (climate row) = length (_generate_climate_variable_names ds_climate))
    (rows out).
Proof.
  intros (range_date & climate_df & Hranges & Hclimate & _ & ->)%get_climate_features_inv.
  pose proof (Forall2_length _ _ _ Hranges) as Hlen.
  apply process_climate_data_shape in Hclimate as ((date_array & Hsome) & Hne & Hcols & Hwidth).
  cbn [rows] in Hsome, Hne.
  assert (length (rows df) ≤ length (climate_rows_for (length (rows df)) climate_df)) as Hpad.
  { unfold climate_rows_for. rewrite length_app, length_replicate. lia. }
  split_and!.
  - intros Hrows. rewrite Hrows in Hne. done.
  - rewrite snd_zip in Hsome by lia. subst range_date.
    apply Forall2_fmap_r in Hranges. clear -Hranges.
    induction Hranges as [|r l rs ls Hr _ IH]; constructor; [|done].
    destruct (YEAR r) as [Y|] eqn:HY; [by exists Y, l|]. cbn in Hr. discriminate Hr.
  - rewrite <- list_fmap_compose.
    change (base ∘ with_altitude ds_geopotential) with (@fst stake (list float)).
    exact (fst_filter_zip (λ r, is_nan (altitude_of ds_geopotential r) = false) _ _ Hpad).
  - apply Forall_fmap, Forall_forall. intros [r cl] [Hnan Hin]%list_elem_of_filter.
    cbn in *. split_and!; try done.
    apply elem_of_zip_r in Hin. unfold climate_rows_for in Hin.
    apply elem_of_app in Hin as [Hin|Hin].
    + rewrite Forall_forall in Hwidth. by apply Hwidth.
    + apply elem_of_replicate in Hin as [-> _]. by rewrite length_replicate, Hcols.
Qed.

(** With twelve timestamps in the date range of every record, the climate
    values beside a stake are those of its wide row. *)
Lemma get_climate_features_Ok (df : DataFrame stake) (ds_climate : climate_dataset)
    (ds_geopotential : altitude_dataset) (out : DataFrame enriched) :
  Forall (λ r, ∀ range_date,
            _create_date_range (YEAR r) = Ok (Some range_date) → length range_date = 12)
    (rows df) →
  get_climate_features df ds_climate ds_geopotential = Ok out →
  rows out
  = enrich ds_climate ds_geopotential
      <$> filter (λ r, is_nan (altitude_of ds_geopotential r) = false) (rows df).
Proof.
  intros H12 (range_date & climate_df & Hranges & Hclimate & _ & ->)%get_climate_features_inv.
  pose proof (Forall2_length _ _ _ Hranges) as Hlen.
  pose proof Hclimate as ((date_array & Hsome) & _)%process_climate_data_shape.
  cbn [rows] in Hsome. rewrite snd_zip in Hsome by lia. subst range_date.
  apply Forall2_fmap_r in Hranges.
  assert (date_array = range_of <$> rows df ∧
          Forall (λ r, _create_date_range (YEAR r) = Ok (Some (range_of r))) (rows df))
    as [-> Hall].
  { clear -Hranges. induction Hranges as [|r l rs ls Hr _ [IH1 IH2]]; [done|].
    assert (range_of r = l) as Hl by (unfold range_of; by rewrite Hr).
    split.
    - csimpl. by rewrite IH1, Hl.
    - constructor; [by rewrite Hl|done]. }
  rewrite <- list_fmap_compose, zip_fmap_self in Hclimate.
  apply process_climate_data_Ok in Hclimate as ->.
  - unfold climate_rows_for. cbn [rows columns].
    rewrite <- list_fmap_compose, !length_fmap, Nat.sub_diag. cbn [replicate].
    rewrite app_nil_r, zip_fmap_self.
    rewrite (filter_fmap (λ p : stake * list float,
                            is_nan (altitude_of ds_geopotential p.1) = false)).
    rewrite <- list_fmap_compose. reflexivity.
  - cbn [rows]. apply Forall_fmap, Forall_forall. intros r Hr. cbn.
    rewrite Forall_forall in H12, Hall. by apply (H12 r Hr), Hall.
Qed.

End Enrichment.

(** ** Names, order and content of the climate columns *)

Section ClimateColumns.

Import Pandas get_climate_data.

Context (parse_datetime_string : string → result Timestamp).

Local Abbreviation _create_date_range :=
  (get_climate_data._create_date_range parse_datetime_string).
Local Abbreviation get_climate_features :=
  (get_climate_data.get_climate_features parse_datetime_string).

(** The month labels in the order of the generated names. *)
Definition month_labels : list string :=
  ["oct"; "nov"; "dec"; "jan"; "feb"; "mar"; "apr"; "may"; "jun"; "jul"; "aug"; "sep"].

(** The order the claim C1 gives. *)
Definition month_labels_from_september : list string :=
  ["sep"; "oct"; "nov"; "dec"; "jan"; "feb"; "mar"; "apr"; "may"; "jun"; "jul"; "aug"].

Lemma months_names_labels : months_names = (λ label, "_" +:+ label) <$> month_labels.
Proof. vm_compute. reflexivity. Qed.

Lemma generate_climate_variable_names_lookup (ds_climate : climate_dataset)
    (v j : nat) (var label : string) :
  data_vars ds_climate !! v = Some var →
  month_labels !! j = Some label →
  _generate_climate_variable_names ds_climate !! (v * 12 + j)
  = Some (var +:+ "_" +:+ label).
Proof.
  intros Hv Hj. unfold _generate_climate_variable_names.
  rewrite list_bind_mjoin.
  apply (join_lookup_Some_same_length' 12).
  - apply Forall_fmap, Forall_true. intros var'. unfold compose.
    by rewrite list_bind_singleton, length_fmap.
  - by apply lookup_lt_Some in Hj.
  - eexists. rewrite list_lookup_fmap, Hv. split; [done|].
    cbn beta. rewrite list_bind_singleton, list_lookup_fmap, months_names_labels.
    by rewrite list_lookup_fmap, Hj.
Qed.

(** Why the names start in October.  On a time axis that holds the first
    day of every month (the stamps of monthly means such as ERA5's), the
    nearest-neighbour lookup of a timestamp [t] returns the first of the
    month of [t] or of the following month, whichever is nearer, the later
    one on a tie. *)
Definition nearest_month_start (t : Timestamp) : Timestamp :=
  let to_previous := (day t - 1)%Z in
  let to_next := (days_in_month (year t) (month t) - day t + 1)%Z in
  if (to_next <=? to_previous)%Z then
    (if (month t =? 12)%Z then mkTimestamp (year t + 1) 1 1
     else mkTimestamp (year t) (month t + 1) 1)
  else mkTimestamp (year t) (month t) 1.

(** On such an axis the [j]-th month end of the date range is looked up in
    the month that the [j]-th label names: the value found for 30 September
    is the mean of October, and so on to September. *)
Lemma month_labels_name_nearest_month_start (Y : Z) :
  (λ t, lower <$> month_abbr !! Z.to_nat (month (nearest_month_start t)))
    <$> hydrological_year Y
  = Some <$> month_labels.
Proof.
  unfold hydrological_year, nearest_month_start. cbn.
  unfold is_leap_year. by destruct (_ || _).
Qed.

(** C1, as stated, fails on the names: with the single variable [t2m] the
    generated names start at [t2m_oct] and end at [t2m_sep]; they are not
    [t2m_sep, t2m_oct, .., t2m_aug]. *)
Lemma climate_names_do_not_start_in_september :
  ¬ (∀ ds_climate : climate_dataset,
       _generate_climate_variable_names ds_climate
       = (var ← data_vars ds_climate;
          (λ label, var +:+ "_" +:+ label) <$> month_labels_from_september)).
Proof.
  intros H. specialize (H (mkClimate ["t2m"] (λ _ _ _ _, 0%float))).
  vm_compute in H. discriminate H.
Qed.

(** C1, amended. In the enriched table of a table of stakes in which the
    date range of every record has twelve timestamps (as it has for every
    [YEAR] from 1679 to 2261), the climate columns follow the input columns;
    those of the [v]-th variable [var] are named
    [var_oct, var_nov, var_dec, var_jan, .., var_sep], in that order; and in
    the row of every enriched record the [j]-th of them holds the
    nearest-neighbour value of [var], at the record's latitude and
    longitude, at the [j]-th month-end timestamp of the record's date range
    (for these years, 30 September of [YEAR - 1] for [var_oct], .., 31
    August of [YEAR] for [var_sep]). *)
Theorem climate_columns_named_and_filled (df : DataFrame stake)
    (ds_climate : climate_dataset) (ds_geopotential : altitude_dataset)
    (out : DataFrame enriched) (v j : nat) (var label : string) :
  columns df = stake_columns →
  Forall (λ r, ∀ range_date,
            _create_date_range (YEAR r) = Ok (Some range_date) → length range_date = 12)
    (rows df) →
  get_climate_features df ds_climate ds_geopotential = Ok out →
  data_vars ds_climate !! v = Some var →
  month_labels !! j = Some label →
  columns out !! (length (columns df) + (v * 12 + j)) = Some (var +:+ "_" +:+ label) ∧
  ∀ row, row ∈ rows out →
    ∃ Y range_date time,
      YEAR (base row) = Some Y ∧
      _create_date_range (Some Y) = Ok (Some range_date) ∧
      range_date !! j = Some time ∧
      climate row !! (v * 12 + j)
      = Some (sel_nearest ds_climate var (POINT_LAT (base row)) (POINT_LON (base row)) time).
Proof.
  intros Hcols H12 Hout Hv Hj.
  pose proof (get_climate_features_columns _ _ _ _ _ Hcols Hout) as Hcolumns.
  pose proof (get_climate_features_rows _ _ _ _ _ Hout) as (_ & Hyears & _).
  pose proof (get_climate_features_Ok _ _ _ _ _ H12 Hout) as Hrows.
  split.
  - rewrite Hcolumns. unfold enriched_columns. rewrite Hcols.
    rewrite lookup_app_r by lia.
    replace (length stake_columns + (v * 12 + j) - length stake_columns) with (v * 12 + j)
      by lia.
    rewrite lookup_app_l.
    + by apply generate_climate_variable_names_lookup.
    + rewrite length_generate_climate_variable_names.
      apply lookup_lt_Some in Hv, Hj. cbn in Hj. nia.
  - rewrite Hrows. intros row (r & -> & Hr)%list_elem_of_fmap.
    apply list_elem_of_filter in Hr as [_ Hr].
    rewrite Forall_forall in Hyears, H12.
    destruct (Hyears r Hr) as (Y & range_date & HY & Hrange).
    assert (length range_date = 12) as Hlen.
    { apply (H12 r Hr). by rewrite HY. }
    assert (is_Some (range_date !! j)) as [time Htime].
    { apply lookup_lt_is_Some. apply lookup_lt_Some in Hj. cbn in Hj. lia. }
    exists Y, range_date, time. cbn [enrich base climate].
    split_and!; try done.
    assert (range_of parse_datetime_string r = range_date) as ->.
    { unfold range_of. by rewrite HY, Hrange. }
    rewrite <- Hlen. by apply wide_row_lookup.
Qed.

End ClimateColumns.

Section ClimateColumnsExample.

Import Pandas get_climate_data Examples.

Lemma climate_columns_named_and_filled_witness :
  columns three_stakes_enriched !! (length (columns three_stakes) + (1 * 12 + 0))
  = Some ("tp" +:+ "_" +:+ "oct") ∧
  ∀ row, row ∈ rows three_stakes_enriched →
    ∃ Y range_date time,
      YEAR (base row) = Some Y ∧
      _create_date_range parse_in_2026 (Some Y) = Ok (Some range_date) ∧
      range_date !! 0 = Some time ∧
      climate row !! (1 * 12 + 0)
      = Some (sel_nearest two_variables "tp" (POINT_LAT (base row)) (POINT_LON (base row)) time).
Proof.
  apply (climate_columns_named_and_filled parse_in_2026 three_stakes two_variables
           northern_terrain three_stakes_enriched 1 0 "tp" "oct").
  - reflexivity.
  - repeat constructor; intros range_date H; vm_compute in H; injection H as <-;
      reflexivity.
  - vm_compute. reflexivity.
  - reflexivity.
  - reflexivity.
Defined.

End ClimateColumnsExample.

(** ** Enrichment keeps the identity of the records *)

Section IdentityFields.

Import Pandas get_climate_data.

Context (parse_datetime_string : string → result Timestamp).

Local Abbreviation get_climate_features :=
  (get_climate_data.get_climate_features parse_datetime_string).

Lemma generated_name_not_range_date (ds_climate : climate_dataset) (name : string) :
  name ∈ _generate_climate_variable_names ds_climate → name ≠ "range_date".
Proof.
  apply generated_name_neq. apply (bool_decide_unpack _). vm_compute. exact I.
Qed.

(** C9. The enriched table of a table of stakes holds, in the order of the
    input, the records whose terrain altitude is not missing, each with its
    input columns as they were: in particular [ID], [RGIId], [POINT_LAT],
    [POINT_LON] and [YEAR] of every enriched record are those of an input
    record.  Its columns are the input columns followed by the climate
    columns, [ALTITUDE_CLIMATE] and [ELEVATION_DIFFERENCE]; [range_date] is
    not among them. *)
Theorem enrichment_keeps_identity_fields (df : DataFrame stake)
    (ds_climate : climate_dataset) (ds_geopotential : altitude_dataset)
    (out : DataFrame enriched) :
  columns df = stake_columns →
  get_climate_features df ds_climate ds_geopotential = Ok out →
  base <$> rows out
  = filter (λ r, is_nan (altitude_of ds_geopotential r) = false) (rows df) ∧
  (∀ row, row ∈ rows out →
     ∃ r, r ∈ rows df ∧
       ID (base row) = ID r ∧ RGIId (base row) = RGIId r ∧
       POINT_LAT (base row) = POINT_LAT r ∧ POINT_LON (base row) = POINT_LON r ∧
       YEAR (base row) = YEAR r) ∧
  columns out
  = columns df ++ _generate_climate_variable_names ds_climate
    ++ ["ALTITUDE_CLIMATE"; "ELEVATION_DIFFERENCE"] ∧
  "range_date" ∉ columns out.
Proof.
  intros Hcols Hout.
  pose proof (get_climate_features_columns _ _ _ _ _ Hcols Hout) as Hcolumns.
  pose proof (get_climate_features_rows _ _ _ _ _ Hout) as (_ & _ & Hbase & _).
  split_and!.
  - exact Hbase.
  - intros row Hrow. exists (base row). split; [|done].
    assert (base row ∈ base <$> rows out) as Hin by (by apply list_elem_of_fmap_2).
    rewrite Hbase in Hin. by apply list_elem_of_filter in Hin as [_ Hin].
  - by rewrite Hcolumns, Hcols.
  - rewrite Hcolumns. unfold enriched_columns. rewrite !elem_of_app. intros [H|[H|H]].
    + revert H. apply (bool_decide_unpack _). vm_compute. exact I.
    + by apply generated_name_not_range_date in H.
    + revert H. apply (bool_decide_unpack _). vm_compute. exact I.
Qed.

End IdentityFields.

Section IdentityFieldsExample.

Import Pandas get_climate_data Examples.

Lemma enrichment_keeps_identity_fields_witness :
  base <$> rows three_stakes_enriched
  = filter (λ r, is_nan (altitude_of northern_terrain r) = false) (rows three_stakes) ∧
  (∀ row, row ∈ rows three_stakes_enriched →
     ∃ r, r ∈ rows three_stakes ∧
       ID (base row) = ID r ∧ RGIId (base row) = RGIId r ∧
       POINT_LAT (base row) = POINT_LAT r ∧ POINT_LON (base row) = POINT_LON r ∧
       YEAR (base row) = YEAR r) ∧
  columns three_stakes_enriched
  = columns three_stakes ++ _generate_climate_variable_names two_variables
    ++ ["ALTITUDE_CLIMATE"; "ELEVATION_DIFFERENCE"] ∧
  "range_date" ∉ columns three_stakes_enriched.
Proof.
  apply (enrichment_keeps_identity_fields parse_in_2026 three_stakes two_variables
           northern_terrain).
  - reflexivity.
  - vm_compute. reflexivity.
Defined.

End IdentityFieldsExample.

(** ** Folds *)

Section Folds.

Import Numpy.

(** The two sides of the fold built from the test indices [t]. *)
Lemma fold_of_test_index_Ok (n_samples : nat) (t train test : list nat) :
  Sklearn.fold_of_test_index n_samples t = Ok (train, test) →
  Forall (λ i, i < n_samples) t ∧
  (∀ i, i ∈ test ↔ i ∈ t) ∧
  (∀ i, i ∈ train ↔ i < n_samples ∧ i ∉ t) ∧
  NoDup train ∧ NoDup test.
Proof.
  unfold Sklearn.fold_of_test_index.
  destruct (forallb _ t) eqn:Hrange; [|done]. intros [= <- <-].
  assert (Forall (λ i, i < n_samples) t) as Ht.
  { apply Forall_forall. intros i Hi. apply list_elem_of_In in Hi.
    rewrite forallb_forall in Hrange. by apply Nat.ltb_lt, Hrange. }
  split; [done|]. split_and!; [| | apply NoDup_flatnonzero | apply NoDup_flatnonzero].
  - intros i. rewrite elem_of_flatnonzero, list_lookup_fmap.
    destruct (decide (i < n_samples)) as [Hi|Hi].
    + rewrite lookup_seq_lt by done. cbn. split.
      * by intros [= H%bool_decide_eq_true].
      * intros H. by rewrite bool_decide_eq_true_2.
    + rewrite lookup_seq_ge by lia. cbn. split; [done|].
      intros H. rewrite Forall_forall in Ht. apply Ht in H. lia.
  - intros i. rewrite elem_of_flatnonzero, !list_lookup_fmap.
    destruct (decide (i < n_samples)) as [Hi|Hi].
    + rewrite lookup_seq_lt by done. cbn. split.
      * intros [= H%negb_true_iff%bool_decide_eq_false]. done.
      * intros [_ H]. by rewrite bool_decide_eq_false_2.
    + rewrite lookup_seq_ge by lia. cbn. split; [done|]. by intros [? _].
Qed.

Lemma fold_of_test_index_lt (n_samples : nat) (t train test : list nat) :
  Sklearn.fold_of_test_index n_samples t = Ok (train, test) →
  Forall (λ i, i < n_samples) train ∧ Forall (λ i, i < n_samples) test.
Proof.
  intros (Ht & Htest & Htrain & _)%fold_of_test_index_Ok.
  rewrite !Forall_forall. split.
  - intros i Hi. by apply Htrain in Hi as [? _].
  - intros i Hi%Htest. rewrite Forall_forall in Ht. by apply Ht.
Qed.

Lemma folds_of_test_indices_Ok (n_samples : nat) (tests : list (list nat))
    (folds : list (list nat * list nat)) :
  Sklearn.folds_of_test_indices n_samples tests = Ok folds →
  Forall2 (λ t fold, Sklearn.fold_of_test_index n_samples t = Ok fold) tests folds.
Proof.
  revert folds. induction tests as [|t tests IH]; intros folds;
    cbn [Sklearn.folds_of_test_indices].
  - intros [= <-]. constructor.
  - intros (fold & Hfold & (folds' & Hfolds & [= <-])%bind_Ok)%bind_Ok.
    constructor; [done|]. by apply IH.
Qed.

Lemma NoDup_mjoin_elem {A} (ls : list (list A)) (l : list A) :
  NoDup (mjoin ls) → l ∈ ls → NoDup l.
Proof.
  induction ls as [|l' ls IH]; intros Hnd Hl.
  - by apply elem_of_nil in Hl.
  - csimpl in Hnd. apply NoDup_app in Hnd as (Hl' & _ & Hls).
    apply elem_of_cons in Hl as [->|Hl]; [done|]. by apply IH.
Qed.

Lemma mjoin_Permutation {A} (ls1 ls2 : list (list A)) :
  Forall2 (≡ₚ) ls1 ls2 → mjoin ls1 ≡ₚ mjoin ls2.
Proof.
  induction 1 as [|l1 l2 ls1 ls2 Hl _ IH]; [done|].
  csimpl. by rewrite Hl, IH.
Qed.

(** Test indices that together list every sample once give folds whose
    validation sides do the same. *)
Lemma folds_cover (n_samples : nat) (tests : list (list nat))
    (folds : list (list nat * list nat)) :
  mjoin tests ≡ₚ seq 0 n_samples →
  Sklearn.folds_of_test_indices n_samples tests = Ok folds →
  mjoin (snd <$> folds) ≡ₚ seq 0 n_samples.
Proof.
  intros Hperm Hfolds%folds_of_test_indices_Ok.
  rewrite <- Hperm. symmetry. apply mjoin_Permutation.
  apply Forall2_fmap_r.
  assert (NoDup (mjoin tests)) as Hnd by (rewrite Hperm; apply NoDup_seq).
  assert (∀ t, t ∈ tests → NoDup t) as Hts by (intros t; by apply NoDup_mjoin_elem).
  clear Hperm Hnd.
  induction Hfolds as [|t [train test] tests folds Hfold _ IH]; [constructor|].
  apply fold_of_test_index_Ok in Hfold as (_ & Htest & _ & _ & Hnd).
  constructor.
  - cbn. apply NoDup_Permutation; [apply Hts; left|done|]. intros i. by rewrite Htest.
  - apply IH. intros t' Ht'. apply Hts. by right.
Qed.

Lemma folds_length (n_samples : nat) (tests : list (list nat))
    (folds : list (list nat * list nat)) :
  Sklearn.folds_of_test_indices n_samples tests = Ok folds → length folds = length tests.
Proof. intros H%folds_of_test_indices_Ok. symmetry. by eapply Forall2_length. Qed.

Lemma folds_in_range (n_samples : nat) (tests : list (list nat))
    (folds : list (list nat * list nat)) :
  Sklearn.folds_of_test_indices n_samples tests = Ok folds →
  Forall (λ fold, Forall (λ i, i < n_samples) fold.1 ∧ Forall (λ i, i < n_samples) fold.2) folds.
Proof.
  intros H%folds_of_test_indices_Ok.
  induction H as [|t [train test] tests folds Hfold _ IH]; constructor; [|done].
  by apply fold_of_test_index_lt in Hfold.
Qed.

End Folds.

(** ** Grouped and shuffled k-fold *)

Section KFolds.

Import Numpy.

Context (rs_permutation : Z → nat → list nat).
Context (np_argsort : list nat → list nat).

Lemma argmin_lt (a : list nat) : a ≠ [] → argmin a < length a.
Proof.
  induction a as [|x a IH]; [done|]. intros _. cbn [argmin length].
  destruct (forallb _ a) eqn:Hall; [lia|].
  assert (a ≠ []) as Ha by (by intros ->). specialize (IH Ha). lia.
Qed.

(** The balancing loop keeps [n_splits] fold weights and sends every group
    to one of the [n_splits] folds. *)
Lemma foldl_assign_group_folds (n_splits : nat) (state : list nat * list nat)
    (order : list (nat * nat)) :
  n_splits ≠ 0 →
  length state.1 = n_splits → Forall (λ f, f < n_splits) state.2 →
  Forall (λ f, f < n_splits) (foldl Sklearn.assign_group state order).2.
Proof.
  intros Hk. revert state. induction order as [|[group weight] order IH];
    intros [per_fold to_fold] Hlen Hfolds; [done|].
  cbn [foldl]. apply IH; cbn [Sklearn.assign_group fst snd] in *.
  - by rewrite length_insert.
  - apply Forall_insert; [done|]. rewrite <- Hlen. apply argmin_lt.
    intros ->. cbn in Hlen. lia.
Qed.

Lemma group_to_fold_lt (n_splits : nat) (groups : list string) (weights : list nat) :
  n_splits ≠ 0 →
  Forall (λ f, f < n_splits) (group_to_fold np_argsort n_splits groups weights).
Proof.
  intros Hk. unfold group_to_fold. apply foldl_assign_group_folds; cbn [fst snd].
  - done.
  - apply length_replicate.
  - apply Forall_replicate. lia.
Qed.

(** The rows with label [f], for [f] from 0 to [k - 1], list every row
    once when every label is below [k]. *)
Lemma NoDup_mjoin_fmap {A} (g : nat → list A) (fs : list nat) :
  NoDup fs → (∀ f, NoDup (g f)) →
  (∀ f1 f2 x, x ∈ g f1 → x ∈ g f2 → f1 = f2) →
  NoDup (mjoin (g <$> fs)).
Proof.
  intros Hfs Hg Hdisj. induction Hfs as [|f fs Hf _ IH]; [constructor|].
  csimpl. apply NoDup_app. split_and!; [done| |done].
  intros x Hx (l & Hxl & (f' & -> & Hf')%list_elem_of_fmap)%list_elem_of_join.
  by rewrite (Hdisj f f' x Hx Hxl) in Hf.
Qed.

Lemma rows_by_label_Permutation (labels : list nat) (k : nat) :
  Forall (λ f, f < k) labels →
  mjoin ((λ f, flatnonzero ((λ i, bool_decide (i = f)) <$> labels)) <$> seq 0 k)
  ≡ₚ seq 0 (length labels).
Proof.
  intros Hlabels.
  assert (∀ f i, i ∈ flatnonzero ((λ i, bool_decide (i = f)) <$> labels)
                 ↔ labels !! i = Some f) as Hmem.
  { intros f i. rewrite elem_of_flatnonzero, list_lookup_fmap.
    destruct (labels !! i) as [f'|]; cbn; [|done]. split.
    - by intros [= ->%bool_decide_eq_true].
    - intros [= ->]. by rewrite bool_decide_eq_true_2. }
  apply NoDup_Permutation.
  - apply NoDup_mjoin_fmap; [apply NoDup_seq|intros; apply NoDup_flatnonzero|].
    intros f1 f2 i H1%Hmem H2%Hmem. congruence.
  - apply NoDup_seq.
  - intros i. rewrite list_elem_of_join, elem_of_seq. split.
    + intros (l & Hi & (f & -> & _)%list_elem_of_fmap).
      apply Hmem, lookup_lt_Some in Hi. lia.
    + intros [_ Hi]. apply lookup_lt_is_Some in Hi as [f Hf].
      exists (flatnonzero ((λ i, bool_decide (i = f)) <$> labels)). split.
      * by apply Hmem.
      * apply list_elem_of_fmap. exists f. split; [done|].
        apply elem_of_seq. rewrite Forall_lookup in Hlabels.
        specialize (Hlabels i f Hf). lia.
Qed.

(** What [GroupKFold] yields: the fold of every row, which is below
    [n_splits] and the same for rows of the same group, and as test indices
    of fold [f] the rows whose fold is [f]. *)
Lemma GroupKFold_iter_test_indices_Ok (n_splits : nat) (groups : list string)
    (tests : list (list nat)) :
  n_splits ≠ 0 →
  Sklearn.GroupKFold_iter_test_indices np_argsort n_splits groups = Ok tests →
  ∃ row_fold : list nat,
    length row_fold = length groups ∧
    Forall (λ f, f < n_splits) row_fold ∧
    (∀ i j x, groups !! i = Some x → groups !! j = Some x →
              row_fold !! i = row_fold !! j) ∧
    tests = (λ f, flatnonzero ((λ i, bool_decide (i = f)) <$> row_fold)) <$> seq 0 n_splits.
Proof.
  intros Hk. rewrite GroupKFold_iter_test_indices_unfold.
  destruct (_ <? n_splits); [done|].
  intros (weights & _ & (row_fold & Hrows & [= <-])%bind_Ok)%bind_Ok.
  exists row_fold. split_and!; [| | |done].
  - apply take_idx_Ok, Forall2_length in Hrows.
    unfold group_indices in Hrows. by rewrite length_fmap in Hrows.
  - apply take_idx_Ok in Hrows. apply Forall_lookup. intros i f Hf.
    destruct (Forall2_lookup_r _ _ _ _ _ Hrows Hf) as (g & _ & Hg).
    pose proof (group_to_fold_lt n_splits groups weights Hk) as Hlt.
    rewrite Forall_lookup in Hlt. by apply (Hlt g).
  - intros i j x Hi Hj. rewrite !(take_idx_lookup _ _ _ _ Hrows).
    unfold group_indices. by rewrite !list_lookup_fmap, Hi, Hj.
Qed.

(** *** The shuffled k-fold *)

Lemma mjoin_consecutive_slices (indices : list nat) (current : nat) (fold_sizes : list nat) :
  mjoin (Sklearn.consecutive_slices indices current fold_sizes)
  = take (sum_list fold_sizes) (drop current indices).
Proof.
  revert current. induction fold_sizes as [|size sizes IH]; intros current; [done|].
  cbn [Sklearn.consecutive_slices]. csimpl. rewrite IH. unfold py_slice.
  replace (current + size - current) with size by lia.
  by rewrite <- drop_drop, take_take_drop.
Qed.

Lemma length_consecutive_slices (indices : list nat) (current : nat) (fold_sizes : list nat) :
  length (Sklearn.consecutive_slices indices current fold_sizes) = length fold_sizes.
Proof.
  revert current. induction fold_sizes as [|size sizes IH]; intros current; [done|].
  cbn. by rewrite IH.
Qed.

Lemma sum_fold_sizes (base extra k : nat) :
  sum_list ((λ i, base + (if i <? extra then 1 else 0)) <$> seq 0 k)
  = k * base + min extra k.
Proof.
  induction k as [|k IH]; [cbn; lia|].
  rewrite seq_S, fmap_app, sum_list_with_app, IH. change (0 + k) with k.
  cbn [fmap list_fmap sum_list_with id]. destruct (Nat.ltb_spec k extra); lia.
Qed.

(** The test indices of the shuffled k-fold are the shuffled indices, cut
    into [n_splits] consecutive pieces. *)
Lemma KFold_iter_test_indices_Ok (n_splits : nat) (random_state : Z) (n_samples : nat)
    (tests : list (list nat)) :
  n_splits ≠ 0 →
  length (rs_permutation random_state n_samples) = n_samples →
  Sklearn.KFold_iter_test_indices rs_permutation n_splits random_state n_samples = Ok tests →
  length tests = n_splits ∧ mjoin tests = rs_permutation random_state n_samples.
Proof.
  intros Hk Hlen. unfold Sklearn.KFold_iter_test_indices.
  intros (rng & [-> _]%check_random_state_Ok & [= <-])%bind_Ok. split.
  - by rewrite length_consecutive_slices, length_fmap, length_seq.
  - rewrite mjoin_consecutive_slices, sum_fold_sizes, drop_0.
    apply take_ge. rewrite Hlen.
    pose proof (Nat.div_mod_eq n_samples n_splits).
    pose proof (Nat.mod_upper_bound n_samples n_splits Hk). lia.
Qed.

End KFolds.

(** ** Cross-validation folds of the training subset *)

Section CrossValidation.

Import get_climate_data DataLoader.

Context (rs_permutation : Z → nat → list nat).
Context (np_argsort : list nat → list nat).

(** The key that a fold type groups by. *)
Definition grouping_key (type_fold : string) (r : enriched) : string :=
  if decide (type_fold = "group-rgi") then RGIId (base r) else ID (base r).

(** The test indices of each fold, by fold type. *)
Definition iter_test_indices (type_fold : string) (n_splits : nat) (random_seed : Z)
    (train_data : list enriched) : result (list (list nat)) :=
  if decide (type_fold = "group-rgi") then
    Sklearn.GroupKFold_iter_test_indices np_argsort n_splits
      ((λ r, RGIId (base r)) <$> train_data)
  else if decide (type_fold = "group-meas-id") then
    Sklearn.GroupKFold_iter_test_indices np_argsort n_splits
      ((λ r, ID (base r)) <$> train_data)
  else
    Sklearn.KFold_iter_test_indices rs_permutation n_splits random_seed
      (length train_data).

(** What [get_cv_split] has done when it returns. *)
Lemma get_cv_split_Ok (self self' : DataLoader) (n_splits : Z) (type_fold : string)
    (folds : list (list nat * list nat)) :
  get_cv_split rs_permutation np_argsort self n_splits type_fold = (self', Ok folds) →
  ∃ train train_data tests,
    train_indices self = Some train ∧
    take_idx (rows (data self)) train = Ok train_data ∧
    (1 < n_splits)%Z ∧
    Z.to_nat n_splits ≤ length train_data ∧
    iter_test_indices type_fold (Z.to_nat n_splits) (random_seed self) train_data
    = Ok tests ∧
    Sklearn.folds_of_test_indices (length train_data) tests = Ok folds.
Proof.
  unfold get_cv_split, _validate_train_iterator, _get_train_data. cbn.
  destruct (train_indices self) as [train|]; cbn; [|done].
  destruct (take_idx (rows (data self)) train) as [train_data|e] eqn:Hdata; cbn; [|done].
  destruct (_create_group_kfold_splits _ _ _ _ _ _ _ _) as [splits|e] eqn:Hsplits;
    [|done].
  intros [= _ <-]. exists train, train_data.
  assert (∀ iter,
            (Sklearn._BaseKFold_init (Some n_splits) ≫= λ k,
               Sklearn._BaseKFold_split k (length (features <$> train_data)) (iter k))
            = Ok splits →
            ∃ tests, (1 < n_splits)%Z ∧ Z.to_nat n_splits ≤ length train_data ∧
              iter (Z.to_nat n_splits) = Ok tests ∧
              Sklearn.folds_of_test_indices (length train_data) tests = Ok splits)
    as Hsplit.
  { intros iter (k & Hk & H)%bind_Ok. cbn in Hk.
    destruct (Z.leb_spec n_splits 1); [done|]. injection Hk as <-.
    unfold Sklearn._BaseKFold_split in H. rewrite length_fmap in H.
    destruct (Nat.ltb_spec (length train_data) (Z.to_nat n_splits)); [done|].
    apply bind_Ok in H as (tests & Htests & H). by exists tests. }
  unfold _create_group_kfold_splits in Hsplits. cbn [DataLoader.n_splits random_seed] in Hsplits.
  unfold iter_test_indices.
  repeat case_decide;
    apply Hsplit in Hsplits as (tests & ? & ? & Htests & ?);
    exists tests; split_and!; try done.
  by rewrite length_fmap in Htests.
Qed.

(** C5. In every fold that [get_cv_split] returns for [group-rgi] (keys:
    [RGIId]) or [group-meas-id] (keys: [ID]), a row of the training subset
    among the train indices and a row among the validation indices never
    have the same key. *)
Theorem group_folds_keep_groups_apart (self self' : DataLoader) (n_splits : Z)
    (type_fold : string) (folds : list (list nat * list nat)) :
  type_fold = "group-rgi" ∨ type_fold = "group-meas-id" →
  get_cv_split rs_permutation np_argsort self n_splits type_fold = (self', Ok folds) →
  ∃ train_data,
    _get_train_data self = Ok train_data ∧
    ∀ fold i j ri rj,
      fold ∈ folds → i ∈ fold.1 → j ∈ fold.2 →
      train_data !! i = Some ri → train_data !! j = Some rj →
      grouping_key type_fold ri ≠ grouping_key type_fold rj.
Proof.
  intros Htype (train & train_data & tests & Htrain & Hdata & Hk & _ & Htests & Hfolds)
    %get_cv_split_Ok.
  exists train_data. split; [unfold _get_train_data; by rewrite Htrain|].
  assert (Sklearn.GroupKFold_iter_test_indices np_argsort (Z.to_nat n_splits)
            (grouping_key type_fold <$> train_data) = Ok tests) as Hgroups.
  { unfold iter_test_indices in Htests. unfold grouping_key.
    destruct Htype as [-> | ->]; by repeat case_decide. }
  apply GroupKFold_iter_test_indices_Ok in Hgroups
    as (row_fold & _ & _ & Hsame & ->); [|lia].
  apply folds_of_test_indices_Ok in Hfolds.
  intros [tr te] i j ri rj (f & Hf)%list_elem_of_lookup_1 Hi Hj Hri Hrj Hkey.
  destruct (Forall2_lookup_r _ _ _ _ _ Hfolds Hf) as (t & Ht & Hfold).
  apply fold_of_test_index_Ok in Hfold as (_ & Hte & Htr & _).
  apply list_lookup_fmap_Some in Ht as (f' & -> & _).
  cbn [fst snd] in *. apply Htr in Hi as [_ Hi]. apply Hte in Hj. apply Hi.
  rewrite elem_of_flatnonzero, list_lookup_fmap in Hj |- *.
  rewrite (Hsame i j (grouping_key type_fold ri)); [done| |].
  - by rewrite list_lookup_fmap, Hri.
  - by rewrite list_lookup_fmap, Hrj, Hkey.
Qed.

(** When [get_cv_split] returns, it returns [n_splits] folds of positions
    within the training subset whose validation sides, put together, list
    every position once.  The generator matters to the shuffled k-fold
    only. *)
Lemma get_cv_split_folds_cover (self self' : DataLoader) (n_splits : Z)
    (type_fold : string) (folds : list (list nat * list nat)) (train : list nat) :
  train_indices self = Some train →
  rs_permutation (random_seed self) (length train) ≡ₚ seq 0 (length train) →
  get_cv_split rs_permutation np_argsort self n_splits type_fold = (self', Ok folds) →
  Z.of_nat (length folds) = n_splits ∧
  Forall (λ fold, Forall (λ i, i < length train) fold.1 ∧
                  Forall (λ i, i < length train) fold.2) folds ∧
  mjoin (snd <$> folds) ≡ₚ seq 0 (length train).
Proof.
  intros Htrain Hperm
    (train' & train_data & tests & Htrain' & Hdata & Hk & _ & Htests & Hfolds)%get_cv_split_Ok.
  rewrite Htrain in Htrain'. injection Htrain' as <-.
  assert (length train_data = length train) as Hlen.
  { apply take_idx_Ok, Forall2_length in Hdata. done. }
  rewrite Hlen in *.
  assert (length tests = Z.to_nat n_splits ∧ mjoin tests ≡ₚ seq 0 (length train))
    as [Hntests Hcover].
  { unfold iter_test_indices in Htests. repeat case_decide.
    - apply GroupKFold_iter_test_indices_Ok in Htests
        as (row_fold & Hrows & Hlt & _ & ->); [|lia].
      rewrite length_fmap, length_seq. split; [done|].
      rewrite rows_by_label_Permutation by done.
      by rewrite Hrows, length_fmap, Hlen.
    - apply GroupKFold_iter_test_indices_Ok in Htests
        as (row_fold & Hrows & Hlt & _ & ->); [|lia].
      rewrite length_fmap, length_seq. split; [done|].
      rewrite rows_by_label_Permutation by done.
      by rewrite Hrows, length_fmap, Hlen.
    - rewrite Hlen in Htests.
      apply KFold_iter_test_indices_Ok in Htests as [Hn Hjoin]; [|lia|].
      + by rewrite Hjoin.
      + by rewrite Hperm, length_seq. }
  split_and!.
  - rewrite (folds_length _ _ _ Hfolds), Hntests. lia.
  - by eapply folds_in_range.
  - by eapply folds_cover.
Qed.

End CrossValidation.

Lemma group_folds_keep_groups_apart_witness :
  ∃ train_data,
    DataLoader._get_train_data Examples.loader_split = Ok train_data ∧
    ∀ fold i j ri rj,
      fold ∈ [([3], [0; 1; 2]); ([0; 1; 2], [3])] → i ∈ fold.1 → j ∈ fold.2 →
      train_data !! i = Some ri → train_data !! j = Some rj →
      grouping_key "group-rgi" ri ≠ grouping_key "group-rgi" rj.
Proof.
  apply (group_folds_keep_groups_apart Examples.rotate_permutation Numpy.argsort_stable
           Examples.loader_split
           (DataLoader.get_cv_split Examples.rotate_permutation Numpy.argsort_stable
              Examples.loader_split 2 "group-rgi").1 2 "group-rgi").
  - left. reflexivity.
  - vm_compute. reflexivity.
Defined.

(** ** [get_cv_split] returns *)

Section CrossValidationReturns.

Import Numpy get_climate_data DataLoader.

Context (rs_permutation : Z → nat → list nat).
Context (np_argsort : list nat → list nat).

Lemma index_of_lt (x : string) (u : list string) : x ∈ u → index_of x u < length u.
Proof.
  intros Hx. unfold index_of.
  destruct (list_find_elem_of (x =.) u x Hx eq_refl) as [[i y] Hfind].
  rewrite Hfind. cbn. apply list_find_Some in Hfind as (Hi & _).
  by apply lookup_lt_Some in Hi.
Qed.

Lemma group_indices_lt (groups : list string) :
  Forall (λ g, g < length (unique groups)) (group_indices groups).
Proof.
  unfold group_indices. apply Forall_fmap, Forall_forall. intros x Hx. cbn.
  by apply index_of_lt, elem_of_unique.
Qed.

Lemma length_unique_le (a : list string) : length (unique a) ≤ length a.
Proof.
  unfold unique. rewrite <- (Permutation_length (merge_sort_Permutation str_le a)).
  apply submseteq_length, NoDup_submseteq; [apply NoDup_remove_dups|].
  intros x. by rewrite elem_of_remove_dups.
Qed.

Lemma foldl_assign_group_length (state : list nat * list nat) (order : list (nat * nat)) :
  length (foldl Sklearn.assign_group state order).2 = length state.2.
Proof.
  revert state. induction order as [|[group weight] order IH];
    intros [per_fold to_fold]; [done|].
  cbn [foldl]. rewrite IH. cbn. apply length_insert.
Qed.

(** [GroupKFold] yields its test indices when there are at least
    [n_splits] groups and [np.argsort] returns a permutation of the
    positions of its argument. *)
Lemma GroupKFold_iter_test_indices_total (n_splits : nat) (groups : list string) :
  n_splits ≤ length (unique groups) →
  np_argsort (bincount (group_indices groups))
  ≡ₚ seq 0 (length (bincount (group_indices groups))) →
  ∃ tests, Sklearn.GroupKFold_iter_test_indices np_argsort n_splits groups = Ok tests.
Proof.
  intros Hk Hsort. rewrite GroupKFold_iter_test_indices_unfold.
  destruct (Nat.ltb_spec (length (unique groups)) n_splits); [lia|].
  destruct (take_idx_in_range (bincount (group_indices groups))
              (group_order np_argsort groups)) as [weights ->].
  { unfold group_order. apply Forall_forall. intros i Hi.
    rewrite elem_of_reverse, Hsort, elem_of_seq in Hi. lia. }
  cbn [mbind result_bind].
  destruct (take_idx_in_range (group_to_fold np_argsort n_splits groups weights)
              (group_indices groups)) as [row_fold ->].
  { unfold group_to_fold. rewrite foldl_assign_group_length. cbn [snd].
    rewrite length_replicate. apply group_indices_lt. }
  cbn. by eexists.
Qed.

Lemma KFold_iter_test_indices_total (n_splits : nat) (random_state : Z) (n_samples : nat) :
  (0 ≤ random_state < 2 ^ 32)%Z →
  ∃ tests,
    Sklearn.KFold_iter_test_indices rs_permutation n_splits random_state n_samples
    = Ok tests.
Proof.
  intros Hseed. unfold Sklearn.KFold_iter_test_indices.
  rewrite (proj2 (check_random_state_Ok random_state random_state)) by done.
  cbn. by eexists.
Qed.

Lemma folds_of_test_indices_total (n_samples : nat) (tests : list (list nat)) :
  Forall (Forall (λ i, i < n_samples)) tests →
  ∃ folds, Sklearn.folds_of_test_indices n_samples tests = Ok folds.
Proof.
  induction 1 as [|t tests Ht _ [folds IH]]; [by exists []|].
  cbn [Sklearn.folds_of_test_indices]. unfold Sklearn.fold_of_test_index at 1.
  assert (forallb (λ i, i <? n_samples) t = true) as ->.
  { apply forallb_forall. intros i Hi%list_elem_of_In. apply Nat.ltb_lt.
    rewrite Forall_forall in Ht. by apply Ht. }
  cbn. rewrite IH. cbn. by eexists.
Qed.

Lemma mjoin_Permutation_in_range (n_samples : nat) (tests : list (list nat)) :
  mjoin tests ≡ₚ seq 0 n_samples → Forall (Forall (λ i, i < n_samples)) tests.
Proof.
  intros Hperm. apply Forall_forall. intros t Ht. apply Forall_forall. intros i Hi.
  assert (i ∈ mjoin tests) as Hin by (apply list_elem_of_join; by exists t).
  rewrite Hperm, elem_of_seq in Hin. lia.
Qed.

(** The result of [get_cv_split] on a split loader. *)
Lemma get_cv_split_result (self : DataLoader) (n_splits : Z) (type_fold : string)
    (train : list nat) (train_data : list enriched) :
  train_indices self = Some train →
  take_idx (rows (data self)) train = Ok train_data →
  (get_cv_split rs_permutation np_argsort self n_splits type_fold).2
  = (k ← Sklearn._BaseKFold_init (Some n_splits);
     Sklearn._BaseKFold_split k (length train_data)
       (iter_test_indices rs_permutation np_argsort type_fold k (random_seed self)
          train_data)).
Proof.
  intros Htrain Hdata.
  unfold get_cv_split, _validate_train_iterator, _get_train_data. cbn.
  rewrite Htrain. cbn. rewrite Hdata. cbn.
  unfold _create_group_kfold_splits, iter_test_indices.
  cbn [DataLoader.n_splits random_seed]. rewrite !length_fmap.
  repeat case_decide; cbn [Sklearn._BaseKFold_init];
    destruct (n_splits <=? 1)%Z; cbn [mbind result_bind]; try done;
    by destruct (Sklearn._BaseKFold_split _ _ _).
Qed.

(** The number of units the folds are made of: the distinct keys for the
    grouped fold types, the rows for the shuffled k-fold. *)
Definition fold_units (type_fold : string) (train_data : list enriched) : nat :=
  if decide (type_fold = "group-rgi" ∨ type_fold = "group-meas-id") then
    length (unique (grouping_key type_fold <$> train_data))
  else length train_data.

(** What the folds ask of numpy: for the shuffled k-fold, a seed of 32 bits
    and a generator that returns a permutation of the positions; for the
    grouped fold types, an [argsort] that returns a permutation of the
    positions of the group sizes. *)
Definition numpy_behaves (type_fold : string) (random_seed : Z)
    (train_data : list enriched) : Prop :=
  if decide (type_fold = "group-rgi" ∨ type_fold = "group-meas-id") then
    np_argsort (bincount (group_indices (grouping_key type_fold <$> train_data)))
    ≡ₚ seq 0 (length (bincount (group_indices (grouping_key type_fold <$> train_data))))
  else
    (0 ≤ random_seed < 2 ^ 32)%Z ∧
    rs_permutation random_seed (length train_data) ≡ₚ seq 0 (length train_data).

Lemma iter_test_indices_grouped (type_fold : string) (k : nat) (random_seed : Z)
    (train_data : list enriched) :
  type_fold = "group-rgi" ∨ type_fold = "group-meas-id" →
  iter_test_indices rs_permutation np_argsort type_fold k random_seed train_data
  = Sklearn.GroupKFold_iter_test_indices np_argsort k (grouping_key type_fold <$> train_data).
Proof.
  unfold iter_test_indices, grouping_key. intros [-> | ->]; by repeat case_decide.
Qed.

Lemma iter_test_indices_shuffled (type_fold : string) (k : nat) (random_seed : Z)
    (train_data : list enriched) :
  ¬ (type_fold = "group-rgi" ∨ type_fold = "group-meas-id") →
  iter_test_indices rs_permutation np_argsort type_fold k random_seed train_data
  = Sklearn.KFold_iter_test_indices rs_permutation k random_seed (length train_data).
Proof. unfold iter_test_indices. intros Htype. repeat case_decide; tauto. Qed.

(** Outside those bounds scikit-learn refuses: with fewer than two folds,
    and with more folds than rows in the training subset. *)
Lemma get_cv_split_too_few_folds (self : DataLoader) (n_splits : Z) (type_fold : string)
    (train : list nat) (train_data : list enriched) :
  train_indices self = Some train →
  take_idx (rows (data self)) train = Ok train_data →
  (n_splits ≤ 1)%Z →
  ∃ msg, (get_cv_split rs_permutation np_argsort self n_splits type_fold).2
         = Raise (ValueError msg).
Proof.
  intros Htrain Hdata Hk.
  rewrite (get_cv_split_result self n_splits type_fold train train_data) by done.
  cbn [Sklearn._BaseKFold_init]. destruct (Z.leb_spec n_splits 1); [|lia].
  by eexists.
Qed.

Lemma get_cv_split_too_many_folds (self : DataLoader) (n_splits : Z) (type_fold : string)
    (train : list nat) (train_data : list enriched) :
  train_indices self = Some train →
  take_idx (rows (data self)) train = Ok train_data →
  (Z.of_nat (length train_data) < n_splits)%Z →
  ∃ msg, (get_cv_split rs_permutation np_argsort self n_splits type_fold).2
         = Raise (ValueError msg).
Proof.
  intros Htrain Hdata Hk.
  rewrite (get_cv_split_result self n_splits type_fold train train_data) by done.
  cbn [Sklearn._BaseKFold_init]. destruct (Z.leb_spec n_splits 1); [by eexists|].
  cbn [mbind result_bind]. unfold Sklearn._BaseKFold_split.
  destruct (Nat.ltb_spec (length train_data) (Z.to_nat n_splits)); [|lia].
  by eexists.
Qed.

(** C6, as stated, fails for [n_folds = 1]: on the split example loader
    [get_cv_split] raises the [ValueError] of scikit-learn's k-fold instead
    of returning one pair. *)
Lemma get_cv_split_rejects_one_fold :
  ¬ (∃ folds,
       (get_cv_split Examples.rotate_permutation argsort_stable Examples.loader_split
          1 "random").2 = Ok folds ∧
       length folds = 1).
Proof. intros (folds & H & _). vm_compute in H. discriminate H. Qed.

(** C6, amended. Take a loader that has been split, [n_splits >= 2] not
    above the number of rows of the training subset (shuffled k-fold) or of
    its distinct grouping keys (grouped fold types), and numpy behaving as
    documented.  Then [get_cv_split] returns; it returns exactly [n_splits]
    folds; every index in a fold is a position within the training subset;
    and the validation sides of the folds, put together, list every
    position of the training subset exactly once. *)
Theorem get_cv_split_returns_k_folds (self : DataLoader) (n_splits : Z)
    (type_fold : string) (train : list nat) (train_data : list enriched) :
  train_indices self = Some train →
  take_idx (rows (data self)) train = Ok train_data →
  (2 ≤ n_splits)%Z →
  Z.to_nat n_splits ≤ fold_units type_fold train_data →
  numpy_behaves type_fold (random_seed self) train_data →
  ∃ folds,
    (get_cv_split rs_permutation np_argsort self n_splits type_fold).2 = Ok folds ∧
    Z.of_nat (length folds) = n_splits ∧
    Forall (λ fold, Forall (λ i, i < length train) fold.1 ∧
                    Forall (λ i, i < length train) fold.2) folds ∧
    mjoin (snd <$> folds) ≡ₚ seq 0 (length train).
Proof.
  intros Htrain Hdata Hk Hunits Hnumpy.
  assert (length train_data = length train) as Hlen.
  { apply take_idx_Ok, Forall2_length in Hdata. done. }
  assert (Z.to_nat n_splits ≠ 0) as Hk0 by lia.
  assert (∃ tests,
            iter_test_indices rs_permutation np_argsort type_fold (Z.to_nat n_splits)
              (random_seed self) train_data = Ok tests ∧
            length tests = Z.to_nat n_splits ∧
            mjoin tests ≡ₚ seq 0 (length train_data) ∧
            Z.to_nat n_splits ≤ length train_data)
    as (tests & Htests & Hntests & Hcover & Hrows).
  { unfold fold_units, numpy_behaves in *.
    destruct (decide (type_fold = "group-rgi" ∨ type_fold = "group-meas-id"))
      as [Htype|Htype].
    - rewrite iter_test_indices_grouped by done.
      destruct (GroupKFold_iter_test_indices_total (Z.to_nat n_splits)
                  (grouping_key type_fold <$> train_data) Hunits Hnumpy) as [tests Htests].
      exists tests. split; [done|].
      apply GroupKFold_iter_test_indices_Ok in Htests
        as (row_fold & Hrow & Hlt & _ & ->); [|done].
      rewrite length_fmap, length_seq. split_and!; [done| |].
      + rewrite rows_by_label_Permutation by done. by rewrite Hrow, length_fmap.
      + pose proof (length_unique_le (grouping_key type_fold <$> train_data)) as Hle.
        rewrite length_fmap in Hle. lia.
    - rewrite iter_test_indices_shuffled by done. destruct Hnumpy as [Hseed Hperm].
      destruct (KFold_iter_test_indices_total (Z.to_nat n_splits) (random_seed self)
                  (length train_data) Hseed) as [tests Htests].
      exists tests. split; [done|].
      apply KFold_iter_test_indices_Ok in Htests as [Hn Hjoin]; [|done|].
      + split_and!; [done| |done]. by rewrite Hjoin.
      + by rewrite Hperm, length_seq. }
  destruct (folds_of_test_indices_total (length train_data) tests) as [folds Hfolds].
  { by apply mjoin_Permutation_in_range. }
  exists folds. rewrite (get_cv_split_result self n_splits type_fold train train_data)
    by done.
  cbn [Sklearn._BaseKFold_init]. destruct (Z.leb_spec n_splits 1); [lia|].
  cbn [mbind result_bind]. unfold Sklearn._BaseKFold_split.
  destruct (Nat.ltb_spec (length train_data) (Z.to_nat n_splits)); [lia|].
  rewrite Htests. cbn [mbind result_bind]. rewrite <- Hlen. split_and!.
  - done.
  - rewrite (folds_length _ _ _ Hfolds), Hntests. lia.
  - by eapply folds_in_range.
  - by eapply folds_cover.
Qed.

End CrossValidationReturns.

Lemma get_cv_split_returns_k_folds_witness :
  ∃ folds,
    (DataLoader.get_cv_split Examples.rotate_permutation Numpy.argsort_stable
       Examples.loader_split 3 "group-meas-id").2 = Ok folds ∧
    Z.of_nat (length folds) = 3%Z ∧
    Forall (λ fold : list nat * list nat,
              Forall (λ i, i < length [0; 1; 2; 5]) fold.1 ∧
              Forall (λ i, i < length [0; 1; 2; 5]) fold.2) folds ∧
    mjoin (snd <$> folds) ≡ₚ seq 0 (length [0; 1; 2; 5]).
Proof.
  apply (get_cv_split_returns_k_folds Examples.rotate_permutation Numpy.argsort_stable
           Examples.loader_split 3 "group-meas-id" [0; 1; 2; 5]
           (Examples.measurement "m1" "g1" :: Examples.measurement "m2" "g1"
            :: Examples.measurement "m1" "g1" :: Examples.measurement "m5" "g3" :: [])).
  - reflexivity.
  - vm_compute. reflexivity.
  - lia.
  - vm_compute. lia.
  - unfold numpy_behaves. case_decide as Htype; [|exfalso; apply Htype; by right].
    apply (bool_decide_unpack _). vm_compute. exact I.
Defined.

(** ** The assertion of [set_train_test_split] never fails *)

Section GroupedSplit.

Import Numpy get_climate_data DataLoader.

Context (rs_permutation : Z → nat → list nat).

(** What the grouped shuffle split returns: the rows whose group is among
    the groups drawn for each side. *)
Lemma GroupShuffleSplit_split_Ok (random_state : Z) (test_size : float)
    (groups : list string) (train test : list nat) :
  Sklearn.GroupShuffleSplit_split rs_permutation random_state test_size groups
  = Ok (train, test) →
  ∃ n_train n_test,
    let permutation := rs_permutation random_state (length (unique groups)) in
    train = flatnonzero (isin (group_indices groups)
                           (py_slice n_test (n_test + n_train) permutation)) ∧
    test = flatnonzero (isin (group_indices groups) (py_slice 0 n_test permutation)).
Proof.
  unfold Sklearn.GroupShuffleSplit_split. destruct groups as [|g groups]; [done|].
  unfold unique_inverse. cbv zeta. cbn [fst snd]. fold (group_indices (g :: groups)).
  intros ([n_train n_test] & _ & (rng & [-> _]%check_random_state_Ok & [= <- <-])%bind_Ok)
    %bind_Ok.
  by exists n_train, n_test.
Qed.

Lemma GroupShuffleSplit_split_Raise (random_state : Z) (test_size : float)
    (groups : list string) (e : exn) :
  Sklearn.GroupShuffleSplit_split rs_permutation random_state test_size groups = Raise e →
  ∃ msg, e = ValueError msg.
Proof.
  unfold Sklearn.GroupShuffleSplit_split. destruct groups as [|g groups].
  { intros [= <-]. by eexists. }
  unfold unique_inverse. cbv zeta.
  intros [H|([n_train n_test] & _ & H)]%bind_Raise.
  - unfold Sklearn._validate_shuffle_split in H.
    destruct (_ || _); [injection H as <-; by eexists|].
    destruct (Float64.ceil _); [|injection H as <-; by eexists].
    destruct (_ =? _)%Z; [injection H as <-; by eexists|done].
  - apply bind_Raise in H as [H|(rng & _ & [=])].
    unfold Sklearn.check_random_state in H.
    destruct (_ && _); [done|]. injection H as <-. by eexists.
Qed.

Lemma flatnonzero_isin_lt (a b : list nat) :
  Forall (λ i, i < length a) (flatnonzero (isin a b)).
Proof.
  apply Forall_forall. intros i Hi%flatnonzero_lt.
  unfold isin in Hi. by rewrite length_fmap in Hi.
Qed.

(** Two draws from different parts of a list without repetition have no
    element in common. *)
Lemma py_slice_disjoint (l : list nat) (n m : nat) (x : nat) :
  NoDup l → x ∈ py_slice 0 n l → x ∈ py_slice n m l → False.
Proof.
  unfold py_slice. rewrite drop_0, Nat.sub_0_r. intros Hnd Htest Htrain.
  rewrite <- (take_drop n l) in Hnd. apply NoDup_app in Hnd as (_ & Hdisj & _).
  apply (Hdisj x Htest). by eapply subseteq_take.
Qed.

(** With a generator whose output has no repetition, the rows of a
    measurement identifier all land on the same side: the assertion holds,
    and the method returns unless scikit-learn rejects the sizes or the
    seed with a [ValueError]. *)
Lemma set_train_test_split_never_asserts (self : DataLoader) (test_size : float)
    (shuffle : bool) (e : exn) :
  NoDup (rs_permutation (random_seed self) (length (unique (stake_meas_ids self)))) →
  (set_train_test_split rs_permutation self test_size shuffle).2 = Raise e →
  ∃ msg, e = ValueError msg.
Proof.
  intros Hnd. unfold set_train_test_split. cbn. fold (stake_meas_ids self).
  destruct (Sklearn.GroupShuffleSplit_split _ _ _ _) as [[train test]|e'] eqn:Hsplit.
  2:{ cbn. intros [= <-]. by eapply GroupShuffleSplit_split_Raise. }
  cbn. apply GroupShuffleSplit_split_Ok in Hsplit as (n_train & n_test & -> & ->).
  cbv zeta.
  destruct (take_idx_in_range (stake_meas_ids self)
              (flatnonzero (isin (group_indices (stake_meas_ids self))
                 (py_slice n_test (n_test + n_train)
                    (rs_permutation (random_seed self)
                       (length (unique (stake_meas_ids self))))))))
    as [train_ids Htrain].
  { pose proof (flatnonzero_isin_lt (group_indices (stake_meas_ids self))
                  (py_slice n_test (n_test + n_train)
                     (rs_permutation (random_seed self)
                        (length (unique (stake_meas_ids self)))))) as Hlt.
    unfold group_indices in Hlt at 1. by rewrite length_fmap in Hlt. }
  destruct (take_idx_in_range (stake_meas_ids self)
              (flatnonzero (isin (group_indices (stake_meas_ids self))
                 (py_slice 0 n_test
                    (rs_permutation (random_seed self)
                       (length (unique (stake_meas_ids self))))))))
    as [test_ids Htest].
  { pose proof (flatnonzero_isin_lt (group_indices (stake_meas_ids self))
                  (py_slice 0 n_test
                     (rs_permutation (random_seed self)
                        (length (unique (stake_meas_ids self)))))) as Hlt.
    unfold group_indices in Hlt at 1. by rewrite length_fmap in Hlt. }
  rewrite Htrain. cbn. rewrite Htest. cbn.
  assert (intersect1d train_ids test_ids = []) as ->; [|done].
  apply intersect1d_empty. intros id Hid1 Hid2.
  destruct (take_idx_elem_of _ _ _ _ Htrain Hid1) as (i & Hi & Hidi).
  destruct (take_idx_elem_of _ _ _ _ Htest Hid2) as (j & Hj & Hidj).
  apply elem_of_flatnonzero, isin_lookup_true in Hi as (gi & Hgi & Hin_train).
  apply elem_of_flatnonzero, isin_lookup_true in Hj as (gj & Hgj & Hin_test).
  unfold group_indices in Hgi, Hgj.
  rewrite list_lookup_fmap, Hidi in Hgi. rewrite list_lookup_fmap, Hidj in Hgj.
  cbn in Hgi, Hgj. injection Hgi as <-. injection Hgj as <-.
  by eapply py_slice_disjoint.
Qed.

(** A loader that has been split is a loader [get_cv_split] can read its
    training subset from: the indices stored by [set_train_test_split]
    are positions of the table. *)
Lemma set_train_test_split_train_data (self self' : DataLoader) (test_size : float)
    (shuffle : bool) (train test : list nat) :
  set_train_test_split rs_permutation self test_size shuffle = (self', Ok (train, test)) →
  train_indices self' = Some train ∧
  ∃ train_data, take_idx (rows (data self')) train = Ok train_data.
Proof.
  intros (Hsplit & _ & ->)%set_train_test_split_Ok. split; [done|].
  cbn [data]. apply take_idx_in_range.
  apply GroupShuffleSplit_split_Ok in Hsplit as (n_train & n_test & -> & _).
  cbv zeta.
  pose proof (flatnonzero_isin_lt (group_indices (stake_meas_ids self))
                (py_slice n_test (n_test + n_train)
                   (rs_permutation (random_seed self)
                      (length (unique (stake_meas_ids self)))))) as Hlt.
  unfold group_indices in Hlt at 1. rewrite length_fmap in Hlt.
  unfold stake_meas_ids in Hlt at 1. by rewrite length_fmap in Hlt.
Qed.

End GroupedSplit.

(** The shuffled k-fold on the example: the four training rows, shuffled
    by a rotation of 42 positions, cut into two folds of two. *)
Lemma get_cv_split_random_example :
  (DataLoader.get_cv_split Examples.rotate_permutation Numpy.argsort_stable
     Examples.loader_split 2 "random").2
  = Ok [([0; 1], [2; 3]); ([2; 3], [0; 1])].
Proof. vm_compute. reflexivity. Qed.

(** * Further properties of the extractor *)

(** ** Distinct column names *)

Section ColumnNames.

Import Pandas get_climate_data Examples.

Lemma length_append (a b : string) :
  String.length (a +:+ b) = String.length a + String.length b.
Proof. induction a as [|c a IH]; [done|]. simpl. f_equal. exact IH. Qed.

(** Two names with suffixes of the same length are equal only if both
    parts are. *)
Lemma append_inj_length (a b c d : string) :
  String.length b = String.length d → a +:+ b = c +:+ d → a = c ∧ b = d.
Proof.
  revert c. induction a as [|x a IH]; intros [|y c] Hlen Heq.
  - done.
  - apply (f_equal String.length) in Heq. rewrite !length_append in Heq.
    cbn [String.length] in Heq. lia.
  - apply (f_equal String.length) in Heq. rewrite !length_append in Heq.
    cbn [String.length] in Heq. lia.
  - injection Heq as -> Heq. destruct (IH c Hlen Heq) as [-> ->]. done.
Qed.

Lemma months_names_length : Forall (λ m, String.length m = 4) months_names.
Proof. apply (bool_decide_unpack _). vm_compute. exact I. Qed.

Lemma NoDup_months_names : NoDup months_names.
Proof. apply (bool_decide_unpack _). vm_compute. exact I. Qed.

Lemma NoDup_generate_climate_variable_names (ds_climate : climate_dataset) :
  NoDup (data_vars ds_climate) → NoDup (_generate_climate_variable_names ds_climate).
Proof.
  intros Hvars. unfold _generate_climate_variable_names.
  pose proof months_names_length as Hlen. rewrite Forall_forall in Hlen.
  apply NoDup_bind; [| |done].
  - intros v1 v2 name _ _ (m1 & ->%list_elem_of_singleton & Hm1)%list_elem_of_bind
      (m2 & Heq%list_elem_of_singleton & Hm2)%list_elem_of_bind.
    symmetry in Heq. apply append_inj_length in Heq as [-> _]; [done|].
    by rewrite (Hlen m1), (Hlen m2).
  - intros v _. apply NoDup_bind; [| |apply NoDup_months_names].
    + intros m1 m2 name Hm1 Hm2 ->%list_elem_of_singleton Heq%list_elem_of_singleton.
      apply append_inj_length in Heq as [_ ->]; [done|].
      by rewrite (Hlen m1), (Hlen m2).
    + intros m _. apply NoDup_singleton.
Qed.

(** X1. A dataset with [V] distinct variables yields [12 * V] column names,
    no two of them equal. *)
Theorem generated_names_distinct (ds_climate : climate_dataset) :
  NoDup (data_vars ds_climate) →
  length (_generate_climate_variable_names ds_climate) = 12 * length (data_vars ds_climate) ∧
  NoDup (_generate_climate_variable_names ds_climate).
Proof.
  intros Hvars. split.
  - rewrite length_generate_climate_variable_names. lia.
  - by apply NoDup_generate_climate_variable_names.
Qed.

Lemma generated_names_distinct_witness :
  length (_generate_climate_variable_names two_variables) = 12 * length (data_vars two_variables) ∧
  NoDup (_generate_climate_variable_names two_variables).
Proof.
  apply (generated_names_distinct two_variables).
  apply (bool_decide_unpack _). vm_compute. exact I.
Defined.

End ColumnNames.

(** ** Shape of the enriched table, and when the extractor returns *)

Section EnrichedShape.

Import Pandas get_climate_data.
Local Open Scope Z_scope.

Context (parse_datetime_string : string → result Timestamp).

Local Abbreviation _create_date_range :=
  (get_climate_data._create_date_range parse_datetime_string).
Local Abbreviation _add_date_range :=
  (get_climate_data._add_date_range parse_datetime_string).
Local Abbreviation get_climate_features :=
  (get_climate_data.get_climate_features parse_datetime_string).

Lemma fixed_columns_not_generated :
  Forall (λ s, Forall (λ m, m ∉ suffixes s) months_names)
    (stake_columns ++ ["ALTITUDE_CLIMATE"; "ELEVATION_DIFFERENCE"]).
Proof. apply (bool_decide_unpack _). vm_compute. exact I. Qed.

Lemma NoDup_fixed_columns :
  NoDup (stake_columns ++ ["ALTITUDE_CLIMATE"; "ELEVATION_DIFFERENCE"]).
Proof. apply (bool_decide_unpack _). vm_compute. exact I. Qed.

(** X2. The column labels of the enriched table are pairwise distinct when
    the variables of the climate dataset are: no climate column hides an
    input column, another climate column or one of the altitude columns. *)
Theorem enriched_columns_distinct (df : DataFrame stake) (ds_climate : climate_dataset)
    (ds_geopotential : altitude_dataset) (out : DataFrame enriched) :
  columns df = stake_columns →
  NoDup (data_vars ds_climate) →
  get_climate_features df ds_climate ds_geopotential = Ok out →
  NoDup (columns out).
Proof.
  intros Hcols Hvars Hout.
  rewrite (get_climate_features_columns _ _ _ _ _ Hcols Hout).
  unfold enriched_columns.
  pose proof NoDup_fixed_columns as Hfixed.
  apply NoDup_app in Hfixed as (Hstake & Hdisj & Hnew).
  pose proof fixed_columns_not_generated as Hgen. rewrite Forall_forall in Hgen.
  assert (∀ name s, name ∈ _generate_climate_variable_names ds_climate →
            s ∈ stake_columns ++ ["ALTITUDE_CLIMATE"; "ELEVATION_DIFFERENCE"] →
            name ≠ s) as Hneq.
  { intros name s Hname Hs. eapply generated_name_neq; [|done]. by apply Hgen. }
  apply NoDup_app. split_and!; [done| |].
  - intros s Hs [Hin|Hin]%elem_of_app.
    + apply (Hneq s s); [done| |done]. apply elem_of_app. by left.
    + by apply (Hdisj s).
  - apply NoDup_app. split_and!; [|intros name Hname Hin|done].
    + by apply NoDup_generate_climate_variable_names.
    + apply (Hneq name name); [done| |done]. apply elem_of_app. by right.
Qed.

(** X3. Every row of the enriched table carries exactly one climate value
    per climate column, twelve for each variable, and the table has no
    more rows than the input. *)
Theorem climate_values_match_columns (df : DataFrame stake) (ds_climate : climate_dataset)
    (ds_geopotential : altitude_dataset) (out : DataFrame enriched) :
  get_climate_features df ds_climate ds_geopotential = Ok out →
  Forall (λ row, length (climate row) = length (_generate_climate_variable_names ds_climate))
    (rows out) ∧
  length (_generate_climate_variable_names ds_climate)
  = (12 * length (data_vars ds_climate))%nat ∧
  (length (rows out) ≤ length (rows df))%nat.
Proof.
  intros (_ & _ & Hbase & Hrows)%get_climate_features_rows. split_and!.
  - eapply Forall_impl; [exact Hrows|]. by intros row (_ & _ & _ & Hrow).
  - rewrite length_generate_climate_variable_names. lia.
  - rewrite <- (length_fmap base), Hbase. apply length_filter.
Qed.

(** X4. In every row of the enriched table [ALTITUDE_CLIMATE] is the
    altitude of the terrain cell nearest to the stake and is not missing,
    and [ELEVATION_DIFFERENCE] is [ALTITUDE_CLIMATE - POINT_ELEVATION]. *)
Theorem altitude_columns_filled (df : DataFrame stake) (ds_climate : climate_dataset)
    (ds_geopotential : altitude_dataset) (out : DataFrame enriched) :
  get_climate_features df ds_climate ds_geopotential = Ok out →
  Forall (λ row,
            ALTITUDE_CLIMATE row
            = altitude_climate (sel_nearest_point ds_geopotential
                                  (POINT_LAT (base row)) (POINT_LON (base row))) ∧
            is_nan (ALTITUDE_CLIMATE row) = false ∧
            ELEVATION_DIFFERENCE row
            = (ALTITUDE_CLIMATE row - POINT_ELEVATION (base row))%float)
    (rows out).
Proof.
  intros (_ & _ & _ & Hrows)%get_climate_features_rows.
  eapply Forall_impl; [exact Hrows|]. by intros row (Halt & Hnan & Hdiff & _).
Qed.

(** The extractor returns on a table with at least one record whose years
    all lie between 1679 and 2261, given a dataset with at least one
    variable. *)
Lemma get_climate_features_returns (df : DataFrame stake)
    (ds_climate : climate_dataset) (ds_geopotential : altitude_dataset) :
  rows df ≠ [] →
  Forall (λ r, ∃ Y, YEAR r = Some Y ∧ 1679 ≤ Y ≤ 2261) (rows df) →
  data_vars ds_climate ≠ [] →
  ∃ out, get_climate_features df ds_climate ds_geopotential = Ok out.
Proof.
  intros Hrows Hyears Hvars.
  assert (Forall2 (λ r x, _create_date_range (YEAR r) = Ok x) (rows df)
            ((λ r, Some (range_of parse_datetime_string r)) <$> rows df)
          ∧ Forall (λ r, length (range_of parse_datetime_string r) = 12%nat) (rows df))
    as [Hranges H12].
  { clear Hrows. induction Hyears as [|r l (Y & HY & Hbound) _ [IH1 IH2]]; [by split|].
    assert (_create_date_range (YEAR r) = Ok (Some (hydrological_year Y))) as Hr.
    { rewrite HY. by apply create_date_range_hydrological. }
    assert (range_of parse_datetime_string r = hydrological_year Y) as Hl.
    { unfold range_of. by rewrite Hr. }
    split.
    - constructor; [by rewrite Hl|done].
    - constructor; [by rewrite Hl|done]. }
  destruct (process_climate_data_returns ds_climate
              (mkDataFrame (columns df ++ ["range_date"])
                 (zip (rows df) ((λ r, Some (range_of parse_datetime_string r)) <$> rows df))))
    as [climate_df Hclimate]; [| |done|].
  - cbn [rows]. rewrite zip_fmap_self. by destruct (rows df).
  - cbn [rows]. rewrite zip_fmap_self. apply Forall_fmap.
    eapply Forall_impl; [exact H12|]. intros r Hr. cbn. by eexists.
  - unfold get_climate_data.get_climate_features.
    assert (_add_date_range df
            = Ok (mkDataFrame (columns df ++ ["range_date"])
                    (zip (rows df)
                       ((λ r, Some (range_of parse_datetime_string r)) <$> rows df)))) as ->.
    { apply add_date_range_Ok. by eexists. }
    cbn [mbind result_bind]. rewrite Hclimate. by eexists.
Qed.

(** X5. The extractor returns a table only for an input with at least one
    record in which every record has a year; and a year that is written
    with four digits, as is the year before it, is then one of 1679 to
    2261. *)
Theorem get_climate_features_returns_only_if (df : DataFrame stake)
    (ds_climate : climate_dataset) (ds_geopotential : altitude_dataset)
    (out : DataFrame enriched) :
  get_climate_features df ds_climate ds_geopotential = Ok out →
  rows df ≠ [] ∧
  Forall (λ r, ∃ Y, YEAR r = Some Y ∧ (1001 ≤ Y ≤ 9999 → 1679 ≤ Y ≤ 2261)) (rows df).
Proof.
  intros (Hrows & Hyears & _)%get_climate_features_rows. split; [done|].
  eapply Forall_impl; [exact Hyears|].
  intros r (Y & range_date & HY & Hrange). exists Y. split; [done|].
  intros Hdigits. destruct (decide (1679 ≤ Y ≤ 2261)) as [|Hout]; [done|].
  by rewrite create_date_range_out_of_bounds in Hrange.
Qed.

(** X6. On a table without records the extractor raises a [ValueError]
    (the time array cannot be given two dimensions), whatever the
    datasets. *)
Theorem empty_table_raises_ValueError (df : DataFrame stake)
    (ds_climate : climate_dataset) (ds_geopotential : altitude_dataset) :
  rows df = [] →
  ∃ msg, get_climate_features df ds_climate ds_geopotential = Raise (ValueError msg).
Proof.
  intros Hrows.
  unfold get_climate_data.get_climate_features, get_climate_data._add_date_range,
    _process_climate_data.
  rewrite Hrows. by eexists.
Qed.

(** Whatever the datasets, a record without a year makes the extractor
    raise, here in a table whose date ranges can all be made. *)
Lemma get_climate_features_missing_year (df : DataFrame stake)
    (df' : DataFrame (stake * option (list Timestamp)))
    (ds_climate : climate_dataset) (ds_geopotential : altitude_dataset) (r : stake) :
  _add_date_range df = Ok df' → r ∈ rows df → YEAR r = None →
  get_climate_features df ds_climate ds_geopotential
  = Raise (AttributeError "'NoneType' object has no attribute 'values'").
Proof.
  intros Hadd Hin Hyear. unfold get_climate_data.get_climate_features.
  rewrite Hadd. cbn [mbind result_bind]. unfold _process_climate_data. cbv zeta.
  rewrite range_values_None; [done|].
  apply add_date_range_Ok in Hadd as (range_date & Hranges & ->). cbn [rows].
  rewrite snd_zip by (apply Forall2_length in Hranges; lia).
  apply list_elem_of_lookup in Hin as [i Hi].
  destruct (Forall2_lookup_l _ _ _ _ _ Hranges Hi) as (x & Hx & Hr).
  rewrite Hyear in Hr. cbn in Hr. injection Hr as <-.
  by eapply list_elem_of_lookup_2.
Qed.

End EnrichedShape.

Section EnrichedShapeExamples.

Import Pandas get_climate_data Examples.

Lemma enriched_columns_distinct_witness : NoDup (columns three_stakes_enriched).
Proof.
  apply (enriched_columns_distinct parse_in_2026 three_stakes two_variables northern_terrain).
  - reflexivity.
  - apply (bool_decide_unpack _). vm_compute. exact I.
  - vm_compute. reflexivity.
Defined.

Lemma climate_values_match_columns_witness :
  Forall (λ row, length (climate row) = length (_generate_climate_variable_names two_variables))
    (rows three_stakes_enriched) ∧
  length (_generate_climate_variable_names two_variables) = 12 * length (data_vars two_variables) ∧
  length (rows three_stakes_enriched) ≤ length (rows three_stakes).
Proof.
  apply (climate_values_match_columns parse_in_2026 three_stakes two_variables
           northern_terrain).
  vm_compute. reflexivity.
Defined.

Lemma altitude_columns_filled_witness :
  Forall (λ row,
            ALTITUDE_CLIMATE row
            = altitude_climate (sel_nearest_point northern_terrain
                                  (POINT_LAT (base row)) (POINT_LON (base row))) ∧
            is_nan (ALTITUDE_CLIMATE row) = false ∧
            ELEVATION_DIFFERENCE row
            = (ALTITUDE_CLIMATE row - POINT_ELEVATION (base row))%float)
    (rows three_stakes_enriched).
Proof.
  apply (altitude_columns_filled parse_in_2026 three_stakes two_variables northern_terrain).
  vm_compute. reflexivity.
Defined.

Lemma get_climate_features_returns_only_if_witness :
  rows three_stakes ≠ [] ∧
  Forall (λ r, ∃ Y, YEAR r = Some Y ∧ (1001 ≤ Y ≤ 9999 → 1679 ≤ Y ≤ 2261)%Z)
    (rows three_stakes).
Proof.
  apply (get_climate_features_returns_only_if parse_in_2026 three_stakes two_variables
           northern_terrain three_stakes_enriched).
  vm_compute. reflexivity.
Defined.

Lemma empty_table_raises_ValueError_witness :
  ∃ msg,
    get_climate_features parse_in_2026 (mkDataFrame stake_columns []) two_variables
      northern_terrain
    = Raise (ValueError msg).
Proof.
  by apply (empty_table_raises_ValueError parse_in_2026 (mkDataFrame stake_columns [])
              two_variables northern_terrain).
Defined.

End EnrichedShapeExamples.

(** ** Date ranges of different years *)

Section DateRangesApart.

Import Pandas get_climate_data.
Local Open Scope Z_scope.

Context (parse_datetime_string : string → result Timestamp).

Local Abbreviation _create_date_range :=
  (get_climate_data._create_date_range parse_datetime_string).

(** A timestamp of the range of the year [Y] lies in the last four months
    of [Y - 1] or in the first eight of [Y]. *)
Lemma elem_of_hydrological_year (Y : Z) (t : Timestamp) :
  t ∈ hydrological_year Y →
  (year t = Y - 1 ∧ 9 ≤ month t ≤ 12) ∨ (year t = Y ∧ 1 ≤ month t ≤ 8).
Proof.
  unfold hydrological_year. rewrite !elem_of_cons, elem_of_nil.
  intros H. repeat destruct H as [->|H]; cbn; lia.
Qed.

(** X7. From 1679 to 2261, the date ranges of two different years share no
    timestamp, and the range of the year after [Y] starts at the month end
    that follows the last one of the range of [Y]: the ranges tile the
    calendar. *)
Theorem date_ranges_tile_the_calendar (Y Y' : Z) :
  1679 ≤ Y ≤ 2261 → 1679 ≤ Y' ≤ 2261 → Y ≠ Y' →
  ∃ range_date range_date',
    _create_date_range (Some Y) = Ok (Some range_date) ∧
    _create_date_range (Some Y') = Ok (Some range_date') ∧
    (∀ t, t ∈ range_date → t ∉ range_date') ∧
    (Y' = Y + 1 → next_month_end <$> last range_date = head range_date').
Proof.
  intros HY HY' Hneq. exists (hydrological_year Y), (hydrological_year Y').
  rewrite !create_date_range_hydrological by done. split_and!; try done.
  - intros t H1%elem_of_hydrological_year H2%elem_of_hydrological_year. lia.
  - intros ->. cbn. unfold next_month_end, month_end. cbn.
    by replace (Y + 1 - 1) with Y by lia.
Qed.

End DateRangesApart.

Section DateRangesApartExample.

Import Pandas get_climate_data Examples.
Local Open Scope Z_scope.

Lemma date_ranges_tile_the_calendar_witness :
  ∃ range_date range_date',
    _create_date_range parse_in_2026 (Some 2020) = Ok (Some range_date) ∧
    _create_date_range parse_in_2026 (Some 2021) = Ok (Some range_date') ∧
    (∀ t, t ∈ range_date → t ∉ range_date') ∧
    (2021 = 2020 + 1 → next_month_end <$> last range_date = head range_date').
Proof. apply (date_ranges_tile_the_calendar parse_in_2026 2020 2021); lia. Defined.

End DateRangesApartExample.

(** ** Geopotential height *)

Section GeopotentialHeight.

Import Pandas get_climate_data.

Context (parse_datetime_string : string → result Timestamp).

Local Abbreviation get_climate_features :=
  (get_climate_data.get_climate_features parse_datetime_string).

Lemma SFcompare_refl (x : spec_float) : x ≠ S754_nan → SFcompare x x = Some Eq.
Proof.
  destruct x as [s|s| |s m e]; intros Hx; try done.
  - by destruct s.
  - unfold SFcompare.
    replace (IntDef.Z.compare e e) with Eq by (symmetry; apply Z.compare_refl).
    replace (PosDef.Pos.compare_cont Eq m m) with Eq by (symmetry; apply Pos.compare_refl).
    by destruct s.
Qed.

(** Binary64 has one NaN in this model. *)
Lemma is_nan_true (x : float) : is_nan x = true → x = nan.
Proof.
  unfold is_nan. rewrite FloatAxioms.eqb_spec. unfold SFeqb. intros Hx.
  destruct (Prim2SF x) as [s|s| |s m e] eqn:Hnan.
  - by rewrite SFcompare_refl in Hx.
  - by rewrite SFcompare_refl in Hx.
  - rewrite <- (FloatAxioms.SF2Prim_Prim2SF x), Hnan. reflexivity.
  - by rewrite SFcompare_refl in Hx.
Qed.

Lemma geopotential_height_nan (z : float) :
  is_nan z = true → is_nan (geopotential_height z) = true.
Proof. intros ->%is_nan_true. vm_compute. reflexivity. Qed.

(** The geopotential of the terrain cell nearest to a stake. *)
Definition nearest_z (ds_geopotential : geopotential_dataset) (r : stake) : float :=
  (sel_nearest_cell ds_geopotential (POINT_LAT r) (POINT_LON r)).2.

Lemma altitude_of_height (ds_geopotential : geopotential_dataset) (r : stake) :
  altitude_of (_calculate_geopotential_height ds_geopotential) r
  = geopotential_height (nearest_z ds_geopotential r).
Proof.
  unfold altitude_of, _calculate_geopotential_height, nearest_z. cbn.
  by destruct (sel_nearest_cell _ _ _) as [[? ?] ?].
Qed.

(** X8. With the altitude derived by [_calculate_geopotential_height], the
    [ALTITUDE_CLIMATE] of every enriched record is
    [r_earth * (z / g) / (r_earth - z / g)] for the geopotential [z] of the
    terrain cell nearest to the stake, and a stake whose nearest cell has no
    geopotential (NaN) is not in the output. *)
Theorem missing_geopotential_drops_the_stake (df : DataFrame stake)
    (ds_climate : climate_dataset) (ds_geopotential : geopotential_dataset)
    (out : DataFrame enriched) :
  get_climate_features df ds_climate (_calculate_geopotential_height ds_geopotential)
  = Ok out →
  Forall (λ row,
            ALTITUDE_CLIMATE row = geopotential_height (nearest_z ds_geopotential (base row)) ∧
            is_nan (nearest_z ds_geopotential (base row)) = false)
    (rows out) ∧
  ∀ r, is_nan (nearest_z ds_geopotential r) = true → r ∉ base <$> rows out.
Proof.
  intros (_ & _ & Hbase & Hrows)%get_climate_features_rows. split.
  - eapply Forall_impl; [exact Hrows|]. intros row (Halt & Hnan & _).
    rewrite Halt in *. rewrite altitude_of_height in *. split; [done|].
    destruct (is_nan (nearest_z ds_geopotential (base row))) eqn:Hz; [|done].
    by rewrite geopotential_height_nan in Hnan.
  - intros r Hz. rewrite Hbase. intros [Hnan _]%list_elem_of_filter.
    rewrite altitude_of_height, geopotential_height_nan in Hnan; done.
Qed.

End GeopotentialHeight.

Section GeopotentialHeightExample.

Import Pandas get_climate_data Examples.

(** Terrain at a geopotential of 9806.65 m2/s2 north of the equator and
    without data south of it, and the extractor's output on [three_stakes]
    with the altitude derived from it. *)
Definition terrain_with_gap : geopotential_dataset :=
  mkGeopotential (λ lat lon, (lat, lon, if PrimFloat.ltb lat 0 then nan else 9806.65)%float).

Definition three_stakes_on_gap : DataFrame enriched :=
  match get_climate_features parse_in_2026 three_stakes two_variables
          (_calculate_geopotential_height terrain_with_gap) with
  | Ok df => df
  | Raise _ => mkDataFrame [] []
  end.

Lemma missing_geopotential_drops_the_stake_witness :
  Forall (λ row,
            ALTITUDE_CLIMATE row = geopotential_height (nearest_z terrain_with_gap (base row)) ∧
            is_nan (nearest_z terrain_with_gap (base row)) = false)
    (rows three_stakes_on_gap) ∧
  ∀ r, is_nan (nearest_z terrain_with_gap r) = true → r ∉ base <$> rows three_stakes_on_gap.
Proof.
  apply (missing_geopotential_drops_the_stake parse_in_2026 three_stakes two_variables
           terrain_with_gap).
  vm_compute. reflexivity.
Defined.

End GeopotentialHeightExample.

(** ** Order of the longitudes *)

Section LongitudeOrder.

Import get_climate_data.

Lemma SFcompare_antisym (x y : spec_float) :
  SFcompare y x = CompOpp <$> SFcompare x y.
Proof.
  destruct x as [sx|sx| |sx mx ex], y as [sy|sy| |sy my ey];
    try (by repeat match goal with s : bool |- _ => destruct s end).
  unfold SFcompare.
  replace (IntDef.Z.compare ey ex) with (CompOpp (IntDef.Z.compare ex ey))
    by (symmetry; apply Z.compare_antisym).
  replace (PosDef.Pos.compare_cont Eq my mx) with (CompOpp (PosDef.Pos.compare_cont Eq mx my))
    by (symmetry; apply Pos.compare_antisym).
  destruct sx, sy; cbn; try done;
    destruct (IntDef.Z.compare ex ey); cbn; done.
Qed.

Lemma is_nan_false (x : float) : is_nan x = false → Prim2SF x ≠ S754_nan.
Proof.
  unfold is_nan. rewrite FloatAxioms.eqb_spec. unfold SFeqb. intros Hx Hnan.
  by rewrite Hnan in Hx.
Qed.

Lemma SFleb_total (x y : spec_float) :
  x ≠ S754_nan → y ≠ S754_nan → SFleb x y = false → SFleb y x = true.
Proof.
  intros Hx Hy. unfold SFleb. rewrite (SFcompare_antisym x y).
  assert (∃ c, SFcompare x y = Some c) as [c ->].
  { destruct x, y; try done; cbn; eauto. }
  by destruct c.
Qed.

(** The order of [sortby] is total: of two coordinates one goes first. *)
Lemma lon_leb_total (a b : float) : lon_leb a b = false → lon_leb b a = true.
Proof.
  unfold lon_leb. intros [Hb Hab]%orb_false_elim.
  destruct (is_nan a) eqn:Ha; [done|]. cbn.
  apply is_nan_false in Ha, Hb. rewrite FloatAxioms.leb_spec in *. by apply SFleb_total.
Qed.

(** Sorted by longitude: every entry is in order with the next one. *)
Definition sorted_by_longitude {A} (l : list (float * A)) : Prop :=
  Sorted (λ x y, lon_leb x.1 y.1 = true) l.

Lemma sortby_insert_sorted {A} (x : float * A) (l : list (float * A)) :
  sorted_by_longitude l → sorted_by_longitude (sortby_insert x l).
Proof.
  unfold sorted_by_longitude. induction 1 as [|y l Hl IH Hy].
  - cbn. by repeat constructor.
  - cbn [sortby_insert]. destruct (lon_leb x.1 y.1) eqn:Hxy.
    + constructor; [by constructor|by constructor].
    + constructor; [done|].
      destruct l as [|z l]; cbn [sortby_insert].
      * constructor. by apply lon_leb_total.
      * destruct (lon_leb x.1 z.1); constructor; [by apply lon_leb_total|].
        by inversion Hy.
Qed.

Lemma sortby_longitude_sorted {A} (l : list (float * A)) :
  sorted_by_longitude (sortby_longitude l).
Proof.
  induction l as [|x l IH]; [constructor|]. by apply sortby_insert_sorted.
Qed.

Lemma sortby_insert_Permutation {A} (x : float * A) (l : list (float * A)) :
  sortby_insert x l ≡ₚ x :: l.
Proof.
  induction l as [|y l IH]; [done|]. cbn [sortby_insert].
  destruct (lon_leb x.1 y.1); [done|]. by rewrite IH, Permutation_swap.
Qed.

Lemma sortby_longitude_Permutation {A} (l : list (float * A)) : sortby_longitude l ≡ₚ l.
Proof.
  induction l as [|x l IH]; [done|].
  cbn [sortby_longitude foldr]. fold (sortby_longitude l).
  by rewrite sortby_insert_Permutation, IH.
Qed.

(** X9. [_adjust_longitude] leaves the latitude axis alone and neither
    loses nor detaches data: the longitude columns of the result are those
    of the input, each under its wrapped longitude, in another order. *)
Theorem adjust_longitude_keeps_columns (ds : geopotential_grid) :
  grid_latitude (_adjust_longitude ds) = grid_latitude ds ∧
  grid_longitude (_adjust_longitude ds)
  ≡ₚ (λ c, (wrap_longitude c.1, c.2)) <$> grid_longitude ds ∧
  length (grid_longitude (_adjust_longitude ds)) = length (grid_longitude ds).
Proof.
  unfold _adjust_longitude. cbn [grid_latitude grid_longitude]. split_and!.
  - done.
  - apply sortby_longitude_Permutation.
  - by rewrite sortby_longitude_Permutation, length_fmap.
Qed.

Lemma sorted_ascending (l : list float) :
  Forall (λ x, is_nan x = false) l →
  Sorted (λ x y, lon_leb x y = true) l → ascending l = true.
Proof.
  induction l as [|x l IH]; [done|].
  intros [_ Hnan]%Forall_cons [Hsorted Hhd]%Sorted_inv.
  destruct l as [|y l]; [done|].
  change (ascending (x :: y :: l)) with (PrimFloat.leb x y && ascending (y :: l)).
  rewrite IH by done.
  apply HdRel_inv in Hhd. apply Forall_cons in Hnan as [Hy _].
  unfold lon_leb in Hhd. rewrite Hy in Hhd. cbn in Hhd. by rewrite Hhd.
Qed.

Lemma Sorted_fmap_fst {A} (l : list (float * A)) :
  sorted_by_longitude l → Sorted (λ x y, lon_leb x y = true) (fst <$> l).
Proof.
  unfold sorted_by_longitude. induction 1 as [|x l Hl IH Hx]; [constructor|].
  csimpl. constructor; [done|]. destruct Hx; csimpl; by constructor.
Qed.

(** X10. The longitudes of the grid that [_adjust_longitude] returns are in
    ascending order, provided none of them is NaN (a NaN would go last). *)
Theorem adjust_longitude_ascending (ds : geopotential_grid) :
  Forall (λ c, is_nan (wrap_longitude c.1) = false) (grid_longitude ds) →
  ascending (fst <$> grid_longitude (_adjust_longitude ds)) = true.
Proof.
  intros Hnan. unfold _adjust_longitude. cbn [grid_longitude].
  apply sorted_ascending; [|apply Sorted_fmap_fst, sortby_longitude_sorted].
  rewrite sortby_longitude_Permutation, <- list_fmap_compose.
  by apply Forall_fmap.
Qed.

Lemma adjust_longitude_ascending_witness :
  ascending
    (fst <$> grid_longitude
       (_adjust_longitude
          (mkGrid [46.5%float]
             [(0%float, [1500%float]); (90%float, [900%float]);
              (180%float, [0%float]); (270%float, [300%float])])))
  = true.
Proof.
  apply adjust_longitude_ascending.
  repeat constructor.
Defined.

(** Inserting in front of a sorted block an entry that goes after all of an
    earlier block. *)
Lemma sortby_insert_after {A} (x : float * A) (west east : list (float * A)) :
  Forall (λ y, lon_leb x.1 y.1 = false) west →
  match east with [] => True | y :: _ => lon_leb x.1 y.1 = true end →
  sortby_insert x (west ++ east) = west ++ x :: east.
Proof.
  intros Hwest Heast. induction Hwest as [|y west Hy _ IH].
  - destruct east as [|y east]; [done|]. cbn. by rewrite Heast.
  - cbn. by rewrite Hy, IH.
Qed.

Lemma ascending_head (x y : float) (l : list float) :
  ascending (x :: y :: l) = true → lon_leb x y = true ∧ ascending (y :: l) = true.
Proof.
  change (ascending (x :: y :: l)) with (PrimFloat.leb x y && ascending (y :: l)).
  intros [Hxy Hl]%andb_prop. unfold lon_leb.
  by rewrite Hxy, orb_true_r.
Qed.

(** X11. A grid in the 0 to 360 convention: when the wrapped longitudes are
    an ascending eastern block followed by an ascending western block that
    lies below it, [_adjust_longitude] returns the western block followed
    by the eastern one, every column with its data. *)
Theorem adjust_longitude_moves_west_first (ds : geopotential_grid)
    (east west : list (float * list float)) :
  (λ c, (wrap_longitude c.1, c.2)) <$> grid_longitude ds = east ++ west →
  ascending (fst <$> east) = true →
  ascending (fst <$> west) = true →
  Forall (λ x, Forall (λ y, lon_leb x.1 y.1 = false) west) east →
  _adjust_longitude ds = mkGrid (grid_latitude ds) (west ++ east).
Proof.
  unfold _adjust_longitude. intros -> Heast Hwest Hbelow. f_equal.
  unfold sortby_longitude. rewrite foldr_app.
  fold (sortby_longitude west). rewrite sortby_longitude_ascending by done.
  induction Hbelow as [|x east Hx _ IH]; [by rewrite app_nil_r|].
  cbn [foldr]. rewrite IH.
  - apply sortby_insert_after; [done|].
    destruct east as [|y east]; [done|]. csimpl in Heast.
    by apply ascending_head in Heast as [? _].
  - destruct east as [|y east]; [done|]. csimpl in Heast.
    by apply ascending_head in Heast as [_ ?].
Qed.

Lemma adjust_longitude_moves_west_first_witness :
  _adjust_longitude
    (mkGrid [46.5%float]
       [(0%float, [1500%float]); (90%float, [900%float]);
        (180%float, [0%float]); (270%float, [300%float])])
  = mkGrid [46.5%float]
      ([((-180)%float, [0%float]); ((-90)%float, [300%float])]
       ++ [(0%float, [1500%float]); (90%float, [900%float])]).
Proof.
  apply (adjust_longitude_moves_west_first
           (mkGrid [46.5%float]
              [(0%float, [1500%float]); (90%float, [900%float]);
               (180%float, [0%float]); (270%float, [300%float])])
           [(0%float, [1500%float]); (90%float, [900%float])]
           [((-180)%float, [0%float]); ((-90)%float, [300%float])]).
  - vm_compute. reflexivity.
  - reflexivity.
  - reflexivity.
  - repeat constructor.
Defined.

End LongitudeOrder.

(** * Further properties of the splitter *)

(** ** The split partitions the rows *)

Section SplitPartition.

Import Numpy get_climate_data DataLoader.

Context (rs_permutation : Z → nat → list nat).

Lemma validate_shuffle_split_Ok (n_samples : nat) (test_size : float) (n_train n_test : nat) :
  Sklearn._validate_shuffle_split n_samples test_size = Ok (n_train, n_test) →
  ∃ k : Z,
    Float64.ceil (test_size * Float64.of_nat n_samples) = Some k ∧
    (Z.of_nat n_samples - k ≠ 0)%Z ∧
    n_train = Z.to_nat (Z.of_nat n_samples - k) ∧ n_test = Z.to_nat k.
Proof.
  unfold Sklearn._validate_shuffle_split.
  destruct (_ || _); [done|].
  destruct (Float64.ceil _) as [k|]; [|done].
  destruct (Z.eqb_spec (Z.of_nat n_samples - k) 0); [done|].
  intros [= <- <-]. by exists k.
Qed.

(** The two sides of the grouped split, with the sizes that
    [_validate_shuffle_split] returned. *)
Lemma GroupShuffleSplit_split_sizes (random_state : Z) (test_size : float)
    (groups : list string) (train test : list nat) :
  Sklearn.GroupShuffleSplit_split rs_permutation random_state test_size groups
  = Ok (train, test) →
  ∃ n_train n_test,
    Sklearn._validate_shuffle_split (length (unique groups)) test_size = Ok (n_train, n_test) ∧
    let permutation := rs_permutation random_state (length (unique groups)) in
    train = flatnonzero (isin (group_indices groups)
                           (py_slice n_test (n_test + n_train) permutation)) ∧
    test = flatnonzero (isin (group_indices groups) (py_slice 0 n_test permutation)).
Proof.
  unfold Sklearn.GroupShuffleSplit_split. destruct groups as [|g groups]; [done|].
  unfold unique_inverse. cbv zeta. cbn [fst snd]. fold (group_indices (g :: groups)).
  intros ([n_train n_test] & Hsizes & (rng & [-> _]%check_random_state_Ok & [= <- <-])%bind_Ok)
    %bind_Ok.
  by exists n_train, n_test.
Qed.

Lemma NoDup_unique (a : list string) : NoDup (unique a).
Proof. apply NoDup_remove_dups. Qed.

Lemma index_of_lookup (u : list string) (g : nat) (x : string) :
  NoDup u → u !! g = Some x → index_of x u = g.
Proof.
  intros Hnd Hg. unfold index_of.
  destruct (list_find (x =.) u) as [[i y]|] eqn:Hfind; cbn.
  - apply list_find_Some in Hfind as (Hi & <- & _).
    by eapply NoDup_lookup.
  - apply list_find_None in Hfind. rewrite Forall_forall in Hfind.
    destruct (Hfind x); [by eapply list_elem_of_lookup_2|done].
Qed.

(** Every group has a row. *)
Lemma group_has_row (groups : list string) (g : nat) :
  g < length (unique groups) → ∃ i, group_indices groups !! i = Some g.
Proof.
  intros [x Hx]%lookup_lt_is_Some.
  assert (x ∈ groups) as [i Hi]%list_elem_of_lookup_1.
  { apply elem_of_unique. by eapply list_elem_of_lookup_2. }
  exists i. unfold group_indices. rewrite list_lookup_fmap, Hi. cbn. f_equal.
  apply index_of_lookup; [apply NoDup_unique|done].
Qed.

(** The rows of a set of groups and the rows of the other groups. *)
Lemma rows_of_groups_partition (group_indices test_groups train_groups : list nat) (n_groups : nat) :
  Forall (λ g, g < n_groups) group_indices →
  test_groups ++ train_groups ≡ₚ seq 0 n_groups →
  flatnonzero (isin group_indices train_groups) ++ flatnonzero (isin group_indices test_groups)
  ≡ₚ seq 0 (length group_indices).
Proof.
  intros Hlt Hperm.
  assert (NoDup (test_groups ++ train_groups)) as (_ & Hdisj & _)%NoDup_app.
  { rewrite Hperm. apply NoDup_seq. }
  apply NoDup_Permutation.
  - apply NoDup_app. split_and!; [apply NoDup_flatnonzero| |apply NoDup_flatnonzero].
    intros i (g & Hg & Htrain)%elem_of_flatnonzero%isin_lookup_true
      (g' & Hg' & Htest)%elem_of_flatnonzero%isin_lookup_true.
    rewrite Hg in Hg'. injection Hg' as <-. by apply (Hdisj g).
  - apply NoDup_seq.
  - intros i. rewrite elem_of_app, !elem_of_flatnonzero, !isin_lookup_true, elem_of_seq.
    split.
    + intros [(g & Hg%lookup_lt_Some & _)|(g & Hg%lookup_lt_Some & _)]; lia.
    + intros [_ [g Hg]%lookup_lt_is_Some].
      assert (g ∈ test_groups ++ train_groups) as [Hin|Hin]%elem_of_app.
      { rewrite Hperm, elem_of_seq. rewrite Forall_lookup in Hlt.
        specialize (Hlt i g Hg). lia. }
      * right. by exists g.
      * left. by exists g.
Qed.

(** X13. A split that returns puts every row of the table on exactly one
    side, and at least one row on the train side.  This holds when the
    generator returns a permutation of the measurement identifiers and the
    rounded-up test share [ceil(test_size * n)] of the [n] distinct
    identifiers lies between 0 and [n]. *)
Theorem train_test_split_partitions_rows (self self' : DataLoader) (test_size : float)
    (shuffle : bool) (train test : list nat) (n_test : Z) :
  rs_permutation (random_seed self) (length (unique (stake_meas_ids self)))
  ≡ₚ seq 0 (length (unique (stake_meas_ids self))) →
  Float64.ceil (test_size * Float64.of_nat (length (unique (stake_meas_ids self))))
  = Some n_test →
  (0 ≤ n_test ≤ Z.of_nat (length (unique (stake_meas_ids self))))%Z →
  set_train_test_split rs_permutation self test_size shuffle = (self', Ok (train, test)) →
  train ++ test ≡ₚ seq 0 (length (rows (data self))) ∧ train ≠ [].
Proof.
  intros Hperm Hceil Hrange (Hsplit & _ & _)%set_train_test_split_Ok.
  apply GroupShuffleSplit_split_sizes in Hsplit as (n_train & n_test' & Hsizes & Htrain & Htest).
  apply validate_shuffle_split_Ok in Hsizes as (k & Hk & Hne & -> & ->).
  rewrite Hceil in Hk. injection Hk as <-. cbv zeta in Htrain, Htest.
  set (groups := stake_meas_ids self) in *.
  set (permutation := rs_permutation (random_seed self) (length (unique groups))) in *.
  assert (length permutation = length (unique groups)) as Hlen.
  { by rewrite Hperm, length_seq. }
  assert (py_slice (Z.to_nat n_test)
            (Z.to_nat n_test + Z.to_nat (Z.of_nat (length (unique groups)) - n_test))
            permutation
          = drop (Z.to_nat n_test) permutation) as Hdrop.
  { unfold py_slice. apply take_ge. rewrite length_drop. lia. }
  assert (py_slice 0 (Z.to_nat n_test) permutation = take (Z.to_nat n_test) permutation)
    as Htake.
  { unfold py_slice. by rewrite drop_0, Nat.sub_0_r. }
  rewrite Hdrop in Htrain. rewrite Htake in Htest. subst train test. split.
  - replace (length (rows (data self))) with (length (group_indices groups)).
    2:{ unfold group_indices, groups, stake_meas_ids. by rewrite !length_fmap. }
    apply (rows_of_groups_partition _ _ _ (length (unique groups))).
    + apply group_indices_lt.
    + by rewrite take_drop.
  - destruct (drop (Z.to_nat n_test) permutation) as [|g rest] eqn:Hrest.
    { apply (f_equal length) in Hrest. rewrite length_drop in Hrest. cbn in Hrest. lia. }
    assert (g ∈ permutation) as Hg.
    { rewrite <- (take_drop (Z.to_nat n_test) permutation), Hrest, elem_of_app. right. left. }
    rewrite Hperm, elem_of_seq in Hg.
    destruct (group_has_row groups g) as [i Hi]; [lia|].
    intros Hnil.
    assert (i ∈ flatnonzero (isin (group_indices groups) (g :: rest))) as Hin.
    { apply elem_of_flatnonzero, isin_lookup_true. exists g. split; [done|left]. }
    rewrite Hnil in Hin. by apply elem_of_nil in Hin.
Qed.

End SplitPartition.

Lemma train_test_split_partitions_rows_witness :
  [0; 1; 2; 5] ++ [3; 4] ≡ₚ seq 0 (length (get_climate_data.rows (DataLoader.data Examples.loader)))
  ∧ [0; 1; 2; 5] ≠ [].
Proof.
  apply (train_test_split_partitions_rows Examples.rotate_permutation Examples.loader
           Examples.loader_split 0.3%float true [0; 1; 2; 5] [3; 4] 2%Z).
  - apply (bool_decide_unpack _). vm_compute. exact I.
  - vm_compute. reflexivity.
  - vm_compute. split; discriminate.
  - vm_compute. reflexivity.
Defined.

(** ** Sizes of the two sides *)

Section SplitSizes.

Import Numpy get_climate_data DataLoader.

Context (rs_permutation : Z → nat → list nat).

(** The rows of a set of groups carry exactly the identifiers of those
    groups. *)
Lemma unique_rows_of_groups (groups : list string) (chosen : list nat) (ids : list string) :
  NoDup chosen → Forall (λ g, g < length (unique groups)) chosen →
  take_idx groups (flatnonzero (isin (group_indices groups) chosen)) = Ok ids →
  length (unique ids) = length chosen.
Proof.
  intros Hnd Hlt Hids.
  rewrite <- (length_fmap (λ g, default "" (unique groups !! g)) chosen).
  apply Permutation_length, NoDup_Permutation.
  - apply NoDup_unique.
  - apply NoDup_fmap_2_strong; [|done]. intros g1 g2 Hg1 Hg2 Heq.
    rewrite Forall_forall in Hlt.
    destruct (lookup_lt_is_Some_2 (unique groups) g1 (Hlt g1 Hg1)) as [x1 Hx1].
    destruct (lookup_lt_is_Some_2 (unique groups) g2 (Hlt g2 Hg2)) as [x2 Hx2].
    rewrite Hx1, Hx2 in Heq. cbn in Heq. subst x2.
    eapply NoDup_lookup; [apply NoDup_unique|done..].
  - intros id. rewrite elem_of_unique, list_elem_of_fmap. split.
    + intros (i & Hi & Hid)%(take_idx_elem_of _ _ _ _ Hids).
      apply elem_of_flatnonzero, isin_lookup_true in Hi as (g & Hg & Hin).
      exists g. split; [|done].
      unfold group_indices in Hg. rewrite list_lookup_fmap, Hid in Hg.
      injection Hg as <-.
      assert (id ∈ unique groups) as [g Hg]%list_elem_of_lookup_1.
      { apply elem_of_unique. by eapply list_elem_of_lookup_2. }
      rewrite (index_of_lookup _ g id); [|apply NoDup_unique|done]. by rewrite Hg.
    + intros (g & -> & Hg).
      rewrite Forall_forall in Hlt.
      destruct (lookup_lt_is_Some_2 (unique groups) g (Hlt g Hg)) as [x Hx].
      rewrite Hx. cbn.
      assert (x ∈ groups) as [i Hi]%list_elem_of_lookup_1.
      { apply elem_of_unique. by eapply list_elem_of_lookup_2. }
      apply take_idx_Ok in Hids.
      assert (i ∈ flatnonzero (isin (group_indices groups) chosen))
        as [j Hj]%list_elem_of_lookup_1.
      { apply elem_of_flatnonzero, isin_lookup_true. exists g. split; [|done].
        unfold group_indices. rewrite list_lookup_fmap, Hi. cbn. f_equal.
        apply index_of_lookup; [apply NoDup_unique|done]. }
      destruct (Forall2_lookup_l _ _ _ _ _ Hids Hj) as (y & Hy & Hiy).
      rewrite Hi in Hiy. injection Hiy as <-. by eapply list_elem_of_lookup_2.
Qed.

(** X14. [test_size] is a share of the measurement identifiers, not of the
    rows: of the [n] distinct identifiers of the table, a split that
    returns puts the rows of exactly [ceil(test_size * n)] on the test side
    and those of the others on the train side (under the conditions of
    X13). *)
Theorem test_size_counts_identifiers (self self' : DataLoader) (test_size : float)
    (shuffle : bool) (train test : list nat) (n_test : Z) :
  rs_permutation (random_seed self) (length (unique (stake_meas_ids self)))
  ≡ₚ seq 0 (length (unique (stake_meas_ids self))) →
  Float64.ceil (test_size * Float64.of_nat (length (unique (stake_meas_ids self))))
  = Some n_test →
  (0 ≤ n_test ≤ Z.of_nat (length (unique (stake_meas_ids self))))%Z →
  set_train_test_split rs_permutation self test_size shuffle = (self', Ok (train, test)) →
  ∃ train_ids test_ids,
    take_idx (stake_meas_ids self) train = Ok train_ids ∧
    take_idx (stake_meas_ids self) test = Ok test_ids ∧
    Z.of_nat (length (unique test_ids)) = n_test ∧
    (Z.of_nat (length (unique train_ids))
     = Z.of_nat (length (unique (stake_meas_ids self))) - n_test)%Z.
Proof.
  intros Hperm Hceil Hrange
    (Hsplit & (train_ids & test_ids & Htrain_ids & Htest_ids & _) & _)%set_train_test_split_Ok.
  exists train_ids, test_ids. split; [done|]. split; [done|].
  apply GroupShuffleSplit_split_sizes in Hsplit as (n_train & n_test' & Hsizes & Htrain & Htest).
  apply validate_shuffle_split_Ok in Hsizes as (k & Hk & Hne & -> & ->).
  rewrite Hceil in Hk. injection Hk as <-. cbv zeta in Htrain, Htest.
  set (groups := stake_meas_ids self) in *.
  set (permutation := rs_permutation (random_seed self) (length (unique groups))) in *.
  assert (length permutation = length (unique groups)) as Hlen.
  { by rewrite Hperm, length_seq. }
  assert (NoDup permutation) as Hnd by (rewrite Hperm; apply NoDup_seq).
  assert (Forall (λ g, g < length (unique groups)) permutation) as Hlt.
  { apply Forall_forall. intros g Hg. rewrite Hperm, elem_of_seq in Hg. lia. }
  assert (∀ i j, NoDup (take i (drop j permutation))) as Hslice.
  { intros i j. eapply sublist_NoDup; [exact Hnd|].
    etrans; [apply sublist_take|apply sublist_drop]. }
  subst train test. unfold py_slice in *. split.
  - rewrite (unique_rows_of_groups groups _ test_ids
               (Hslice _ _)
               (Forall_take _ _ _ (Forall_drop _ _ _ Hlt)) Htest_ids).
    rewrite length_take, length_drop. lia.
  - rewrite (unique_rows_of_groups groups _ train_ids
               (Hslice _ _)
               (Forall_take _ _ _ (Forall_drop _ _ _ Hlt)) Htrain_ids).
    rewrite length_take, length_drop. lia.
Qed.

End SplitSizes.

Lemma test_size_counts_identifiers_witness :
  ∃ train_ids test_ids,
    take_idx (stake_meas_ids Examples.loader) [0; 1; 2; 5] = Ok train_ids ∧
    take_idx (stake_meas_ids Examples.loader) [3; 4] = Ok test_ids ∧
    Z.of_nat (length (Numpy.unique test_ids)) = 2%Z ∧
    (Z.of_nat (length (Numpy.unique train_ids))
     = Z.of_nat (length (Numpy.unique (stake_meas_ids Examples.loader))) - 2)%Z.
Proof.
  apply (test_size_counts_identifiers Examples.rotate_permutation Examples.loader
           Examples.loader_split 0.3%float true [0; 1; 2; 5] [3; 4] 2%Z).
  - apply (bool_decide_unpack _). vm_compute. exact I.
  - vm_compute. reflexivity.
  - vm_compute. split; discriminate.
  - vm_compute. reflexivity.
Defined.

(** ** The attributes of the object *)

Section ObjectState.

Import Numpy get_climate_data DataLoader.

Context (rs_permutation : Z → nat → list nat).
Context (np_argsort : list nat → list nat).

(** X12. With a generator that draws without repetition,
    [set_train_test_split] either returns or raises [ValueError] (a size
    or a seed that scikit-learn rejects, an empty table): its assertion
    never fails and no index is out of range. *)
Theorem set_train_test_split_returns_or_ValueError (self : DataLoader) (test_size : float)
    (shuffle : bool) :
  NoDup (rs_permutation (random_seed self) (length (unique (stake_meas_ids self)))) →
  is_ok (set_train_test_split rs_permutation self test_size shuffle).2 = true ∨
  ∃ msg, (set_train_test_split rs_permutation self test_size shuffle).2
         = Raise (ValueError msg).
Proof.
  intros Hnd.
  destruct (set_train_test_split rs_permutation self test_size shuffle).2 as [split|e]
    eqn:Hsplit; [by left|right].
  destruct (set_train_test_split_never_asserts rs_permutation self test_size shuffle e
              Hnd Hsplit) as [msg ->].
  by exists msg.
Qed.

(** X15. [set_train_test_split] records [test_size] whether it returns or
    raises; it never touches the table, the seed, [n_splits] or
    [cv_split]; it stores the indices it returns, and a call that raises
    leaves the indices of an earlier split in place. *)
Theorem set_train_test_split_frame (self : DataLoader) (test_size : float) (shuffle : bool) :
  data (set_train_test_split rs_permutation self test_size shuffle).1 = data self ∧
  random_seed (set_train_test_split rs_permutation self test_size shuffle).1
  = random_seed self ∧
  n_splits (set_train_test_split rs_permutation self test_size shuffle).1 = n_splits self ∧
  cv_split (set_train_test_split rs_permutation self test_size shuffle).1 = cv_split self ∧
  DataLoader.test_size (set_train_test_split rs_permutation self test_size shuffle).1
  = Some test_size ∧
  get_train_test_indices (set_train_test_split rs_permutation self test_size shuffle).1
  = match (set_train_test_split rs_permutation self test_size shuffle).2 with
    | Ok (train, test) => (Some train, Some test)
    | Raise _ => get_train_test_indices self
    end.
Proof.
  destruct (set_train_test_split rs_permutation self test_size shuffle)
    as [self' [[train test]|e]] eqn:Hsplit; cbn [fst snd].
  - apply set_train_test_split_Ok in Hsplit as (_ & _ & ->). done.
  - pose proof Hsplit as [Htrain Htest]%set_train_test_split_Raise.
    unfold get_train_test_indices. rewrite Htrain, Htest.
    unfold set_train_test_split in Hsplit. cbn in Hsplit.
    destruct (_ ≫= _) as [[tr te]|e'] in Hsplit; by injection Hsplit as <- _.
Qed.

(** X16. [get_cv_split] records [n_splits] whether it returns or raises; it
    never touches the table, the seed, [test_size] or the indices of the
    split; it stores the folds it returns, and a call that raises leaves
    the folds of an earlier call in place. *)
Theorem get_cv_split_frame (self : DataLoader) (n_splits : Z) (type_fold : string) :
  data (get_cv_split rs_permutation np_argsort self n_splits type_fold).1 = data self ∧
  random_seed (get_cv_split rs_permutation np_argsort self n_splits type_fold).1
  = random_seed self ∧
  test_size (get_cv_split rs_permutation np_argsort self n_splits type_fold).1
  = test_size self ∧
  get_train_test_indices (get_cv_split rs_permutation np_argsort self n_splits type_fold).1
  = get_train_test_indices self ∧
  DataLoader.n_splits (get_cv_split rs_permutation np_argsort self n_splits type_fold).1
  = Some n_splits ∧
  cv_split (get_cv_split rs_permutation np_argsort self n_splits type_fold).1
  = match (get_cv_split rs_permutation np_argsort self n_splits type_fold).2 with
    | Ok folds => Some folds
    | Raise _ => cv_split self
    end.
Proof.
  unfold get_cv_split. by destruct (_ ≫= _) as [folds|e].
Qed.

(** What the two methods leave alone, as the sequences of calls below
    need it. *)
Lemma set_train_test_split_keeps (self : DataLoader) (test_size : float) (shuffle : bool) :
  data (set_train_test_split rs_permutation self test_size shuffle).1 = data self ∧
  random_seed (set_train_test_split rs_permutation self test_size shuffle).1
  = random_seed self ∧
  get_train_test_indices (set_train_test_split rs_permutation self test_size shuffle).1
  = match (set_train_test_split rs_permutation self test_size shuffle).2 with
    | Ok (train, test) => (Some train, Some test)
    | Raise _ => get_train_test_indices self
    end.
Proof.
  unfold set_train_test_split. cbn.
  by destruct (_ ≫= _) as [[train test]|e].
Qed.

Lemma get_cv_split_keeps (self : DataLoader) (n_splits : Z) (type_fold : string) :
  data (get_cv_split rs_permutation np_argsort self n_splits type_fold).1 = data self ∧
  random_seed (get_cv_split rs_permutation np_argsort self n_splits type_fold).1
  = random_seed self ∧
  get_train_test_indices (get_cv_split rs_permutation np_argsort self n_splits type_fold).1
  = get_train_test_indices self.
Proof.
  unfold get_cv_split. by destruct (_ ≫= _) as [folds|e].
Qed.

(** A sequence of calls never changes the table or the seed. *)
Lemma run_data_seed (calls : list call) (self : DataLoader) :
  data (run rs_permutation np_argsort self calls) = data self ∧
  random_seed (run rs_permutation np_argsort self calls) = random_seed self.
Proof.
  revert self. induction calls as [|c calls IH]; intros self; [done|].
  unfold run. cbn [foldl].
  fold (run rs_permutation np_argsort (step rs_permutation np_argsort self c).1 calls).
  destruct (IH (step rs_permutation np_argsort self c).1) as [-> ->].
  destruct c as [test_size shuffle|n_splits type_fold|]; cbn [step].
  - pose proof (set_train_test_split_keeps self test_size shuffle) as (? & ? & _).
    by destruct (set_train_test_split _ _ _ _).
  - pose proof (get_cv_split_keeps self n_splits type_fold) as (? & ? & _).
    by destruct (get_cv_split _ _ _ _ _).
  - done.
Qed.

(** X17. The split is reproducible: on an object with any history of
    calls, [set_train_test_split] returns what it returns on the fresh
    object with the same table and seed.  It depends on the table, the
    seed and [test_size] alone. *)
Theorem set_train_test_split_ignores_history (data : DataFrame enriched) (random_seed : Z)
    (calls : list call) (test_size : float) (shuffle : bool) :
  (set_train_test_split rs_permutation
     (run rs_permutation np_argsort (__init__ data random_seed) calls) test_size shuffle).2
  = (set_train_test_split rs_permutation (__init__ data random_seed) test_size shuffle).2.
Proof.
  pose proof (run_data_seed calls (__init__ data random_seed)) as [Hdata Hseed].
  unfold set_train_test_split. cbn [DataLoader.data DataLoader.random_seed] in *.
  rewrite Hdata, Hseed. cbn.
  by destruct (_ ≫= _) as [[train test]|e].
Qed.

(** The indices that the last call to [set_train_test_split] that returned
    among [calls] gave back, starting from [last]. *)
Fixpoint last_split (self : DataLoader) (calls : list call)
    (last : option (list nat) * option (list nat)) : option (list nat) * option (list nat) :=
  match calls with
  | [] => last
  | c :: calls' =>
      let last' :=
        match c with
        | Call_set_train_test_split test_size shuffle =>
            match (set_train_test_split rs_permutation self test_size shuffle).2 with
            | Ok (train, test) => (Some train, Some test)
            | Raise _ => last
            end
        | _ => last
        end in
      last_split (step rs_permutation np_argsort self c).1 calls' last'
  end.

Lemma run_last_split (calls : list call) (self : DataLoader) :
  get_train_test_indices (run rs_permutation np_argsort self calls)
  = last_split self calls (get_train_test_indices self).
Proof.
  revert self. induction calls as [|c calls IH]; intros self; [done|].
  unfold run. cbn [foldl last_split].
  fold (run rs_permutation np_argsort (step rs_permutation np_argsort self c).1 calls).
  rewrite IH. f_equal.
  destruct c as [test_size shuffle|n_splits type_fold|]; cbn [step].
  - pose proof (set_train_test_split_keeps self test_size shuffle) as (_ & _ & H).
    by destruct (set_train_test_split _ _ _ _).
  - pose proof (get_cv_split_keeps self n_splits type_fold) as (_ & _ & H).
    by destruct (get_cv_split _ _ _ _ _).
  - done.
Qed.

(** X18. After any sequence of calls on a fresh object,
    [get_train_test_indices] returns the indices that the last call to
    [set_train_test_split] that returned gave back, and [(None, None)] when
    there is none: calls that raise and calls to [get_cv_split] do not
    disturb them. *)
Theorem get_train_test_indices_last_split (data : DataFrame enriched) (random_seed : Z)
    (calls : list call) :
  get_train_test_indices (run rs_permutation np_argsort (__init__ data random_seed) calls)
  = last_split (__init__ data random_seed) calls (None, None).
Proof. apply run_last_split. Qed.

End ObjectState.

Lemma set_train_test_split_returns_or_ValueError_witness :
  is_ok (DataLoader.set_train_test_split Examples.rotate_permutation Examples.loader
           2%float true).2 = true ∨
  ∃ msg, (DataLoader.set_train_test_split Examples.rotate_permutation Examples.loader
            2%float true).2 = Raise (ValueError msg).
Proof.
  apply (set_train_test_split_returns_or_ValueError Examples.rotate_permutation
           Examples.loader 2%float true).
  apply (bool_decide_unpack _). vm_compute. exact I.
Defined.

(** ** Shape of the folds *)

Section FoldShape.

Import Numpy get_climate_data DataLoader.

Context (rs_permutation : Z → nat → list nat).
Context (np_argsort : list nat → list nat).

(** The two sides of a fold split the positions of the samples. *)
Lemma fold_of_test_index_Permutation (n_samples : nat) (t train test : list nat) :
  Sklearn.fold_of_test_index n_samples t = Ok (train, test) →
  train ++ test ≡ₚ seq 0 n_samples.
Proof.
  intros (Ht & Hte & Htr & Hnd_tr & Hnd_te)%fold_of_test_index_Ok.
  apply NoDup_Permutation.
  - apply NoDup_app. split_and!; [done| |done].
    intros i [_ Hi]%Htr Hi'%Hte. done.
  - apply NoDup_seq.
  - intros i. rewrite elem_of_app, Htr, Hte, elem_of_seq. split.
    + intros [[? _]|Hi]; [lia|]. rewrite Forall_forall in Ht. apply Ht in Hi. lia.
    + intros [_ Hi]. destruct (decide (i ∈ t)); [by right|by left].
Qed.

(** X19. Every fold that [get_cv_split] returns, whatever the fold type,
    splits the positions of the training subset in two: each position is
    either among the fold's train indices or among its validation indices,
    never in both and never twice. *)
Theorem every_fold_partitions_the_training_subset (self self' : DataLoader) (n_splits : Z)
    (type_fold : string) (folds : list (list nat * list nat)) (train : list nat) :
  train_indices self = Some train →
  get_cv_split rs_permutation np_argsort self n_splits type_fold = (self', Ok folds) →
  Forall (λ fold, fold.1 ++ fold.2 ≡ₚ seq 0 (length train)) folds.
Proof.
  intros Htrain (train' & train_data & tests & Htrain' & Hdata & _ & _ & _ & Hfolds)
    %get_cv_split_Ok.
  rewrite Htrain in Htrain'. injection Htrain' as <-.
  assert (length train_data = length train) as Hlen.
  { apply take_idx_Ok, Forall2_length in Hdata. done. }
  rewrite Hlen in Hfolds. apply folds_of_test_indices_Ok in Hfolds.
  apply Forall_forall. intros [tr te] (f & Hf)%list_elem_of_lookup_1.
  destruct (Forall2_lookup_r _ _ _ _ _ Hfolds Hf) as (t & _ & Hfold).
  by apply fold_of_test_index_Permutation in Hfold.
Qed.

(** The slices have the sizes asked for when the indices are enough. *)
Lemma consecutive_slices_lengths (indices : list nat) (current : nat) (fold_sizes : list nat) :
  current + sum_list fold_sizes ≤ length indices →
  Forall2 (λ slice size, length slice = size)
    (Sklearn.consecutive_slices indices current fold_sizes) fold_sizes.
Proof.
  revert current. induction fold_sizes as [|size sizes IH]; intros current Hlen;
    cbn [Sklearn.consecutive_slices]; [constructor|].
  cbn in Hlen. constructor.
  - unfold py_slice. rewrite length_take, length_drop. lia.
  - apply IH. lia.
Qed.

Lemma consecutive_slices_sublist (indices : list nat) (current : nat) (fold_sizes : list nat) :
  Forall (λ slice, slice `sublist_of` indices)
    (Sklearn.consecutive_slices indices current fold_sizes).
Proof.
  revert current. induction fold_sizes as [|size sizes IH]; intros current;
    cbn [Sklearn.consecutive_slices]; constructor; [|done].
  unfold py_slice. etrans; [apply sublist_take|apply sublist_drop].
Qed.

(** X20. The shuffled k-fold is balanced: with [n] rows in the training
    subset and [k] folds, the validation side of fold [i] has [n / k] rows,
    and one more in the first [n mod k] folds; the train side has the
    rest.  No fold is empty on either side. *)
Theorem random_folds_are_balanced (self self' : DataLoader) (n_splits : Z)
    (type_fold : string) (folds : list (list nat * list nat)) (train : list nat) :
  type_fold ≠ "group-rgi" → type_fold ≠ "group-meas-id" →
  train_indices self = Some train →
  rs_permutation (random_seed self) (length train) ≡ₚ seq 0 (length train) →
  get_cv_split rs_permutation np_argsort self n_splits type_fold = (self', Ok folds) →
  ∀ i fold, folds !! i = Some fold →
    length fold.2
    = length train / Z.to_nat n_splits
      + (if i <? length train mod Z.to_nat n_splits then 1 else 0) ∧
    length fold.1 = length train - length fold.2 ∧
    0 < length fold.2 < length train.
Proof.
  intros Hrgi Hmeas Htrain Hperm Hcv.
  apply get_cv_split_Ok in Hcv
    as (train' & train_data & tests & Htrain' & Hdata & Hk & Hrows & Htests & Hfolds).
  rewrite Htrain in Htrain'. injection Htrain' as <-.
  assert (length train_data = length train) as Hlen.
  { apply take_idx_Ok, Forall2_length in Hdata. done. }
  rewrite Hlen in *.
  unfold iter_test_indices in Htests. rewrite !decide_False in Htests by done.
  rewrite Hlen in Htests. unfold Sklearn.KFold_iter_test_indices in Htests.
  apply bind_Ok in Htests as (rng & [-> _]%check_random_state_Ok & [= <-]).
  set (k := Z.to_nat n_splits) in *. set (n := length train) in *.
  assert (k ≠ 0) as Hk0 by lia.
  pose proof (Nat.div_mod_eq n k) as Hdiv.
  pose proof (Nat.mod_upper_bound n k Hk0) as Hmod.
  assert (1 ≤ n / k) as Hbase.
  { apply Nat.div_le_lower_bound; lia. }
  assert (length (rs_permutation (random_seed self) n) = n) as Hplen.
  { by rewrite Hperm, length_seq. }
  assert (NoDup (rs_permutation (random_seed self) n)) as Hnd.
  { rewrite Hperm. apply NoDup_seq. }
  set (sizes := (λ i, n / k + (if i <? n mod k then 1 else 0)) <$> seq 0 k) in *.
  pose proof (consecutive_slices_lengths (rs_permutation (random_seed self) n) 0 sizes)
    as Hsizes.
  pose proof (consecutive_slices_sublist (rs_permutation (random_seed self) n) 0 sizes)
    as Hsub.
  assert (0 + sum_list sizes ≤ length (rs_permutation (random_seed self) n)) as Hsum.
  { unfold sizes. rewrite sum_fold_sizes, Hplen. lia. }
  specialize (Hsizes Hsum). apply folds_of_test_indices_Ok in Hfolds.
  intros i [tr te] Hi. cbn [fst snd].
  destruct (Forall2_lookup_r _ _ _ _ _ Hfolds Hi) as (t & Ht & Hfold).
  destruct (Forall2_lookup_l _ _ _ _ _ Hsizes Ht) as (size & Hsize & Hlen_t).
  unfold sizes in Hsize. apply list_lookup_fmap_Some in Hsize as (i' & -> & Hi').
  apply lookup_seq in Hi' as [-> Hik]. cbn beta in Hlen_t.
  change (0 + i) with i in Hlen_t.
  pose proof (fold_of_test_index_Permutation _ _ _ _ Hfold) as Hpart.
  apply fold_of_test_index_Ok in Hfold as (_ & Hte & _ & _ & Hnd_te).
  assert (te ≡ₚ t) as Hte_t.
  { apply NoDup_Permutation; [done| |done].
    eapply sublist_NoDup; [exact Hnd|]. rewrite Forall_forall in Hsub.
    apply Hsub. by eapply list_elem_of_lookup_2. }
  apply Permutation_length in Hpart.
  rewrite length_app, length_seq in Hpart.
  rewrite Hte_t, Hlen_t in *. fold n in Hpart.
  destruct (Nat.ltb_spec i (n mod k)); nia.
Qed.

End FoldShape.

Lemma every_fold_partitions_the_training_subset_witness :
  Forall (λ fold : list nat * list nat, fold.1 ++ fold.2 ≡ₚ seq 0 (length [0; 1; 2; 5]))
    [([0; 1], [2; 3]); ([2; 3], [0; 1])].
Proof.
  apply (every_fold_partitions_the_training_subset Examples.rotate_permutation
           Numpy.argsort_stable Examples.loader_split
           (DataLoader.get_cv_split Examples.rotate_permutation Numpy.argsort_stable
              Examples.loader_split 2 "random").1
           2 "random").
  - reflexivity.
  - vm_compute. reflexivity.
Defined.

Lemma random_folds_are_balanced_witness :
  length ([2; 3], [0; 1]).2
  = length [0; 1; 2; 5] / Z.to_nat 2
    + (if 1 <? length [0; 1; 2; 5] mod Z.to_nat 2 then 1 else 0) ∧
  length ([2; 3], [0; 1]).1 = length [0; 1; 2; 5] - length ([2; 3], [0; 1]).2 ∧
  0 < length ([2; 3], [0; 1]).2 < length [0; 1; 2; 5].
Proof.
  apply (random_folds_are_balanced Examples.rotate_permutation
           Numpy.argsort_stable Examples.loader_split
           (DataLoader.get_cv_split Examples.rotate_permutation Numpy.argsort_stable
              Examples.loader_split 2 "random").1
           2 "random" [([0; 1], [2; 3]); ([2; 3], [0; 1])] [0; 1; 2; 5]).
  - done.
  - done.
  - reflexivity.
  - apply (bool_decide_unpack _). vm_compute. exact I.
  - vm_compute. reflexivity.
  - reflexivity.
Defined.

(** ** Refused numbers of folds *)

Section FoldErrors.

Import Numpy get_climate_data DataLoader.

Context (rs_permutation : Z → nat → list nat).
Context (np_argsort : list nat → list nat).

(** X21. On a loader that has been split, a request for fewer than two
    folds, or for more folds than the training subset has rows (shuffled
    k-fold) or distinct grouping keys (grouped fold types), raises
    [ValueError]; the object keeps the folds it had and records the
    refused [n_splits]. *)
Theorem get_cv_split_refuses_fold_counts (self : DataLoader) (n_splits : Z)
    (type_fold : string) (train : list nat) (train_data : list enriched) :
  train_indices self = Some train →
  take_idx (rows (data self)) train = Ok train_data →
  (n_splits ≤ 1)%Z ∨ fold_units type_fold train_data < Z.to_nat n_splits →
  ∃ msg,
    get_cv_split rs_permutation np_argsort self n_splits type_fold
    = (mkDataLoader (data self) (Some n_splits) (random_seed self) (test_size self)
         (cv_split self) (train_indices self) (test_indices self),
       Raise (ValueError msg)).
Proof.
  intros Htrain Hdata Hbad.
  assert (∃ msg, (get_cv_split rs_permutation np_argsort self n_splits type_fold).2
                 = Raise (ValueError msg)) as [msg Hmsg].
  { rewrite (get_cv_split_result _ _ self n_splits type_fold train train_data) by done.
    cbn [Sklearn._BaseKFold_init]. destruct (Z.leb_spec n_splits 1); [by eexists|].
    destruct Hbad as [?|Hunits]; [lia|].
    cbn [mbind result_bind]. unfold Sklearn._BaseKFold_split.
    destruct (Nat.ltb_spec (length train_data) (Z.to_nat n_splits)); [by eexists|].
    unfold fold_units in Hunits.
    destruct (decide (type_fold = "group-rgi" ∨ type_fold = "group-meas-id"))
      as [Htype|Htype]; [|lia].
    rewrite iter_test_indices_grouped by done.
    rewrite GroupKFold_iter_test_indices_unfold.
    destruct (Nat.ltb_spec (length (unique (grouping_key type_fold <$> train_data)))
                (Z.to_nat n_splits)); [|lia].
    by eexists. }
  exists msg. revert Hmsg. unfold get_cv_split.
  destruct (_ ≫= _) as [folds|e]; cbn; [done|]. by intros [= ->].
Qed.

End FoldErrors.

Lemma get_cv_split_refuses_fold_counts_witness :
  ∃ msg,
    DataLoader.get_cv_split Examples.rotate_permutation Numpy.argsort_stable
      Examples.loader_split 4 "group-meas-id"
    = (DataLoader.mkDataLoader (DataLoader.data Examples.loader_split) (Some 4%Z)
         (DataLoader.random_seed Examples.loader_split)
         (DataLoader.test_size Examples.loader_split)
         (DataLoader.cv_split Examples.loader_split)
         (DataLoader.train_indices Examples.loader_split)
         (DataLoader.test_indices Examples.loader_split),
       Raise (ValueError msg)).
Proof.
  apply (get_cv_split_refuses_fold_counts Examples.rotate_permutation Numpy.argsort_stable
           Examples.loader_split 4 "group-meas-id" [0; 1; 2; 5]
           (Examples.measurement "m1" "g1" :: Examples.measurement "m2" "g1"
            :: Examples.measurement "m1" "g1" :: Examples.measurement "m5" "g3" :: [])).
  - reflexivity.
  - vm_compute. reflexivity.
  - right. vm_compute. lia.
Defined.

(** ** The training subset *)

Section TrainData.

Import Numpy get_climate_data DataLoader.

Context (rs_permutation : Z → nat → list nat).

(** X22. After a split that returned, [_get_train_data] returns one row for
    every train index, the [k]-th being the row of the table at the [k]-th
    index. *)
Theorem train_data_follows_train_indices (self self' : DataLoader) (test_size : float)
    (shuffle : bool) (train test : list nat) :
  set_train_test_split rs_permutation self test_size shuffle = (self', Ok (train, test)) →
  ∃ train_data,
    _get_train_data self' = Ok train_data ∧
    length train_data = length train ∧
    ∀ k i, train !! k = Some i →
      is_Some (train_data !! k) ∧ train_data !! k = rows (data self) !! i.
Proof.
  intros Hsplit.
  pose proof Hsplit as (Htrain & train_data & Hdata)%set_train_test_split_train_data.
  pose proof Hsplit as (_ & _ & ->)%set_train_test_split_Ok. cbn [data] in Hdata.
  exists train_data. unfold _get_train_data. cbn [train_indices data].
  split; [done|].
  assert (length train_data = length train) as Hlen.
  { apply take_idx_Ok, Forall2_length in Hdata. done. }
  split; [done|]. intros k i Hk.
  rewrite (take_idx_lookup _ _ _ k Hdata), Hk. cbn. split; [|done].
  apply take_idx_Ok in Hdata.
  destruct (Forall2_lookup_l _ _ _ _ _ Hdata Hk) as (r & _ & ->). by eexists.
Qed.

End TrainData.

Lemma train_data_follows_train_indices_witness :
  ∃ train_data,
    DataLoader._get_train_data Examples.loader_split = Ok train_data ∧
    length train_data = length [0; 1; 2; 5] ∧
    ∀ k i, [0; 1; 2; 5] !! k = Some i →
      is_Some (train_data !! k) ∧
      train_data !! k = get_climate_data.rows (DataLoader.data Examples.loader) !! i.
Proof.
  apply (train_data_follows_train_indices Examples.rotate_permutation Examples.loader
           Examples.loader_split 0.3%float true [0; 1; 2; 5] [3; 4]).
  vm_compute. reflexivity.
Defined.

(** ** Grouped folds are not empty *)

Section GroupedFoldsNotEmpty.

Import Numpy get_climate_data DataLoader.

Context (rs_permutation : Z → nat → list nat).
Context (np_argsort : list nat → list nat).

(** [np.argmin] finds the first fold that is still empty. *)
Lemma argmin_first_zero (filled rest : list nat) :
  Forall (λ w, 1 ≤ w) filled → argmin (filled ++ 0 :: rest) = length filled.
Proof.
  induction 1 as [|w filled Hw _ IH].
  { cbn [app argmin length]. replace (forallb _ rest) with true; [done|].
    symmetry. by apply forallb_forall. }
  cbn [app argmin length]. rewrite IH.
  destruct (forallb _ _) eqn:Hall; [|done].
  rewrite forallb_forall in Hall.
  assert (In 0 (filled ++ 0 :: rest)) as Hin.
  { apply list_elem_of_In, elem_of_app. right. left. }
  apply Hall, Nat.leb_le in Hin. lia.
Qed.

(** The loop sets the fold of the groups it visits, and of no other. *)
Lemma foldl_assign_group_other (state : list nat * list nat) (order : list (nat * nat))
    (group : nat) :
  group ∉ order.*1 →
  (foldl Sklearn.assign_group state order).2 !! group = state.2 !! group.
Proof.
  revert state. induction order as [|[g w] order IH]; intros [per_fold to_fold] Hg; [done|].
  cbn [foldl]. rewrite IH.
  - cbn. apply list_lookup_insert_ne. intros ->. apply Hg. left.
  - intros Hin. apply Hg. by right.
Qed.

(** While folds are empty, the groups go to them in turn: the [i]-th group
    visited goes to the [i]-th empty fold. *)
Lemma foldl_assign_group_first (order : list (nat * nat)) (filled : list nat)
    (empty : nat) (to_fold : list nat) (i : nat) (gw : nat * nat) :
  Forall (λ w, 1 ≤ w) filled →
  NoDup order.*1 →
  Forall (λ gw, gw.1 < length to_fold ∧ 1 ≤ gw.2) order →
  i < empty → order !! i = Some gw →
  (foldl Sklearn.assign_group (filled ++ replicate empty 0, to_fold) order).2 !! gw.1
  = Some (length filled + i).
Proof.
  revert filled empty to_fold i.
  induction order as [|[g w] order IH]; intros filled empty to_fold i Hfilled Hnd Hok Hi Hgw;
    [done|].
  destruct empty as [|empty]; [lia|].
  apply NoDup_cons in Hnd as [Hg Hnd]. apply Forall_cons in Hok as [[Hlt Hw] Hok].
  cbn [fst snd] in *. cbn [foldl Sklearn.assign_group replicate].
  rewrite argmin_first_zero by done.
  replace (<[length filled:=(filled ++ 0 :: replicate empty 0) !!! length filled + w]>
             (filled ++ 0 :: replicate empty 0))
    with ((filled ++ [w]) ++ replicate empty 0).
  2:{ rewrite <- app_assoc. cbn [app].
      rewrite insert_app_r_alt, Nat.sub_diag by done. cbn. f_equal. f_equal.
      rewrite lookup_total_app_r, Nat.sub_diag by done. done. }
  destruct i as [|i].
  - injection Hgw as <-. cbn [fst].
    rewrite foldl_assign_group_other by done. cbn [snd].
    rewrite list_lookup_insert_eq by done. f_equal. lia.
  - cbn in Hgw. rewrite (IH (filled ++ [w]) empty _ i); try done.
    + rewrite length_app. cbn. f_equal. lia.
    + apply Forall_app. split; [done|]. by constructor.
    + eapply Forall_impl; [exact Hok|]. intros [g' w'] [? ?]. cbn in *.
      by rewrite length_insert.
    + lia.
Qed.

Lemma max_list_le (l : list nat) (m : nat) : Forall (λ x, x ≤ m) l → max_list l ≤ m.
Proof. induction 1 as [|x l Hx _ IH]; cbn; lia. Qed.

Lemma length_bincount_group_indices (groups : list string) :
  length (bincount (group_indices groups)) = length (unique groups).
Proof.
  destruct groups as [|x groups].
  { done. }
  unfold bincount. destruct (group_indices (x :: groups)) as [|g gs] eqn:Hgi; [done|].
  rewrite <- Hgi, length_fmap, length_seq.
  assert (length (unique (x :: groups)) ≠ 0) as Hne.
  { intros Hlen. assert (x ∈ unique (x :: groups)) as Hx by (apply elem_of_unique; left).
    destruct (unique (x :: groups)); [by apply elem_of_nil in Hx|done]. }
  apply Nat.le_antisymm.
  - pose proof (group_indices_lt (x :: groups)) as Hlt.
    assert (max_list (group_indices (x :: groups)) ≤ length (unique (x :: groups)) - 1).
    { apply max_list_le. eapply Forall_impl; [exact Hlt|]. intros; cbn in *; lia. }
    lia.
  - destruct (group_has_row (x :: groups) (length (unique (x :: groups)) - 1)) as [i Hi];
      [lia|].
    apply list_elem_of_lookup_2, max_list_elem_of_le in Hi. lia.
Qed.

Lemma bincount_lookup (a : list nat) (v : nat) :
  v ∈ a → ∃ w, bincount a !! v = Some w ∧ 1 ≤ w.
Proof.
  intros Hv. unfold bincount. destruct a as [|x a]; [by apply elem_of_nil in Hv|].
  exists (length (filter (v =.) (x :: a))). split.
  - rewrite list_lookup_fmap, lookup_seq_lt; [done|].
    apply max_list_elem_of_le in Hv. lia.
  - assert (v ∈ filter (v =.) (x :: a)) as Hin by (by apply list_elem_of_filter).
    destruct (filter _ _); [by apply elem_of_nil in Hin|cbn; lia].
Qed.

(** Fold [f] receives the [f]-th group in the order of the loop. *)
Lemma group_to_fold_first (n_splits : nat) (groups : list string) (weights : list nat)
    (f : nat) :
  np_argsort (bincount (group_indices groups))
  ≡ₚ seq 0 (length (bincount (group_indices groups))) →
  take_idx (bincount (group_indices groups)) (group_order np_argsort groups) = Ok weights →
  f < n_splits → n_splits ≤ length (unique groups) →
  ∃ g, g < length (unique groups) ∧
       group_to_fold np_argsort n_splits groups weights !! g = Some f.
Proof.
  intros Hsort Hweights Hf Hk.
  assert (group_order np_argsort groups ≡ₚ seq 0 (length (unique groups))) as Horder.
  { unfold group_order. by rewrite reverse_Permutation, Hsort, length_bincount_group_indices. }
  assert (length (group_order np_argsort groups) = length (unique groups)) as Hlen.
  { by rewrite Horder, length_seq. }
  apply take_idx_Ok in Hweights.
  pose proof (Forall2_length _ _ _ Hweights) as Hlenw.
  destruct (lookup_lt_is_Some_2 (group_order np_argsort groups) f) as [g Hg]; [lia|].
  destruct (Forall2_lookup_l _ _ _ _ _ Hweights Hg) as (w & Hw & _).
  exists g. split.
  { apply list_elem_of_lookup_2 in Hg. rewrite Horder, elem_of_seq in Hg. lia. }
  unfold group_to_fold.
  pose proof (foldl_assign_group_first
                (zip (group_order np_argsort groups) weights) [] n_splits
                (replicate (length (unique groups)) 0) f (g, w)) as Hfirst.
  cbn [app length fst] in Hfirst. apply Hfirst; clear Hfirst.
  - constructor.
  - rewrite fst_zip by lia. rewrite Horder. apply NoDup_seq.
  - apply Forall_forall. intros [g' w'] Hin. cbn [fst snd].
    apply list_elem_of_lookup_1 in Hin as [j Hj].
    apply lookup_zip_Some in Hj as [Hg' Hw'].
    rewrite length_replicate. split.
    + apply list_elem_of_lookup_2 in Hg'. rewrite Horder, elem_of_seq in Hg'. lia.
    + destruct (Forall2_lookup_l _ _ _ _ _ Hweights Hg') as (w'' & Hw'' & Hbin).
      rewrite Hw' in Hw''. injection Hw'' as <-.
      assert (g' < length (unique groups)) as Hlt.
      { apply list_elem_of_lookup_2 in Hg'. rewrite Horder, elem_of_seq in Hg'. lia. }
      destruct (group_has_row groups g' Hlt) as [i Hi%list_elem_of_lookup_2].
      destruct (bincount_lookup _ _ Hi) as (w'' & Hw'' & Hpos).
      rewrite Hbin in Hw''. by injection Hw'' as ->.
  - done.
  - by apply lookup_zip_Some.
Qed.

(** X23. With a grouped fold type no fold is empty: every fold that
    [get_cv_split] returns has at least one row on its validation side and
    at least one on its train side (when [np.argsort] returns a permutation
    of the positions of the group sizes). *)
Theorem grouped_folds_are_not_empty (self self' : DataLoader) (n_splits : Z)
    (type_fold : string) (folds : list (list nat * list nat)) (train_data : list enriched) :
  type_fold = "group-rgi" ∨ type_fold = "group-meas-id" →
  _get_train_data self = Ok train_data →
  np_argsort (bincount (group_indices (grouping_key type_fold <$> train_data)))
  ≡ₚ seq 0 (length (bincount (group_indices (grouping_key type_fold <$> train_data)))) →
  get_cv_split rs_permutation np_argsort self n_splits type_fold = (self', Ok folds) →
  Forall (λ fold, fold.1 ≠ [] ∧ fold.2 ≠ []) folds.
Proof.
  intros Htype Hget Hsort
    (train & train_data' & tests & Htrain & Hdata & Hk & Hrows & Htests & Hfolds)%get_cv_split_Ok.
  unfold _get_train_data in Hget. rewrite Htrain, Hdata in Hget. injection Hget as ->.
  rewrite iter_test_indices_grouped in Htests by done.
  set (groups := grouping_key type_fold <$> train_data) in *.
  rewrite GroupKFold_iter_test_indices_unfold in Htests.
  destruct (Nat.ltb_spec (length (unique groups)) (Z.to_nat n_splits)) as [|Hgroups];
    [done|].
  apply bind_Ok in Htests as (weights & Hweights & Htests).
  apply bind_Ok in Htests as (row_fold & Hrow_fold & [= <-]).
  assert (∀ f, f < Z.to_nat n_splits → ∃ i, row_fold !! i = Some f) as Hrow.
  { intros f Hf.
    destruct (group_to_fold_first (Z.to_nat n_splits) groups weights f)
      as (g & Hg & Hgf); try done.
    destruct (group_has_row groups g Hg) as [i Hi]. exists i.
    by rewrite (take_idx_lookup _ _ _ i Hrow_fold), Hi. }
  assert (∀ f i, i ∈ flatnonzero ((λ i, bool_decide (i = f)) <$> row_fold)
                 ↔ row_fold !! i = Some f) as Hmem.
  { intros f i. rewrite elem_of_flatnonzero, list_lookup_fmap.
    destruct (row_fold !! i) as [f'|]; cbn; [|done]. split.
    - by intros [= ->%bool_decide_eq_true].
    - intros [= ->]. by rewrite bool_decide_eq_true_2. }
  assert (length row_fold = length train_data) as Hlen.
  { apply take_idx_Ok, Forall2_length in Hrow_fold.
    unfold group_indices, groups in Hrow_fold. by rewrite !length_fmap in Hrow_fold. }
  apply folds_of_test_indices_Ok in Hfolds.
  apply Forall_forall. intros [tr te] (f & Hf)%list_elem_of_lookup_1.
  destruct (Forall2_lookup_r _ _ _ _ _ Hfolds Hf) as (t & Ht & Hfold).
  apply list_lookup_fmap_Some in Ht as (f' & -> & Hf').
  apply lookup_seq in Hf' as [-> Hfk]. change (0 + f) with f in *.
  apply fold_of_test_index_Ok in Hfold as (_ & Hte & Htr & _).
  cbn [fst snd]. split.
  - destruct (Hrow (if decide (f = 0) then 1 else 0)) as [i Hi].
    { case_decide; lia. }
    assert (i ∈ tr) as Hin.
    { apply Htr. split.
      - apply lookup_lt_Some in Hi. lia.
      - rewrite Hmem, Hi. intros [= Heq]. case_decide; lia. }
    intros ->. by apply elem_of_nil in Hin.
  - destruct (Hrow f Hfk) as [i Hi].
    assert (i ∈ te) as Hin by (by apply Hte, Hmem).
    intros ->. by apply elem_of_nil in Hin.
Qed.

End GroupedFoldsNotEmpty.

Lemma grouped_folds_are_not_empty_witness :
  Forall (λ fold : list nat * list nat, fold.1 ≠ [] ∧ fold.2 ≠ [])
    [([1; 3], [0; 2]); ([0; 1; 2], [3]); ([0; 2; 3], [1])].
Proof.
  apply (grouped_folds_are_not_empty Examples.rotate_permutation Numpy.argsort_stable
           Examples.loader_split
           (DataLoader.get_cv_split Examples.rotate_permutation Numpy.argsort_stable
              Examples.loader_split 3 "group-meas-id").1
           3 "group-meas-id" [([1; 3], [0; 2]); ([0; 1; 2], [3]); ([0; 2; 3], [1])]
           (Examples.measurement "m1" "g1" :: Examples.measurement "m2" "g1"
            :: Examples.measurement "m1" "g1" :: Examples.measurement "m5" "g3" :: [])).
  - by right.
  - vm_compute. reflexivity.
  - apply (bool_decide_unpack _). vm_compute. exact I.
  - vm_compute. reflexivity.
Defined.

(** ** Refused sizes *)

Section SplitErrors.

Import Numpy get_climate_data DataLoader.

Context (rs_permutation : Z → nat → list nat).

Lemma ceil_nan_mul (x : float) : Float64.ceil (nan * x) = None.
Proof.
  unfold Float64.ceil. rewrite FloatAxioms.mul_spec.
  change (Prim2SF nan) with S754_nan. reflexivity.
Qed.

Lemma validate_shuffle_split_rejects (n_samples : nat) (test_size : float) :
  PrimFloat.leb test_size 0 = true ∨ PrimFloat.leb 1 test_size = true ∨
  is_nan test_size = true →
  ∃ msg, Sklearn._validate_shuffle_split n_samples test_size = Raise (ValueError msg).
Proof.
  unfold Sklearn._validate_shuffle_split. intros [H|[H|H]].
  - rewrite H. by eexists.
  - rewrite H, orb_true_r. by eexists.
  - apply is_nan_true in H as ->.
    destruct (_ || _); [by eexists|]. rewrite ceil_nan_mul. by eexists.
Qed.

(** X24. [set_train_test_split] raises [ValueError] on an empty table and
    for a [test_size] that is not strictly between 0 and 1 (NaN included);
    it then records the refused [test_size] and leaves everything else,
    the indices of an earlier split included, as it was. *)
Theorem set_train_test_split_rejects_sizes (self : DataLoader) (test_size : float)
    (shuffle : bool) :
  rows (data self) = [] ∨ PrimFloat.leb test_size 0 = true ∨
  PrimFloat.leb 1 test_size = true ∨ is_nan test_size = true →
  ∃ msg,
    set_train_test_split rs_permutation self test_size shuffle
    = (mkDataLoader (data self) (n_splits self) (random_seed self) (Some test_size)
         (cv_split self) (train_indices self) (test_indices self),
       Raise (ValueError msg)).
Proof.
  intros Hbad. unfold set_train_test_split. cbn.
  assert (∃ msg, Sklearn.GroupShuffleSplit_split rs_permutation (random_seed self) test_size
                   ((λ r, ID (base r)) <$> rows (data self)) = Raise (ValueError msg))
    as [msg ->].
  { unfold Sklearn.GroupShuffleSplit_split.
    destruct (rows (data self)) as [|r rs] eqn:Hrows; [by eexists|].
    destruct Hbad as [?|Hbad]; [done|].
    csimpl. unfold unique_inverse. cbv zeta.
    destruct (validate_shuffle_split_rejects
                (length (unique (ID (base r) :: ((λ r, ID (base r)) <$> rs)))) test_size Hbad)
      as [msg ->].
    by eexists. }
  by exists msg.
Qed.

End SplitErrors.

Lemma set_train_test_split_rejects_sizes_witness :
  ∃ msg,
    DataLoader.set_train_test_split Examples.rotate_permutation Examples.loader_split
      1%float true
    = (DataLoader.mkDataLoader (DataLoader.data Examples.loader_split)
         (DataLoader.n_splits Examples.loader_split)
         (DataLoader.random_seed Examples.loader_split) (Some 1%float)
         (DataLoader.cv_split Examples.loader_split)
         (DataLoader.train_indices Examples.loader_split)
         (DataLoader.test_indices Examples.loader_split),
       Raise (ValueError msg)).
Proof.
  apply (set_train_test_split_rejects_sizes Examples.rotate_permutation
           Examples.loader_split 1%float true).
  right. right. left. reflexivity.
Defined.

(** ** Order of the returned indices *)

Section AscendingIndices.

Import Numpy get_climate_data DataLoader.

Context (rs_permutation : Z → nat → list nat).
Context (np_argsort : list nat → list nat).

Lemma Sorted_lt_seq (start len : nat) : StronglySorted lt (seq start len).
Proof.
  revert start. induction len as [|len IH]; intros start; [constructor|].
  cbn. constructor; [apply IH|]. apply Forall_forall. intros i Hi%elem_of_seq. lia.
Qed.

Lemma StronglySorted_filter_lt (P : nat → Prop) `{∀ i, Decision (P i)} (l : list nat) :
  StronglySorted lt l → StronglySorted lt (filter P l).
Proof.
  induction 1 as [|x l Hl IH Hx]; [constructor|].
  rewrite filter_cons. destruct (decide (P x)); [|done].
  constructor; [done|]. apply Forall_forall. intros i [_ Hi]%list_elem_of_filter.
  rewrite Forall_forall in Hx. by apply Hx.
Qed.

(** [np.flatnonzero] returns positions in ascending order. *)
Lemma flatnonzero_ascending (mask : list bool) : StronglySorted lt (flatnonzero mask).
Proof. apply StronglySorted_filter_lt, Sorted_lt_seq. Qed.

(** X25. The index arrays come back in ascending order: the train and test
    indices of [set_train_test_split], and both sides of every fold of
    [get_cv_split], the shuffled k-fold included.  Shuffling decides on
    which side a row goes, not the order of the rows on a side. *)
Theorem returned_indices_are_ascending (self : DataLoader) (test_size : float)
    (shuffle : bool) (n_splits : Z) (type_fold : string) :
  match (set_train_test_split rs_permutation self test_size shuffle).2 with
  | Ok (train, test) => StronglySorted lt train ∧ StronglySorted lt test
  | Raise _ => True
  end ∧
  match (get_cv_split rs_permutation np_argsort self n_splits type_fold).2 with
  | Ok folds => Forall (λ fold, StronglySorted lt fold.1 ∧ StronglySorted lt fold.2) folds
  | Raise _ => True
  end.
Proof.
  split.
  - destruct (set_train_test_split rs_permutation self test_size shuffle)
      as [self' [[train test]|e]] eqn:Hsplit; [|done]. cbn [snd].
    apply set_train_test_split_Ok in Hsplit as (Hsplit & _ & _).
    apply GroupShuffleSplit_split_Ok in Hsplit as (n_train & n_test & -> & ->).
    split; apply flatnonzero_ascending.
  - destruct (get_cv_split rs_permutation np_argsort self n_splits type_fold)
      as [self' [folds|e]] eqn:Hcv; [|done]. cbn [snd].
    apply get_cv_split_Ok in Hcv as (train & train_data & tests & _ & _ & _ & _ & _ & Hfolds).
    apply folds_of_test_indices_Ok in Hfolds.
    apply Forall_forall. intros [tr te] (f & Hf)%list_elem_of_lookup_1.
    destruct (Forall2_lookup_r _ _ _ _ _ Hfolds Hf) as (t & _ & Hfold).
    unfold Sklearn.fold_of_test_index in Hfold.
    destruct (forallb _ t); [|done]. injection Hfold as <- <-.
    split; apply flatnonzero_ascending.
Qed.

End AscendingIndices.

(** ** Grouped folds are balanced *)

Section GroupedFoldsBalanced.

Import Numpy get_climate_data DataLoader.

Context (rs_permutation : Z → nat → list nat).
Context (np_argsort : list nat → list nat).

Lemma filter_ext_Forall {A} (P1 P2 : A → Prop) `{∀ x, Decision (P1 x)}
    `{∀ x, Decision (P2 x)} (l : list A) :
  Forall (λ x, P1 x ↔ P2 x) l → filter P1 l = filter P2 l.
Proof.
  induction 1 as [|x l Hx _ IH]; [done|].
  rewrite !filter_cons, IH. destruct (decide (P1 x)), (decide (P2 x)); tauto.
Qed.

(** [np.argmin] returns a position of a least value. *)
Lemma argmin_least (a : list nat) (y : nat) : y ∈ a → a !!! argmin a ≤ y.
Proof.
  revert y. induction a as [|x a IH]; intros y Hy; [by apply elem_of_nil in Hy|].
  cbn [argmin]. destruct (forallb (λ y, x <=? y) a) eqn:Hall.
  - cbn. apply elem_of_cons in Hy as [->|Hy]; [done|].
    rewrite forallb_forall in Hall. apply Nat.leb_le, Hall. by apply list_elem_of_In.
  - change ((x :: a) !!! S (argmin a)) with (a !!! argmin a).
    apply elem_of_cons in Hy as [->|Hy]; [|by apply IH].
    assert (∃ z, z ∈ a ∧ z < x) as (z & Hz & Hlt).
    { clear IH. induction a as [|z a IHa]; [done|]. cbn in Hall.
      destruct (Nat.leb_spec x z).
      - cbn in Hall. destruct (IHa Hall) as (z' & Hz' & Hlt). exists z'. split; [by right|done].
      - exists z. split; [left|done]. }
    specialize (IH z Hz). lia.
Qed.

(** The loop keeps the folds within the weight of the heaviest group of
    one another. *)
Lemma foldl_assign_group_balanced (heaviest : nat) (order : list (nat * nat))
    (state : list nat * list nat) :
  Forall (λ gw, gw.2 ≤ heaviest) order →
  (∀ x y, x ∈ state.1 → y ∈ state.1 → x ≤ y + heaviest) →
  ∀ x y, x ∈ (foldl Sklearn.assign_group state order).1 →
         y ∈ (foldl Sklearn.assign_group state order).1 → x ≤ y + heaviest.
Proof.
  revert state. induction order as [|[g w] order IH]; intros [per_fold to_fold] Hw Hbal;
    [done|].
  apply Forall_cons in Hw as [Hw Hws]. cbn [fst snd] in *.
  cbn [foldl]. apply IH; [done|]. cbn [Sklearn.assign_group fst].
  intros x y [f Hx]%list_elem_of_lookup_1 [f' Hy]%list_elem_of_lookup_1.
  apply list_lookup_insert_Some in Hx, Hy.
  assert (∀ z, z ∈ per_fold → per_fold !!! argmin per_fold ≤ z) as Hmin
    by (intros z; apply argmin_least).
  destruct Hx as [(_ & <- & _)|[_ Hx%list_elem_of_lookup_2]],
           Hy as [(_ & <- & _)|[_ Hy%list_elem_of_lookup_2]].
  - lia.
  - specialize (Hmin y Hy). lia.
  - assert (per_fold !!! argmin per_fold ∈ per_fold) as Hin.
    { apply list_elem_of_lookup_2 with (argmin per_fold).
      apply list_lookup_lookup_total_lt, argmin_lt. intros ->. by apply elem_of_nil in Hx. }
    specialize (Hbal x _ Hx Hin). lia.
  - by apply Hbal.
Qed.

(** The weight that the fold map [to_fold] puts on fold [f] out of the
    groups [order]. *)
Definition fold_load (to_fold : list nat) (order : list (nat * nat)) (f : nat) : nat :=
  sum_list (snd <$> filter (λ gw, to_fold !! gw.1 = Some f) order).

Lemma fold_load_insert (to_fold : list nat) (order : list (nat * nat)) (f g l : nat) :
  g ∉ order.*1 → fold_load (<[g:=l]> to_fold) order f = fold_load to_fold order f.
Proof.
  intros Hg. unfold fold_load. f_equal. f_equal. apply filter_ext_Forall.
  apply Forall_forall. intros [g' w'] Hin. cbn.
  rewrite list_lookup_insert_ne; [done|]. intros ->. apply Hg.
  apply list_elem_of_fmap. by exists (g', w').
Qed.

Lemma fold_load_snoc (to_fold : list nat) (order : list (nat * nat)) (g w f : nat) :
  fold_load to_fold (order ++ [(g, w)]) f
  = fold_load to_fold order f + (if decide (to_fold !! g = Some f) then w else 0).
Proof.
  unfold fold_load. rewrite filter_app, fmap_app, sum_list_with_app.
  rewrite filter_cons, filter_nil. cbn [fst]. case_decide; cbn; lia.
Qed.

(** The weight of a fold is the weight of the groups it was given. *)
Lemma foldl_assign_group_load (rest done : list (nat * nat)) (state : list nat * list nat) :
  NoDup (done ++ rest).*1 →
  Forall (λ gw, gw.1 < length state.2) rest →
  state.1 ≠ [] →
  (∀ f, f < length state.1 → state.1 !!! f = fold_load state.2 done f) →
  ∀ f, f < length state.1 →
    (foldl Sklearn.assign_group state rest).1 !!! f
    = fold_load (foldl Sklearn.assign_group state rest).2 (done ++ rest) f.
Proof.
  revert done state. induction rest as [|[g w] rest IH];
    intros done [per_fold to_fold] Hnd Hlt Hne Hload f Hf; cbn [fst snd] in *.
  { rewrite app_nil_r. by apply Hload. }
  apply Forall_cons in Hlt as [Hg Hlt]. cbn [fst] in Hg.
  cbn [foldl]. replace (done ++ (g, w) :: rest) with ((done ++ [(g, w)]) ++ rest)
    by (by rewrite <- app_assoc).
  assert (argmin per_fold < length per_fold) as Hmin by (by apply argmin_lt).
  apply IH; cbn [Sklearn.assign_group fst snd].
  - by rewrite <- app_assoc.
  - eapply Forall_impl; [exact Hlt|]. intros gw ?. by rewrite length_insert.
  - intros Hnil. apply (f_equal length) in Hnil. rewrite length_insert in Hnil.
    by destruct per_fold.
  - intros f' Hf'. rewrite length_insert in Hf'.
    rewrite fold_load_snoc, fold_load_insert.
    2:{ rewrite fmap_app in Hnd. apply NoDup_app in Hnd as (_ & Hdisj & _).
        intros Hin. apply (Hdisj g Hin). left. }
    rewrite list_lookup_insert_eq by done.
    destruct (decide (f' = argmin per_fold)) as [->|Hne'].
    + rewrite list_lookup_total_insert_eq by done.
      rewrite decide_True by done. by rewrite Hload.
    + rewrite list_lookup_total_insert_ne by done.
      rewrite decide_False by congruence. rewrite Hload by done. lia.
  - by rewrite length_insert.
Qed.

(** The number of rows with the label [f]. *)
Lemma length_flatnonzero (mask : list bool) :
  length (flatnonzero mask) = length (filter (λ b, b = true) mask).
Proof.
  unfold flatnonzero.
  assert (∀ start, length (filter (λ i, mask !! (i - start) = Some true)
                             (seq start (length mask)))
                   = length (filter (λ b, b = true) mask)) as H.
  { induction mask as [|b mask IH]; intros start; [done|].
    cbn [length seq]. rewrite !filter_cons, Nat.sub_diag. cbn [lookup list_lookup].
    assert (filter (λ i, (b :: mask) !! (i - start) = Some true) (seq (S start) (length mask))
            = filter (λ i, mask !! (i - S start) = Some true) (seq (S start) (length mask)))
      as ->.
    { apply filter_ext_Forall. apply Forall_forall. intros i Hi%elem_of_seq.
      replace (i - start) with (S (i - S start)) by lia. done. }
    destruct b; repeat case_decide; try congruence; cbn [length]; by rewrite IH. }
  rewrite <- (H 0). f_equal. apply list_filter_iff. intros i. by rewrite Nat.sub_0_r.
Qed.

(** Counting the entries of [a] that satisfy [Q], group by group. *)
Lemma count_by_group (Q : nat → Prop) `{∀ g, Decision (Q g)} (a : list nat) (n_groups : nat) :
  Forall (λ g, g < n_groups) a →
  length (filter Q a)
  = sum_list ((λ g, length (filter (g =.) a)) <$> filter Q (seq 0 n_groups)).
Proof.
  induction 1 as [|x a Hx _ IH].
  { symmetry. induction (filter Q (seq 0 n_groups)) as [|g l IHl]; [done|]. done. }
  assert (∀ l, NoDup l →
            sum_list ((λ g, length (filter (g =.) (x :: a))) <$> l)
            = sum_list ((λ g, length (filter (g =.) a)) <$> l)
              + (if decide (x ∈ l) then 1 else 0)) as Hsum.
  { induction 1 as [|g l Hg Hnd IHl]; [done|].
    cbn [fmap list_fmap sum_list sum_list_with]. rewrite IHl, filter_cons.
    repeat case_decide; cbn [length id]; try lia; exfalso; try subst g;
      repeat match goal with
      | H : _ ∈ _ :: _ |- _ => apply elem_of_cons in H
      | H : _ ∉ _ :: _ |- _ => rewrite elem_of_cons in H
      end; intuition congruence. }
  rewrite Hsum by apply NoDup_filter, NoDup_seq.
  rewrite filter_cons. destruct (decide (Q x)).
  - rewrite decide_True; [cbn; lia|]. apply list_elem_of_filter. split; [done|].
    apply elem_of_seq. lia.
  - rewrite decide_False; [lia|]. by intros [? _]%list_elem_of_filter.
Qed.

Lemma foldl_assign_group_length_folds (state : list nat * list nat)
    (order : list (nat * nat)) :
  length (foldl Sklearn.assign_group state order).1 = length state.1.
Proof.
  revert state. induction order as [|[group weight] order IH];
    intros [per_fold to_fold]; [done|].
  cbn [foldl]. rewrite IH. cbn. apply length_insert.
Qed.

Lemma bincount_lookup_count (a : list nat) (v w : nat) :
  bincount a !! v = Some w → w = length (filter (v =.) a).
Proof.
  unfold bincount. destruct a as [|x a]; [done|].
  rewrite list_lookup_fmap. intros (v' & Hv' & ->)%fmap_Some.
  by apply lookup_seq in Hv' as [-> _].
Qed.

(** The groups visited by the loop, each with its number of rows. *)
Lemma zip_order_weights (a order weights : list nat) :
  Forall2 (λ g w, bincount a !! g = Some w) order weights →
  zip order weights = (λ g, (g, length (filter (g =.) a))) <$> order.
Proof.
  induction 1 as [|g w order weights Hw _ IH]; [done|].
  csimpl. rewrite IH. by rewrite (bincount_lookup_count a g w Hw).
Qed.

(** The rows of a fold, counted through the fold of their groups. *)
Lemma count_rows_of_fold (to_fold group_indices row_fold : list nat) (f : nat) :
  Forall2 (λ g x, to_fold !! g = Some x) group_indices row_fold →
  length (flatnonzero ((λ x, bool_decide (x = f)) <$> row_fold))
  = length (filter (λ g, to_fold !! g = Some f) group_indices).
Proof.
  rewrite length_flatnonzero.
  induction 1 as [|g x gi rf Hg _ IH]; [done|].
  csimpl. rewrite !filter_cons, Hg.
  destruct (decide (x = f)) as [->|Hne].
  - rewrite bool_decide_eq_true_2 by done. rewrite !decide_True by done.
    cbn. by rewrite IH.
  - rewrite bool_decide_eq_false_2 by done. rewrite !decide_False by congruence. done.
Qed.

(** The weight of a fold at the end of the loop is its number of rows. *)
Lemma fold_load_rows (to_fold group_indices order : list nat) (n_groups f : nat) :
  order ≡ₚ seq 0 n_groups →
  Forall (λ g, g < n_groups) group_indices →
  fold_load to_fold ((λ g, (g, length (filter (g =.) group_indices))) <$> order) f
  = length (filter (λ g, to_fold !! g = Some f) group_indices).
Proof.
  intros Horder Hlt. unfold fold_load.
  rewrite (filter_fmap (λ gw : nat * nat, to_fold !! gw.1 = Some f)).
  rewrite <- list_fmap_compose.
  rewrite (count_by_group (λ g, to_fold !! g = Some f) group_indices n_groups Hlt).
  unfold compose. cbn [fst snd]. by rewrite Horder.
Qed.

(** X26. The grouped folds are balanced up to one group: the validation
    sides of any two folds that [get_cv_split] returns for [group-rgi] or
    [group-meas-id] differ in size by at most the number of rows of the
    largest group of the training subset (when [np.argsort] returns a
    permutation of the positions of the group sizes). *)
Theorem grouped_folds_are_balanced (self self' : DataLoader) (n_splits : Z)
    (type_fold : string) (folds : list (list nat * list nat)) (train_data : list enriched)
    (fold fold' : list nat * list nat) :
  type_fold = "group-rgi" ∨ type_fold = "group-meas-id" →
  _get_train_data self = Ok train_data →
  np_argsort (bincount (group_indices (grouping_key type_fold <$> train_data)))
  ≡ₚ seq 0 (length (bincount (group_indices (grouping_key type_fold <$> train_data)))) →
  get_cv_split rs_permutation np_argsort self n_splits type_fold = (self', Ok folds) →
  fold ∈ folds → fold' ∈ folds →
  length fold.2
  ≤ length fold'.2
    + max_list (bincount (group_indices (grouping_key type_fold <$> train_data))).
Proof.
  intros Htype Hget Hsort
    (train & train_data' & tests & Htrain & Hdata & Hk & Hrows & Htests & Hfolds)%get_cv_split_Ok.
  unfold _get_train_data in Hget. rewrite Htrain, Hdata in Hget. injection Hget as ->.
  rewrite iter_test_indices_grouped in Htests by done.
  set (groups := grouping_key type_fold <$> train_data) in *.
  rewrite GroupKFold_iter_test_indices_unfold in Htests.
  destruct (Nat.ltb_spec (length (unique groups)) (Z.to_nat n_splits)) as [|Hgroups];
    [done|].
  apply bind_Ok in Htests as (weights & Hweights & Htests).
  apply bind_Ok in Htests as (row_fold & Hrow_fold & [= <-]).
  apply take_idx_Ok in Hweights, Hrow_fold.
  assert (group_order np_argsort groups ≡ₚ seq 0 (length (unique groups))) as Horder.
  { unfold group_order. by rewrite reverse_Permutation, Hsort, length_bincount_group_indices. }
  unfold group_to_fold in Hrow_fold.
  rewrite (zip_order_weights _ _ _ Hweights) in Hrow_fold.
  set (visited := (λ g, (g, length (filter (g =.) (group_indices groups))))
                    <$> group_order np_argsort groups) in *.
  set (start := (replicate (Z.to_nat n_splits) 0, replicate (length (unique groups)) 0)) in *.
  set (final := foldl Sklearn.assign_group start visited) in *.
  assert (visited.*1 = group_order np_argsort groups) as Hfst.
  { unfold visited. rewrite <- list_fmap_compose. apply list_fmap_id. }
  (* The size of the validation side of fold [f] is the weight of fold [f]. *)
  assert (∀ f fold, folds !! f = Some fold → length fold.2 = final.1 !!! f) as Hsize.
  { intros f [tr te] Hf. apply folds_of_test_indices_Ok in Hfolds.
    destruct (Forall2_lookup_r _ _ _ _ _ Hfolds Hf) as (t & Ht & Hfold).
    apply list_lookup_fmap_Some in Ht as (f' & -> & Hf').
    apply lookup_seq in Hf' as [-> Hfk]. change (0 + f) with f in *.
    apply fold_of_test_index_Ok in Hfold as (_ & Hte & _ & _ & Hnd_te).
    cbn [snd].
    rewrite (Permutation_length
               (NoDup_Permutation te _ Hnd_te (NoDup_flatnonzero _) Hte)).
    rewrite (count_rows_of_fold final.2 (group_indices groups) row_fold f Hrow_fold).
    rewrite <- (fold_load_rows final.2 (group_indices groups)
                  (group_order np_argsort groups) (length (unique groups)) f Horder
                  (group_indices_lt groups)).
    fold visited. symmetry.
    apply (foldl_assign_group_load visited [] start).
    - cbn [app]. rewrite Hfst, Horder. apply NoDup_seq.
    - apply Forall_forall. intros [g w] Hin. cbn [fst snd start].
      rewrite length_replicate.
      assert (g ∈ visited.*1) as Hg by (apply list_elem_of_fmap; by exists (g, w)).
      rewrite Hfst, Horder, elem_of_seq in Hg. lia.
    - cbn [start fst]. destruct (Z.to_nat n_splits) eqn:Hn; [lia|done].
    - intros f' Hf'. cbn [start fst snd] in *. rewrite length_replicate in Hf'.
      by rewrite lookup_total_replicate_2.
    - cbn [start fst]. by rewrite length_replicate. }
  intros [f Hf]%list_elem_of_lookup_1 [f' Hf']%list_elem_of_lookup_1.
  rewrite (Hsize f fold Hf), (Hsize f' fold' Hf').
  assert (length final.1 = Z.to_nat n_splits) as Hlen.
  { unfold final. rewrite foldl_assign_group_length_folds. apply length_replicate. }
  assert (length folds = Z.to_nat n_splits) as Hnfolds.
  { rewrite (folds_length _ _ _ Hfolds), length_fmap. apply length_seq. }
  apply (foldl_assign_group_balanced _ visited start).
  - apply Forall_forall. intros [g w] (g' & [= -> ->] & Hg')%list_elem_of_fmap. cbn [snd].
    assert (g' < length (unique groups)) as Hlt.
    { rewrite Horder, elem_of_seq in Hg'. lia. }
    destruct (group_has_row groups g' Hlt) as [i Hi%list_elem_of_lookup_2].
    destruct (bincount_lookup _ _ Hi) as (w & Hw & _).
    rewrite <- (bincount_lookup_count _ _ _ Hw).
    apply max_list_elem_of_le. by eapply list_elem_of_lookup_2.
  - intros x y ->%elem_of_replicate_inv ->%elem_of_replicate_inv. lia.
  - apply list_elem_of_lookup_2 with f. apply list_lookup_lookup_total_lt.
    apply lookup_lt_Some in Hf. lia.
  - apply list_elem_of_lookup_2 with f'. apply list_lookup_lookup_total_lt.
    apply lookup_lt_Some in Hf'. lia.
Qed.

End GroupedFoldsBalanced.

Lemma grouped_folds_are_balanced_witness :
  length ([1; 3], [0; 2]).2
  ≤ length ([0; 1; 2], [3]).2
    + max_list (Numpy.bincount
                  (group_indices
                     (grouping_key "group-meas-id"
                        <$> [Examples.measurement "m1" "g1"; Examples.measurement "m2" "g1";
                             Examples.measurement "m1" "g1"; Examples.measurement "m5" "g3"]))).
Proof.
  apply (grouped_folds_are_balanced Examples.rotate_permutation Numpy.argsort_stable
           Examples.loader_split
           (DataLoader.get_cv_split Examples.rotate_permutation Numpy.argsort_stable
              Examples.loader_split 3 "group-meas-id").1
           3 "group-meas-id" [([1; 3], [0; 2]); ([0; 1; 2], [3]); ([0; 2; 3], [1])]).
  - by right.
  - vm_compute. reflexivity.
  - apply (bool_decide_unpack _). vm_compute. exact I.
  - vm_compute. reflexivity.
  - left.
  - right. left.
Defined.
